(** * Advanced E-commerce Product Scraper: a shallow embedding

    The development follows the layout of the repository:
    - [PyStr]    : the fragment of Python's [str] the code relies on;
    - [PyFloat]  : [float()] and [int()] of a string, and the doubles;
    - [Price]    : [src/utils.py], [clean_price];
    - [Parser]   : [src/parser.py] ([parse_product_listings], [find_next_page_url]);
    - [Runtime]  : the state and the monad of the code that has effects;
    - [Sink]     : [src/utils.py], [save_to_csv] and [save_to_json];
    - [Scraper]  : [src/scraper.py] ([ProductScraper.scrape_products], [close_driver]);
    - [Main]     : [src/main.py] ([main]);
    - [Fixture]  : a scripted browser, page table and disk on which the
                   model runs on concrete inputs.

    A Python [str] is a list of code points.  Exceptions are values of [exn];
    a computation yields a [result].  Code that talks to the browser, the
    clock or the disk runs in the state monad [M] over a record that holds
    the outside world, the scraper object's fields and the trace of calls
    and log lines. *)

From Stdlib Require Import String Ascii.
From Stdlib Require Import List Bool Arith NArith ZArith QArith Lia.
Import ListNotations.

Set Implicit Arguments.

(* ================================================================== *)
(** ** Python strings *)
(* ================================================================== *)

Module PyStr.

(** A string is the sequence of its Unicode code points. *)
Definition pystr := list N.

(** Literals of the source are ASCII; [u "abc"] is the string of their codes. *)
Definition u (s : string) : pystr :=
  List.map N_of_ascii (list_ascii_of_string s).

Definition between (lo hi c : N) : bool := ((lo <=? c) && (c <=? hi))%N.

(** [str.isspace] / the regex class [\s] on a [str] pattern: the code points
    CPython's [Py_UNICODE_ISSPACE] accepts. *)
Definition is_space (c : N) : bool :=
  between 9 13 c || between 28 32 c || (c =? 133)%N || (c =? 160)%N
  || (c =? 5760)%N || between 8192 8202 c || (c =? 8232)%N || (c =? 8233)%N
  || (c =? 8239)%N || (c =? 8287)%N || (c =? 12288)%N.

(** The decimal digits of Unicode, as CPython 3.11 has them (Unicode 14):
    66 runs of ten code points, each run the digits 0 to 9 in order.  The
    list gives the zero of each run: ASCII, Arabic-Indic, Extended
    Arabic-Indic, NKo, Devanagari, ..., the fullwidth and the mathematical
    digits, ... *)
Definition digit_zeros : list N :=
  [48; 1632; 1776; 1984; 2406; 2534; 2662; 2790; 2918; 3046; 3174; 3302;
   3430; 3558; 3664; 3792; 3872; 4160; 4240; 6112; 6160; 6470; 6608; 6784;
   6800; 6992; 7088; 7232; 7248; 42528; 43216; 43264; 43472; 43504; 43600;
   44016; 65296; 66720; 68912; 69734; 69872; 69942; 70096; 70384; 70736;
   70864; 71248; 71360; 71472; 71904; 72016; 72784; 73040; 73120; 92768;
   92864; 93008; 120782; 120792; 120802; 120812; 120822; 123200; 123632;
   125264; 130032]%N.

(** [Py_UNICODE_TODECIMAL]: the value of a decimal digit, and nothing for
    any other code point. *)
Definition decimal_digit (c : N) : option N :=
  match find (fun z => between z (z + 9) c) digit_zeros with
  | Some z => Some (c - z)%N
  | None => None
  end.

(** The regex class [\d] of a [str] pattern, and [str.isdecimal]: every
    decimal digit of Unicode. *)
Definition is_digit (c : N) : bool :=
  match decimal_digit c with Some _ => true | None => false end.

Definition digit_val (c : N) : N :=
  match decimal_digit c with Some d => d | None => 0%N end.

Arguments decimal_digit : simpl never.
Arguments is_digit : simpl never.
Arguments digit_val : simpl never.

(** [str.lower], on the letters A-Z.  Case mappings of code points outside
    ASCII produce none of the ASCII letters the program compares against
    (the letters of ['free'] and of ["no results"]), so those code points
    are left as they are. *)
Definition lower_cp (c : N) : N := if between 65 90 c then (c + 32)%N else c.
Definition lower (s : pystr) : pystr := List.map lower_cp s.

Fixpoint eqb (a b : pystr) : bool :=
  match a, b with
  | [], [] => true
  | x :: a', y :: b' => (x =? y)%N && eqb a' b'
  | _, _ => false
  end.

(** Truth value of a string: empty is false. *)
Definition truthy (s : pystr) : bool :=
  match s with [] => false | _ :: _ => true end.

(** Truth value of an optional string ([None] and [""] are false). *)
Definition truthy_opt (o : option pystr) : bool :=
  match o with Some s => truthy s | None => false end.

Fixpoint lstrip (sp : N -> bool) (s : pystr) : pystr :=
  match s with
  | c :: r => if sp c then lstrip sp r else s
  | [] => []
  end.

Definition rstrip (sp : N -> bool) (s : pystr) : pystr :=
  rev (lstrip sp (rev s)).

(** [s.strip()] *)
Definition strip (s : pystr) : pystr := rstrip is_space (lstrip is_space s).

Fixpoint starts_with (p s : pystr) : bool :=
  match p, s with
  | [], _ => true
  | x :: p', y :: s' => (x =? y)%N && starts_with p' s'
  | _ :: _, [] => false
  end.

(** [p in s] *)
Fixpoint contains (p s : pystr) : bool :=
  starts_with p s ||
  match s with
  | [] => false
  | _ :: r => contains p r
  end.

(** [c in s] for a single character. *)
Definition has_char (c : N) (s : pystr) : bool := existsb (N.eqb c) s.

(** [s.split(c)[0]]: the text before the first [c] (all of [s] without one). *)
Fixpoint before_first (c : N) (s : pystr) : pystr :=
  match s with
  | [] => []
  | x :: r => if (x =? c)%N then [] else x :: before_first c r
  end.

(** [s.replace(c, "")] for a single character [c]. *)
Definition remove_char (c : N) (s : pystr) : pystr :=
  filter (fun x => negb (x =? c)%N) s.

(** Maximal prefix of digits, and the rest. *)
Fixpoint span_digits (s : pystr) : pystr * pystr :=
  match s with
  | c :: r =>
      if is_digit c then let (ds, rest) := span_digits r in (c :: ds, rest)
      else ([], s)
  | [] => ([], [])
  end.

(** Value of a digit string, most significant digit first. *)
Definition digits_value (ds : pystr) : N :=
  fold_left (fun acc c => (10 * acc + digit_val c)%N) ds 0%N.

End PyStr.
Import PyStr.

(* ================================================================== *)
(** ** Exceptions and results *)
(* ================================================================== *)

(** The exception classes the program distinguishes.  In selenium,
    [TimeoutException] derives from [WebDriverException]; every class here
    derives from [Exception]. *)
Inductive exn : Type :=
| TimeoutException
| WebDriverException
| ValueError
| TypeError
| OSError
| OtherException.

(** [isinstance(e, WebDriverException)] *)
Definition is_WebDriverException (e : exn) : bool :=
  match e with
  | TimeoutException | WebDriverException => true
  | _ => false
  end.

Definition is_TimeoutException (e : exn) : bool :=
  match e with TimeoutException => true | _ => false end.

(** Outcome of a call: a value, or a raised exception. *)
Inductive result (A : Type) : Type :=
| Ok (a : A)
| Raise (e : exn).
Arguments Ok {A} a.
Arguments Raise {A} e.

(* ================================================================== *)
(** ** [float()] and [int()] of a string *)
(* ================================================================== *)

Module PyFloat.

(** A Python [float] is an IEEE 754 double: the finite value
    [(-1)^neg * mant * 2^exp2], an infinity, or a NaN.  A finite value is
    kept with an odd mantissa (zero as [0 * 2^0]), so that equal values
    are equal terms. *)
Inductive pyfloat : Type :=
| PFinite (neg : bool) (mant : N) (exp2 : Z)
| PInf (neg : bool)
| PNaN.

(** The rational a finite value denotes. *)
Definition to_Q (v : pyfloat) : option Q :=
  match v with
  | PFinite neg m e =>
      let a := (if neg then - Z.of_N m else Z.of_N m)%Z in
      Some (inject_Z a * Qpower (2 # 1) e)
  | _ => None
  end.

(** [v] is finite and denotes the rational [q]. *)
Definition denotes (v : pyfloat) (q : Q) : Prop :=
  match to_Q v with
  | Some x => x == q
  | None => False
  end.

(** [v >= 0] as Python evaluates it: false on NaN and on negatives. *)
Definition ge0 (v : pyfloat) : bool :=
  match v with
  | PFinite neg m _ => negb neg || (m =? 0)%N
  | PInf neg => negb neg
  | PNaN => false
  end.

(** [p * 2^e] with the trailing zero bits of [p] moved into the exponent. *)
Fixpoint odd_part (p : positive) (e : Z) : positive * Z :=
  match p with
  | xO q => odd_part q (e + 1)
  | _ => (p, e)
  end.

Definition finite (neg : bool) (m : N) (e : Z) : pyfloat :=
  match m with
  | N0 => PFinite neg 0 0
  | Npos p => let (q, e') := odd_part p e in PFinite neg (Npos q) e'
  end.

(** The integer nearest to [n / d]; of two that are equally near, the even
    one. *)
Definition round_half_even (n d : N) : N :=
  let q := (n / d)%N in
  let r := (n mod d)%N in
  if (d <? 2 * r)%N then (q + 1)%N
  else if (2 * r =? d)%N && N.odd q then (q + 1)%N
  else q.

(** The double nearest to the decimal [m * 10^e10], as the correctly
    rounding [strtod] of CPython gives it (round half to even).  With
    [k] the binary exponent of the decimal, the value is rounded to a
    multiple of [2^(k - 52)], or of [2^-1074] in the subnormal range; what
    reaches [2^1024] is an infinity. *)
Definition double_of_decimal (neg : bool) (m : N) (e10 : Z) : pyfloat :=
  if (m =? 0)%N then PFinite neg 0 0
  else
    let num := (m * 10 ^ Z.to_N e10)%N in
    let den := (10 ^ Z.to_N (- e10))%N in
    let l := (Z.of_N (N.log2 num) - Z.of_N (N.log2 den))%Z in
    let k := if (den * 2 ^ Z.to_N l <=? num * 2 ^ Z.to_N (- l))%N
             then l else (l - 1)%Z in
    let e2 := Z.max (k - 52) (-1074) in
    let q := round_half_even (num * 2 ^ Z.to_N (- e2)) (den * 2 ^ Z.to_N e2) in
    if (1024 <=? e2 + Z.of_N (N.log2 q))%Z then PInf neg
    else finite neg q e2.

Arguments double_of_decimal : simpl never.

(** [_PyUnicode_TransformDecimalAndSpaceToASCII], which [float()] and
    [int()] apply to their argument first: a code point below 127 stays, a
    space beyond becomes a blank, a decimal digit beyond becomes its ASCII
    digit, and any other code point becomes ['?'], which no numeral
    contains (CPython also drops what follows it). *)
Definition to_ascii_char (c : N) : N :=
  if (c <? 127)%N then c
  else if is_space c then 32%N
  else match decimal_digit c with
       | Some d => (48 + d)%N
       | None => 63%N
       end.

Definition to_ascii (s : pystr) : pystr := List.map to_ascii_char s.

(** [Py_ISSPACE]: the blanks [float()] and [int()] strip from the
    transformed text. *)
Definition is_num_space (c : N) : bool :=
  between 9 13 c || (c =? 32)%N.

(** Underscores may only stand between two digits. *)
Fixpoint underscores_ok (prev : N) (s : pystr) : bool :=
  match s with
  | [] => negb (prev =? 95)%N
  | c :: r =>
      if (c =? 95)%N then is_digit prev && underscores_ok c r
      else (negb (prev =? 95)%N || is_digit c) && underscores_ok c r
  end.

Definition parse_sign (s : pystr) : bool * pystr :=
  match s with
  | c :: r => if (c =? 45)%N then (true, r)
              else if (c =? 43)%N then (false, r) else (false, s)
  | [] => (false, [])
  end.

(** What follows the mantissa: nothing, or [e]/[E], an optional sign and at
    least one digit. *)
Definition parse_exponent (s : pystr) : option Z :=
  match s with
  | [] => Some 0%Z
  | c :: r =>
      if (c =? 101)%N || (c =? 69)%N then
        let (neg, r1) := parse_sign r in
        let (ds, r2) := span_digits r1 in
        match ds, r2 with
        | _ :: _, [] =>
            let e := Z.of_N (digits_value ds) in
            Some (if neg then (- e)%Z else e)
        | _, _ => None
        end
      else None
  end.

(** [digits [. digits] [exponent]] with at least one digit in the mantissa. *)
Definition parse_decimal (neg : bool) (s : pystr) : option pyfloat :=
  let (ip, r1) := span_digits s in
  let (fp, r2) :=
    match r1 with
    | c :: r => if (c =? 46)%N then span_digits r else ([], r1)
    | [] => ([], r1)
    end in
  match ip ++ fp with
  | [] => None
  | ds =>
      match parse_exponent r2 with
      | Some e =>
          Some (double_of_decimal neg (digits_value ds)
                                  (e - Z.of_nat (List.length fp)))
      | None => None
      end
  end.

(** [float_from_string_inner], on the transformed text. *)
Definition float_of_ascii (a : pystr) : result pyfloat :=
  let t := rstrip is_num_space (lstrip is_num_space a) in
  if underscores_ok 0 t then
    let (neg, r) := parse_sign (remove_char 95 t) in
    let lr := lower r in
    if PyStr.eqb lr (u "inf") || PyStr.eqb lr (u "infinity") then Ok (PInf neg)
    else if PyStr.eqb lr (u "nan") then Ok PNaN
    else match parse_decimal neg r with
         | Some v => Ok v
         | None => Raise ValueError
         end
  else Raise ValueError.

(** [float(s)] for a string [s]. *)
Definition py_float (s : pystr) : result pyfloat := float_of_ascii (to_ascii s).

(** [sys.int_info.default_max_str_digits]: [int()] refuses a text of more
    digits (CPython 3.11, and the security releases of 3.7 to 3.10). *)
Definition int_max_str_digits : nat := 4300.

Arguments int_max_str_digits : simpl never.

(** [PyLong_FromString] in base 10, on the transformed text. *)
Definition int_of_ascii (a : pystr) : result Z :=
  let t := rstrip is_num_space (lstrip is_num_space a) in
  if underscores_ok 0 t then
    let (neg, r) := parse_sign (remove_char 95 t) in
    let (ds, rest) := span_digits r in
    match ds, rest with
    | _ :: _, [] =>
        if (int_max_str_digits <? List.length ds)%nat then Raise ValueError
        else
          let n := Z.of_N (digits_value ds) in
          Ok (if neg then (- n)%Z else n)
    | _, _ => Raise ValueError
    end
  else Raise ValueError.

(** [int(s)] for a string [s]. *)
Definition py_int (s : pystr) : result Z := int_of_ascii (to_ascii s).

End PyFloat.
Import PyFloat.

(* ================================================================== *)
(** ** utils.py: price cleaning *)
(* ================================================================== *)

Module Price.

(** The characters [re.sub(r"[$,£€]|\s|,|", "", ...)] deletes: the class
    [$ , £ €], whitespace, and the comma again.  The last, empty alternative
    matches the empty string and replaces it by the empty string. *)
Definition in_price_class (c : N) : bool :=
  (c =? 36)%N || (c =? 44)%N || (c =? 163)%N || (c =? 8364)%N.

Definition deleted_by_sub (c : N) : bool :=
  in_price_class c || is_space c || (c =? 44)%N.

Fixpoint re_sub_price (s : pystr) : pystr :=
  match s with
  | [] => []
  | c :: r => if deleted_by_sub c then re_sub_price r else c :: re_sub_price r
  end.

(** Lines 93-96: the text left after the substitution and the cut at the
    first ['-']. *)
Definition cleaned_text (price_str : pystr) : pystr :=
  let cleaned := re_sub_price (strip price_str) in
  if has_char 45 cleaned then before_first 45 cleaned else cleaned.

(** The body of the [try] block of [clean_price]. *)
Definition clean_price_body (price_str : pystr) : result (option pyfloat) :=
  let cleaned := cleaned_text price_str in
  if PyStr.eqb (lower cleaned) (u "free") then Ok (Some (PFinite false 0 0))
  else
    match py_float cleaned with
    | Ok price => Ok (Some price)
    | Raise e => Raise e
    end.

(** [utils.clean_price]: [None] in, [None] out; [ValueError] and
    [TypeError] from the body are caught and turned into [None]. *)
Definition clean_price (price_str : option pystr) : result (option pyfloat) :=
  match price_str with
  | None => Ok None
  | Some s =>
      match clean_price_body s with
      | Raise ValueError | Raise TypeError => Ok None
      | r => r
      end
  end.

End Price.
Import Price.

(* ================================================================== *)
(** ** config.py *)
(* ================================================================== *)

(** The settings the modelled code reads. *)
Record Config : Type := {
  BASE_URL : pystr;
  CATEGORY_PATH : pystr;
  MAX_PAGES : nat;
  OUTPUT_FILENAME_CSV : pystr;
  OUTPUT_FILENAME_JSON : pystr
}.

(** The values of [src/config.py]. *)
Definition config_py : Config := {|
  BASE_URL := u "https://www.example-ecommerce.com";
  CATEGORY_PATH := u "/electronics/laptops";
  MAX_PAGES := 2;
  OUTPUT_FILENAME_CSV := u "products.csv";
  OUTPUT_FILENAME_JSON := u "products.json"
|}.

(* ================================================================== *)
(** ** parser.py *)
(* ================================================================== *)

(** Sequencing of calls that may raise. *)
Definition rbind {A B} (r : result A) (k : A -> result B) : result B :=
  match r with
  | Ok a => k a
  | Raise e => Raise e
  end.

Notation "x <-? e ;; k" := (rbind e (fun x => k))
  (at level 61, e at next level, right associativity).

Module Parser.

(** An element as BeautifulSoup hands it out: its text nodes in document
    order, and its [href] attribute when it has one. *)
Record element : Type := {
  el_strings : list pystr;
  el_href : option pystr
}.

(** [element.get_text(strip=True)]: every text node stripped, the empty
    ones dropped, the rest concatenated. *)
Definition get_text_strip (e : element) : pystr :=
  concat (filter truthy (List.map strip (el_strings e))).

(** One product container: what [container.select_one] returns for each of
    the five selectors of [parser.py]. *)
Record container : Type := {
  name_element : option element;
  price_element : option element;
  rating_element : option element;
  reviews_element : option element;
  url_element : option element
}.

(** The dictionary [product_info]. *)
Record product : Type := {
  name : pystr;
  price : option pyfloat;
  rating : option pyfloat;
  reviews : option Z;
  url : pystr;
  scraped_timestamp : pystr
}.

(** What the parser takes from outside the repository: [urllib]'s
    [urljoin] (which raises [ValueError] on some malformed input),
    BeautifulSoup's selection of the product containers and of the next
    page link of a page (parsing and selecting do not raise), and the clock
    ([clock_isoformat k] is what the k-th call of
    [datetime.now().isoformat()] of a run returns). *)
Record Lib : Type := {
  urljoin : pystr -> pystr -> result pystr;
  select_product_containers : pystr -> list container;
  select_next_page : pystr -> option element;
  clock_isoformat : nat -> pystr
}.

(** [utils.get_timestamp_string], at the k-th reading of the clock. *)
Definition get_timestamp_string (lib : Lib) (k : nat) : pystr :=
  clock_isoformat lib k.

(** [re.search(r"(\d+(\.\d+)?)", s).group(1)]: from the first digit, the
    longest run of digits, then a dot and digits when both are there. *)
Fixpoint re_search_rating (s : pystr) : option pystr :=
  match s with
  | [] => None
  | c :: r =>
      if is_digit c then
        let (ds, r1) := span_digits s in
        match r1 with
        | d :: r2 =>
            if (d =? 46)%N then
              match span_digits r2 with
              | ([], _) => Some ds
              | (fs, _) => Some (ds ++ 46%N :: fs)
              end
            else Some ds
        | [] => Some ds
        end
      else re_search_rating r
  end.

(** [\d{1,3}], greedy: up to [n] digits. *)
Fixpoint take_digits (n : nat) (s : pystr) : pystr * pystr :=
  match n, s with
  | S n', c :: r =>
      if is_digit c then let (ds, rest) := take_digits n' r in (c :: ds, rest)
      else ([], s)
  | _, _ => ([], s)
  end.

(** [(?:,\d{3})*], greedy: as many groups of a comma and three digits as
    follow. *)
Fixpoint comma_groups (s : pystr) : pystr * pystr :=
  match s with
  | k :: a :: b :: c :: r =>
      if (k =? 44)%N && is_digit a && is_digit b && is_digit c then
        let (g, rest) := comma_groups r in (k :: a :: b :: c :: g, rest)
      else ([], s)
  | _ => ([], s)
  end.

(** First alternative of the review pattern, [\d{1,3}(?:,\d{3})*], at the
    start of [s]. *)
Definition reviews_alt1 (s : pystr) : option pystr :=
  match take_digits 3 s with
  | ([], _) => None
  | (ds, r) => let (g, _) := comma_groups r in Some (ds ++ g)
  end.

(** Second alternative, [\d+], at the start of [s]. *)
Definition reviews_alt2 (s : pystr) : option pystr :=
  match span_digits s with
  | ([], _) => None
  | (ds, _) => Some ds
  end.

(** The alternation tries its branches in order and keeps the first that
    matches. *)
Definition reviews_match_at (s : pystr) : option pystr :=
  match reviews_alt1 s with
  | Some m => Some m
  | None => reviews_alt2 s
  end.

(** [re.search(r"(\d{1,3}(?:,\d{3})*|\d+)", s).group(1)]: the match at the
    leftmost position that has one. *)
Fixpoint re_search_reviews (s : pystr) : option pystr :=
  match reviews_match_at s with
  | Some m => Some m
  | None =>
      match s with
      | [] => None
      | _ :: r => re_search_reviews r
      end
  end.

(** Lines 57-62 of [parser.py], from [rating_str] on. *)
Definition extract_rating (rating_str : option pystr) : result (option pyfloat) :=
  match rating_str with
  | Some s =>
      if truthy s then
        match re_search_rating s with
        | Some g => v <-? py_float g ;; Ok (Some v)
        | None => Ok None
        end
      else Ok None
  | None => Ok None
  end.

(** Lines 64-68 of [parser.py], from [reviews_str] on. *)
Definition extract_reviews (reviews_str : option pystr) : result (option Z) :=
  match reviews_str with
  | Some s =>
      if truthy s then
        match re_search_reviews s with
        | Some g => n <-? py_int (remove_char 44 g) ;; Ok (Some n)
        | None => Ok None
        end
      else Ok None
  | None => Ok None
  end.

(** The number of digits [int()] is handed for a review text: those of the
    numeral the pattern matches, without its commas; none without a match. *)
Definition review_digits (reviews_str : option pystr) : nat :=
  match reviews_str with
  | Some s =>
      match re_search_reviews s with
      | Some g => List.length (remove_char 44 g)
      | None => 0
      end
  | None => 0
  end.

Section WithLib.

Variable cfg : Config.
Variable lib : Lib.

(** The body of the [try] block of the loop over containers.  [ts] is what
    [utils.get_timestamp_string()] returns if it is called.  The value is
    [Some] of the record appended to [products_data], or [None] when the
    container is skipped. *)
Definition parse_container (ts : pystr) (c : container) : result (option product) :=
  let name := option_map get_text_strip (name_element c) in
  let price_str := option_map get_text_strip (price_element c) in
  price <-? clean_price price_str ;;
  let rating_str := option_map get_text_strip (rating_element c) in
  rating <-? extract_rating rating_str ;;
  let reviews_str := option_map get_text_strip (reviews_element c) in
  reviews <-? extract_reviews reviews_str ;;
  let relative_url :=
    match url_element c with
    | Some e => el_href e
    | None => None
    end in
  absolute_url <-?
    (if truthy_opt relative_url then
       match relative_url with
       | Some h => a <-? urljoin lib (BASE_URL cfg) h ;; Ok (Some a)
       | None => Ok None
       end
     else Ok None) ;;
  match name, absolute_url with
  | Some n, Some a =>
      if truthy n && truthy a then
        Ok (Some {| name := n; price := price; rating := rating;
                    reviews := reviews; url := a; scraped_timestamp := ts |})
      else Ok None
  | _, _ => Ok None
  end.

(** A container is well formed when its name and its absolute URL can be
    resolved: the title element has text, the link element has a non-empty
    [href], and [urljoin] turns it into a non-empty URL. *)
Definition well_formed (c : container) : bool :=
  match name_element c with
  | Some e => truthy (get_text_strip e)
  | None => false
  end
  &&
  match url_element c with
  | Some e =>
      match el_href e with
      | Some h =>
          truthy h &&
          match urljoin lib (BASE_URL cfg) h with
          | Ok a => truthy a
          | Raise _ => false
          end
      | None => false
      end
  | None => false
  end.

(** A container yields a record when it is well formed and the numeral of
    its review text has no more digits than [int()] accepts. *)
Definition builds_record (c : container) : bool :=
  well_formed c &&
  (review_digits (option_map get_text_strip (reviews_element c))
   <=? int_max_str_digits)%nat.

(** The loop over the containers.  [k] counts the readings of the clock so
    far; an exception of a container is caught and the loop goes on with
    the next one. *)
Fixpoint parse_containers (cs : list container) (k : nat) : list product * nat :=
  match cs with
  | [] => ([], k)
  | c :: rest =>
      match parse_container (get_timestamp_string lib k) c with
      | Ok (Some p) =>
          let (ps, k') := parse_containers rest (S k) in (p :: ps, k')
      | _ => parse_containers rest k
      end
  end.

(** [parser.parse_product_listings]. *)
Definition parse_product_listings (html_content : pystr) (k : nat)
  : list product * nat :=
  match select_product_containers lib html_content with
  | [] => ([], k)
  | cs => parse_containers cs k
  end.

(** [parser.find_next_page_url]. *)
Definition find_next_page_url (html_content : pystr) : result (option pystr) :=
  match select_next_page lib html_content with
  | Some e =>
      match el_href e with
      | Some next_href =>
          a <-? urljoin lib (BASE_URL cfg) next_href ;; Ok (Some a)
      | None => Ok None
      end
  | None => Ok None
  end.

End WithLib.

End Parser.
Import Parser.

(* ================================================================== *)
(** ** The outside world, and the monad of effectful code *)
(* ================================================================== *)

(** The lines the program logs (scraper, sink and entry point). *)
Inductive log_msg : Type :=
| LSetupStart | LSetupOk | LSetupFailed
| LStart | LInitialUrl (start_url : pystr)
| LScrapingPage (page_count : nat) (current_url : pystr)
| LContainerFound
| LWaitTimeout (page_count : nat)
| LNoResults
| LNoHtml (page_count : nat)
| LNoProductsFirstPage
| LNoProductsPage (page_count : nat)
| LFoundProducts (found total : nat)
| LFoundNext (next_url : pystr)
| LNoNextLink
| LPageLoadTimeout (page_count : nat)
| LNextFailedAfterTimeout
| LWebDriverError (page_count : nat)
| LUnexpectedError (page_count : nat)
| LNextFailedAfterError
| LReachedMaxPages
| LFinished (total : nat)
| LDriverClosed | LDriverCloseError
| LNoDataCsv | LSavedCsv | LErrorCsv
| LNoDataJson | LSavedJson | LErrorJson
| LMainInit | LSaving (total : nat) | LSavingDone | LNoDataScraped
| LCritical | LMainFinished.

Inductive sink_fn : Type := SaveToCsv | SaveToJson.

(** What a run does that can be seen from outside, newest first in a trace. *)
Inductive event : Type :=
| EChromeStart
| EGet (url : pystr)
| EWait
| ESource (html : pystr)
| ESleep (halved : bool)
| EQuit
| ECall (f : sink_fn)
| EMakedirs
| EToCsv (data : list product) (filename : pystr)
| EJsonDump (data : list product) (filename : pystr)
| ELog (m : log_msg).

(** The collaborators outside the repository, as transitions of a world
    [W]: the browser session of selenium, and the disk as [os], pandas and
    [json] see it.  Each call returns or raises, and moves the world on. *)
Class Env (W : Type) : Type := {
  logging_setup : W -> result unit * W;
  chrome_start : W -> result unit * W;
  driver_get : pystr -> W -> result unit * W;
  wait_product_container : W -> result unit * W;
  driver_page_source : W -> result pystr * W;
  driver_quit : W -> result unit * W;
  os_makedirs : W -> result unit * W;
  dataframe_to_csv : list product -> pystr -> W -> result unit * W;
  json_dump : list product -> pystr -> W -> result unit * W
}.

Module Runtime.

Section Monad.

Context {W : Type}.

(** The state a run threads: the world, the number of clock readings, the
    two fields of the [ProductScraper] object, and the trace. *)
Record sys : Type := {
  world : W;
  clock_reads : nat;
  all_products_data : list product;
  driver_set : bool;
  trace : list event
}.

Definition set_world (w : W) (s : sys) : sys :=
  {| world := w; clock_reads := clock_reads s;
     all_products_data := all_products_data s;
     driver_set := driver_set s; trace := trace s |}.

Definition set_clock_reads (k : nat) (s : sys) : sys :=
  {| world := world s; clock_reads := k;
     all_products_data := all_products_data s;
     driver_set := driver_set s; trace := trace s |}.

Definition set_all_products_data (d : list product) (s : sys) : sys :=
  {| world := world s; clock_reads := clock_reads s;
     all_products_data := d;
     driver_set := driver_set s; trace := trace s |}.

Definition set_driver_set (b : bool) (s : sys) : sys :=
  {| world := world s; clock_reads := clock_reads s;
     all_products_data := all_products_data s;
     driver_set := b; trace := trace s |}.

Definition push_event (e : event) (s : sys) : sys :=
  {| world := world s; clock_reads := clock_reads s;
     all_products_data := all_products_data s;
     driver_set := driver_set s; trace := e :: trace s |}.

(** A computation: from a state to a result and a state, or to nothing
    when a loop of the model ran out of fuel. *)
Definition M (A : Type) : Type := sys -> option (result A * sys).

Definition ret {A} (a : A) : M A := fun s => Some (Ok a, s).
Definition raise {A} (e : exn) : M A := fun s => Some (Raise e, s).
Definition out_of_fuel {A} : M A := fun _ => None.

Definition bind {A B} (m : M A) (k : A -> M B) : M B :=
  fun s =>
    match m s with
    | Some (Ok a, s') => k a s'
    | Some (Raise e, s') => Some (Raise e, s')
    | None => None
    end.

(** [try: body except Exception as e: handler e]; the handler re-raises
    what its [except] clauses do not match. *)
Definition try_except {A} (body : M A) (handler : exn -> M A) : M A :=
  fun s =>
    match body s with
    | Some (Raise e, s') => handler e s'
    | r => r
    end.

(** [try: body finally: fin] *)
Definition try_finally {A} (body : M A) (fin : M unit) : M A :=
  fun s =>
    match body s with
    | Some (r, s') =>
        match fin s' with
        | Some (Ok _, s'') => Some (r, s'')
        | Some (Raise e, s'') => Some (Raise e, s'')
        | None => None
        end
    | None => None
    end.

(** Runs [m] and hands back how it ended. *)
Definition attempt {A} (m : M A) : M (result A) :=
  fun s =>
    match m s with
    | Some (r, s') => Some (Ok r, s')
    | None => None
    end.

Definition emit (e : event) : M unit := fun s => Some (Ok tt, push_event e s).
Definition log (m : log_msg) : M unit := emit (ELog m).

Definition lift_result {A} (r : result A) : M A := fun s => Some (r, s).

(** A call into the world. *)
Definition env_call {A} (f : W -> result A * W) : M A :=
  fun s => let (r, w') := f (world s) in Some (r, set_world w' s).

End Monad.

Arguments sys W : clear implicits.
Arguments M W A : clear implicits.

End Runtime.
Import Runtime.

Notation "x <- e ;; k" := (bind e (fun x => k))
  (at level 61, e at next level, right associativity).
Notation "e ;; k" := (bind e (fun _ => k))
  (at level 61, right associativity).

(* ================================================================== *)
(** ** utils.py: the sink *)
(* ================================================================== *)

Module Sink.

Section WithEnv.

Context {W : Type} {env : Env W}.

(** [utils.save_to_csv].  The directory is made before the [try]; the
    frame is built and written inside it. *)
Definition save_to_csv (data : list product) (filename : pystr) : M W unit :=
  emit (ECall SaveToCsv) ;;
  match data with
  | [] => log LNoDataCsv
  | _ :: _ =>
      emit EMakedirs ;; env_call os_makedirs ;;
      try_except
        (emit (EToCsv data filename) ;;
         env_call (dataframe_to_csv data filename) ;;
         log LSavedCsv)
        (fun _ => log LErrorCsv)
  end.

(** [utils.save_to_json]. *)
Definition save_to_json (data : list product) (filename : pystr) : M W unit :=
  emit (ECall SaveToJson) ;;
  match data with
  | [] => log LNoDataJson
  | _ :: _ =>
      emit EMakedirs ;; env_call os_makedirs ;;
      try_except
        (emit (EJsonDump data filename) ;;
         env_call (json_dump data filename) ;;
         log LSavedJson)
        (fun _ => log LErrorJson)
  end.

End WithEnv.

End Sink.
Import Sink.

(* ================================================================== *)
(** ** scraper.py *)
(* ================================================================== *)

Module Scraper.

(** How an iteration of the [while] loop ends: at its end or by
    [continue] (back to the loop test), or by [break]. *)
Inductive ctl : Type := Continue | Break.

Section WithEnv.

Context {W : Type} {env : Env W}.
Variable cfg : Config.
Variable lib : Lib.

(** [self.driver.page_source]; the trace keeps the text that was read. *)
Definition page_source : M W pystr :=
  src <- env_call driver_page_source ;;
  emit (ESource src) ;;
  ret src.

(** [time.sleep(config.REQUEST_DELAY / 2)] and [time.sleep(config.REQUEST_DELAY)] *)
Definition sleep (halved : bool) : M W unit := emit (ESleep halved).

(** [parser.parse_product_listings(html_content)], reading the clock for
    every record. *)
Definition parse_listings (html_content : pystr) : M W (list product) :=
  fun s =>
    let (ps, k) := parse_product_listings cfg lib html_content (clock_reads s) in
    Some (Ok ps, set_clock_reads k s).

(** [self.all_products_data.extend(page_products)] *)
Definition extend_products (page_products : list product) : M W unit :=
  fun s => Some (Ok tt, set_all_products_data (all_products_data s ++ page_products) s).

Definition get_all_products : M W (list product) :=
  fun s => Some (Ok (all_products_data s), s).

(** [ProductScraper._setup_driver]: both handlers log and re-raise. *)
Definition _setup_driver : M W unit :=
  log LSetupStart ;;
  try_except
    (emit EChromeStart ;; env_call chrome_start ;; log LSetupOk)
    (fun e => log LSetupFailed ;; raise e).

(** [ProductScraper._get_full_url] *)
Definition _get_full_url (path : pystr) : M W pystr :=
  lift_result (urljoin lib (BASE_URL cfg) path).

(** [ProductScraper.__init__] *)
Definition ProductScraper_init : M W unit :=
  _setup_driver ;;
  (fun s => Some (Ok tt, set_all_products_data [] (set_driver_set true s))).

(** The three places that look for the next link after a failure:
    [try: current_url = parser.find_next_page_url(self.driver.page_source)
     except Exception: ...; current_url = None]. *)
Definition next_url_after_failure (on_error : M W unit) : M W (option pystr) :=
  try_except
    (src <- page_source ;; lift_result (find_next_page_url cfg lib src))
    (fun _ => on_error ;; ret None).

(** Lines 84-132: the [try] block of one iteration.  The value is how the
    iteration ends and the new [current_url]. *)
Definition page_try_block (current_url : pystr) (page_count : nat)
  : M W (ctl * option pystr) :=
  emit (EGet current_url) ;; env_call (driver_get current_url) ;;
  no_results <-
    try_except
      (emit EWait ;; env_call wait_product_container ;;
       log LContainerFound ;; ret false)
      (fun e =>
         if is_TimeoutException e then
           log (LWaitTimeout page_count) ;;
           src <- page_source ;;
           if contains (u "no results") (lower src)
           then log LNoResults ;; ret true
           else ret false
         else raise e) ;;
  if no_results : bool then ret (Break, Some current_url)
  else
    sleep true ;;
    html_content <- page_source ;;
    if negb (truthy html_content) then
      log (LNoHtml page_count) ;;
      nxt <- next_url_after_failure (ret tt) ;;
      ret (Continue, nxt)
    else
      page_products <- parse_listings html_content ;;
      (match page_products with
       | [] => if (page_count =? 1)%nat then log LNoProductsFirstPage
               else log (LNoProductsPage page_count)
       | _ :: _ => ret tt
       end) ;;
      extend_products page_products ;;
      total <- get_all_products ;;
      log (LFoundProducts (List.length page_products) (List.length total)) ;;
      nxt <- lift_result (find_next_page_url cfg lib html_content) ;;
      if truthy_opt nxt then
        log (LFoundNext (match nxt with Some a => a | None => [] end)) ;;
        sleep false ;;
        ret (Continue, nxt)
      else
        log LNoNextLink ;; ret (Break, nxt).

(** Lines 83-155: the [try] block with its three [except] clauses, in the
    order of the source. *)
Definition loop_iteration (current_url : pystr) (page_count : nat)
  : M W (ctl * option pystr) :=
  try_except (page_try_block current_url page_count)
    (fun e =>
       if is_TimeoutException e then
         log (LPageLoadTimeout page_count) ;;
         nxt <- next_url_after_failure (log LNextFailedAfterTimeout) ;;
         ret (Continue, nxt)
       else if is_WebDriverException e then
         log (LWebDriverError page_count) ;;
         ret (Break, Some current_url)
       else
         log (LUnexpectedError page_count) ;;
         nxt <- next_url_after_failure (log LNextFailedAfterError) ;;
         ret (Continue, nxt)).

(** Lines 79-155: [while current_url and page_count < config.MAX_PAGES].
    The value is [current_url] and [page_count] at the exit of the loop. *)
Fixpoint while_loop (fuel : nat) (current_url : option pystr) (page_count : nat)
  : M W (option pystr * nat) :=
  match current_url with
  | Some cur =>
      if truthy cur && (page_count <? MAX_PAGES cfg)%nat then
        match fuel with
        | O => out_of_fuel
        | S fuel' =>
            let page_count := S page_count in
            log (LScrapingPage page_count cur) ;;
            r <- loop_iteration cur page_count ;;
            match r with
            | (Break, nxt) => ret (nxt, page_count)
            | (Continue, nxt) => while_loop fuel' nxt page_count
            end
        end
      else ret (current_url, page_count)
  | None => ret (None, page_count)
  end.

(** The loop, and lines 157-158 after it. *)
Definition scrape_loop (fuel : nat) (start_url : pystr) : M W nat :=
  r <- while_loop fuel (Some start_url) 0 ;;
  let page_count := snd r in
  (if (MAX_PAGES cfg <=? page_count)%nat then log LReachedMaxPages else ret tt) ;;
  ret page_count.

(** [ProductScraper.scrape_products] *)
Definition scrape_products : M W (list product) :=
  start_url <- _get_full_url (CATEGORY_PATH cfg) ;;
  log LStart ;;
  log (LInitialUrl start_url) ;;
  scrape_loop (MAX_PAGES cfg) start_url ;;
  data <- get_all_products ;;
  log (LFinished (List.length data)) ;;
  ret data.

(** [ProductScraper.close_driver] *)
Definition close_driver : M W unit :=
  fun s =>
    if driver_set s then
      try_finally
        (try_except
           (emit EQuit ;; env_call driver_quit ;; log LDriverClosed)
           (fun _ => log LDriverCloseError))
        (fun s' => Some (Ok tt, set_driver_set false s'))
        s
    else Some (Ok tt, s).

End WithEnv.

End Scraper.
Import Scraper.

(* ================================================================== *)
(** ** main.py *)
(* ================================================================== *)

Module Main.

Section WithEnv.

Context {W : Type} {env : Env W}.
Variable cfg : Config.
Variable lib : Lib.

(** Lines 31-42: what follows the creation of the scraper inside [try]. *)
Definition scrape_and_save : M W unit :=
  scraped_data <- scrape_products cfg lib ;;
  match scraped_data with
  | _ :: _ =>
      log (LSaving (List.length scraped_data)) ;;
      save_to_csv scraped_data (OUTPUT_FILENAME_CSV cfg) ;;
      save_to_json scraped_data (OUTPUT_FILENAME_JSON cfg) ;;
      log LSavingDone
  | [] => log LNoDataScraped
  end.

(** [main].  [utils.setup_logging()], a call into the world, runs before
    the [try].  When
    [ProductScraper()] raises, [scraper_instance] is still [None] and the
    [finally] clause closes nothing. *)
Definition main : M W unit :=
  env_call logging_setup ;;
  log LMainInit ;;
  created <- attempt ProductScraper_init ;;
  match created with
  | Raise _ => log LCritical ;; log LMainFinished
  | Ok _ =>
      try_finally
        (try_except (scrape_and_save) (fun _ => log LCritical))
        (close_driver ;; log LMainFinished)
  end.

End WithEnv.

End Main.
Import Main.

(* ================================================================== *)
(** ** A scripted world, to run the model on concrete inputs *)
(* ================================================================== *)

Module Fixture.

(** A page of the scripted site: how [driver.get] and the wait for the
    product container end on it, and its source.  When [driver.get] raises,
    the browser keeps showing the page it was on. *)
Record page : Type := {
  on_get : result unit;
  on_wait : result unit;
  source : pystr
}.

(** The scripted world: the site, the page the browser shows, switches for
    the calls that can fail, and the files written so far. *)
Record fake : Type := {
  site : list (pystr * page);
  shown : option page;
  logging_ok : bool;
  chrome_ok : bool;
  quit_ok : bool;
  makedirs_ok : bool;
  csv_ok : bool;
  json_ok : bool;
  files : list (pystr * list product)
}.

Fixpoint lookup {A} (k : pystr) (t : list (pystr * A)) : option A :=
  match t with
  | [] => None
  | (k', v) :: r => if PyStr.eqb k k' then Some v else lookup k r
  end.

Definition show (p : option page) (w : fake) : fake :=
  {| site := site w; shown := p; logging_ok := logging_ok w;
     chrome_ok := chrome_ok w; quit_ok := quit_ok w;
     makedirs_ok := makedirs_ok w; csv_ok := csv_ok w; json_ok := json_ok w;
     files := files w |}.

Definition add_file (f : pystr) (d : list product) (w : fake) : fake :=
  {| site := site w; shown := shown w; logging_ok := logging_ok w;
     chrome_ok := chrome_ok w; quit_ok := quit_ok w;
     makedirs_ok := makedirs_ok w; csv_ok := csv_ok w; json_ok := json_ok w;
     files := (f, d) :: files w |}.

Definition switch (ok : bool) (e : exn) : result unit :=
  if ok then Ok tt else Raise e.

#[export] Instance fake_env : Env fake := {|
  logging_setup w := (switch (logging_ok w) OSError, w);
  chrome_start w := (switch (chrome_ok w) WebDriverException, w);
  driver_get url w :=
    match lookup url (site w) with
    | Some p =>
        match on_get p with
        | Ok _ => (Ok tt, show (Some p) w)
        | Raise e => (Raise e, w)
        end
    | None => (Raise WebDriverException, w)
    end;
  wait_product_container w :=
    match shown w with
    | Some p => (on_wait p, w)
    | None => (Raise TimeoutException, w)
    end;
  driver_page_source w :=
    match shown w with
    | Some p => (Ok (source p), w)
    | None => (Ok [], w)
    end;
  driver_quit w := (switch (quit_ok w) WebDriverException, show None w);
  os_makedirs w := (switch (makedirs_ok w) OSError, w);
  dataframe_to_csv d f w :=
    if csv_ok w then (Ok tt, add_file f d w) else (Raise OSError, w);
  json_dump d f w :=
    if json_ok w then (Ok tt, add_file f d w) else (Raise OSError, w)
|}.

(** The two cases of [urljoin] the examples use: an absolute [http] URL is
    returned as it is (and a bracket that opens no IPv6 address raises
    [ValueError]), anything else is appended to the base. *)
Definition fixture_urljoin (base href : pystr) : result pystr :=
  if starts_with (u "http://[") href then Raise ValueError
  else if starts_with (u "http") href then Ok href
  else Ok (base ++ href).

(** A library over a table that gives, for the source of each scripted
    page, its product containers and its next-page link. *)
Definition fixture_lib (dom : list (pystr * (list container * option element))) : Lib := {|
  urljoin := fixture_urljoin;
  select_product_containers html :=
    match lookup html dom with Some d => fst d | None => [] end;
  select_next_page html :=
    match lookup html dom with Some d => snd d | None => None end;
  clock_isoformat k := u "2024-01-01T00:00:0" ++ [(48 + N.of_nat k)%N]
|}.

Definition text_element (t : pystr) : element :=
  {| el_strings := [t]; el_href := None |}.

Definition link_element (t href : pystr) : element :=
  {| el_strings := [t]; el_href := Some href |}.

(** A container with a title link, a price, a rating and a review count. *)
Definition full_container (title href price_txt rating_txt reviews_txt : pystr)
  : container := {|
  name_element := Some (link_element title href);
  price_element := Some (text_element price_txt);
  rating_element := Some (text_element rating_txt);
  reviews_element := Some (text_element reviews_txt);
  url_element := Some (link_element title href)
|}.

(** A container without a title link. *)
Definition nameless_container (price_txt : pystr) : container := {|
  name_element := None;
  price_element := Some (text_element price_txt);
  rating_element := None;
  reviews_element := None;
  url_element := None
|}.

Definition laptop_a : container :=
  full_container (u " Laptop A ") (u "/p/a") (u "$1,234.50")
                 (u "4.5 out of 5 stars") (u "1,234 reviews").

Definition laptop_b : container :=
  full_container (u "Laptop B") (u "/p/b") (u "100-200")
                 (u "3") (u "12345 reviews").

(** A container whose link makes [urljoin] raise. *)
Definition laptop_bad_link : container :=
  full_container (u "Laptop C") (u "http://[oops") (u "Free") (u "") (u "").

(** A listing of four containers, the two in the middle ill formed. *)
Definition mixed_listing : list container :=
  [laptop_a; nameless_container (u "$5"); laptop_bad_link; laptop_b].

Definition ok_page (src : pystr) : page :=
  {| on_get := Ok tt; on_wait := Ok tt; source := src |}.

Definition start_py : pystr :=
  u "https://www.example-ecommerce.com/electronics/laptops".
Definition page2_py : pystr :=
  u "https://www.example-ecommerce.com/electronics/laptops?page=2".

(** Two documents: the first lists two products and links to page 2; the
    second lists nothing and has no next link. *)
Definition dom2 : list (pystr * (list container * option element)) :=
  [ (u "<page 1>", ([laptop_a; laptop_b],
                    Some (link_element (u "Next") (u "/electronics/laptops?page=2"))));
    (u "<page 2>", ([], None));
    (u "<mixed>", (mixed_listing, None)) ].

Definition world_of (pages : list (pystr * page)) : fake :=
  {| site := pages; shown := None; logging_ok := true; chrome_ok := true;
     quit_ok := true; makedirs_ok := true; csv_ok := true; json_ok := true;
     files := [] |}.

Definition site2 : fake :=
  world_of [ (start_py, ok_page (u "<page 1>")); (page2_py, ok_page (u "<page 2>")) ].

(** The state of a fresh process in world [w]. *)
Definition boot {W} (w : W) : sys W :=
  {| world := w; clock_reads := 0; all_products_data := [];
     driver_set := false; trace := [] |}.

End Fixture.

(* ================================================================== *)
(** * Properties *)
(* ================================================================== *)

Unset Implicit Arguments.

(** ** Strings *)

Lemma pystr_eqb_eq (a b : pystr) : PyStr.eqb a b = true <-> a = b.
Proof.
  revert b; induction a as [|x a IH]; intros [|y b]; simpl; split;
    try congruence; try reflexivity.
  - intros H. apply andb_true_iff in H as [Hx Hr].
    apply N.eqb_eq in Hx. apply IH in Hr. congruence.
  - intros H. injection H as -> ->. rewrite N.eqb_refl. simpl.
    apply IH. reflexivity.
Qed.

Lemma has_char_false_iff (c : N) (s : pystr) :
  has_char c s = false <-> ~ In c s.
Proof.
  unfold has_char. split.
  - intros H Hin. assert (existsb (N.eqb c) s = true) as E.
    { apply existsb_exists. exists c. split; [exact Hin | apply N.eqb_refl]. }
    congruence.
  - intros H. destruct (existsb (N.eqb c) s) eqn:E; [|reflexivity].
    apply existsb_exists in E as (x & Hin & Hx). apply N.eqb_eq in Hx.
    subst. contradiction.
Qed.

Lemma before_first_no_char (c : N) (s : pystr) : ~ In c (before_first c s).
Proof.
  induction s as [|x r IH]; simpl; [tauto|].
  destruct (x =? c)%N eqn:E; simpl; [tauto|].
  apply N.eqb_neq in E. intros [H|H]; [congruence | auto].
Qed.

Lemma before_first_id (c : N) (s : pystr) :
  ~ In c s -> before_first c s = s.
Proof.
  induction s as [|x r IH]; simpl; intros H; [reflexivity|].
  destruct (x =? c)%N eqn:E.
  - apply N.eqb_eq in E. subst. tauto.
  - f_equal. apply IH. tauto.
Qed.

Lemma before_first_app (c : N) (a b : pystr) :
  ~ In c a -> before_first c (a ++ c :: b) = a.
Proof.
  induction a as [|x r IH]; simpl; intros H.
  - rewrite N.eqb_refl. reflexivity.
  - destruct (x =? c)%N eqn:E.
    + apply N.eqb_eq in E. subst. tauto.
    + f_equal. apply IH. tauto.
Qed.

Lemma lstrip_incl (sp : N -> bool) (s : pystr) (c : N) :
  In c (lstrip sp s) -> In c s.
Proof.
  induction s as [|x r IH]; simpl; [tauto|].
  destruct (sp x); simpl; tauto.
Qed.

Lemma rstrip_incl (sp : N -> bool) (s : pystr) (c : N) :
  In c (rstrip sp s) -> In c s.
Proof.
  unfold rstrip. intros H. apply in_rev in H. apply lstrip_incl in H.
  apply in_rev in H. exact H.
Qed.

Lemma remove_char_incl (x c : N) (s : pystr) :
  In c (remove_char x s) -> In c s.
Proof. unfold remove_char. intros H. apply filter_In in H. tauto. Qed.

(** ** The price cleaner *)

Module PriceFacts.

Definition kept (c : N) : bool := negb (deleted_by_sub c).

Lemma re_sub_price_filter (s : pystr) : re_sub_price s = filter kept s.
Proof.
  induction s as [|c r IH]; simpl; [reflexivity|].
  unfold kept at 1. destruct (deleted_by_sub c); simpl; congruence.
Qed.

Lemma space_deleted (c : N) : is_space c = true -> deleted_by_sub c = true.
Proof.
  unfold deleted_by_sub. intros ->. rewrite orb_true_r. reflexivity.
Qed.

Lemma filter_lstrip (s : pystr) :
  filter kept (lstrip is_space s) = filter kept s.
Proof.
  induction s as [|c r IH]; simpl; [reflexivity|].
  destruct (is_space c) eqn:E; [|reflexivity].
  unfold kept at 2. rewrite (space_deleted _ E). simpl. exact IH.
Qed.

Lemma filter_strip (s : pystr) : filter kept (strip s) = filter kept s.
Proof.
  unfold strip, rstrip.
  rewrite filter_rev, filter_lstrip, <- filter_rev, rev_involutive.
  apply filter_lstrip.
Qed.

Lemma re_sub_price_strip (s : pystr) : re_sub_price (strip s) = re_sub_price s.
Proof. rewrite !re_sub_price_filter. apply filter_strip. Qed.

Lemma re_sub_price_app (a b : pystr) :
  re_sub_price (a ++ b) = re_sub_price a ++ re_sub_price b.
Proof. rewrite !re_sub_price_filter. apply filter_app. Qed.

Lemma re_sub_price_incl (s : pystr) (c : N) :
  In c (re_sub_price s) -> In c s.
Proof. rewrite re_sub_price_filter. intros H. apply filter_In in H. tauto. Qed.

Lemma cleaned_text_no_minus (s : pystr) : ~ In 45%N (cleaned_text s).
Proof.
  unfold cleaned_text.
  destruct (has_char 45 (re_sub_price (strip s))) eqn:E.
  - apply before_first_no_char.
  - apply has_char_false_iff. exact E.
Qed.

(** The cleaner only sees the text with the deleted characters gone. *)
Lemma cleaned_text_drop (a b : pystr) (c : N) :
  deleted_by_sub c = true -> cleaned_text (a ++ c :: b) = cleaned_text (a ++ b).
Proof.
  intros H. unfold cleaned_text. rewrite !re_sub_price_strip.
  rewrite !re_sub_price_app. simpl. rewrite H. reflexivity.
Qed.

Lemma cleaned_text_range (a b : pystr) :
  ~ In 45%N a -> cleaned_text (a ++ 45%N :: b) = cleaned_text a.
Proof.
  intros Ha. unfold cleaned_text. rewrite !re_sub_price_strip.
  rewrite re_sub_price_app. simpl.
  assert (~ In 45%N (re_sub_price a)) as Hn.
  { intros H. apply Ha. eapply re_sub_price_incl. exact H. }
  replace (has_char 45 (re_sub_price a)) with false
    by (symmetry; apply has_char_false_iff; exact Hn).
  replace (has_char 45 (re_sub_price a ++ 45%N :: re_sub_price b)) with true.
  - apply before_first_app. exact Hn.
  - symmetry. unfold has_char. rewrite existsb_app. simpl.
    rewrite orb_true_r. reflexivity.
Qed.

Lemma clean_price_of_text (s t : pystr) :
  cleaned_text s = cleaned_text t ->
  clean_price (Some s) = clean_price (Some t).
Proof. unfold clean_price, clean_price_body. intros ->. reflexivity. Qed.

(** [float] raises nothing but [ValueError]. *)
Lemma py_float_raises (t : pystr) (e : exn) :
  py_float t = Raise e -> e = ValueError.
Proof.
  unfold py_float, float_of_ascii.
  destruct (underscores_ok _ _); [|congruence].
  destruct (parse_sign _) as [neg r].
  destruct (_ || _); [congruence|].
  destruct (PyStr.eqb _ _); [congruence|].
  destruct (parse_decimal _ _); congruence.
Qed.

Lemma clean_price_returns (o : option pystr) : exists r, clean_price o = Ok r.
Proof.
  destruct o as [s|]; simpl; [|eauto].
  unfold clean_price_body.
  destruct (PyStr.eqb _ _); [eauto|].
  destruct (py_float (cleaned_text s)) as [v|e] eqn:E; [eauto|].
  apply py_float_raises in E. subst. eauto.
Qed.

(** Without a minus sign in the text, [float] yields no negative value. *)
Lemma parse_sign_no_minus (s : pystr) :
  ~ In 45%N s -> fst (parse_sign s) = false.
Proof.
  destruct s as [|c r]; simpl; [reflexivity|]. intros H.
  destruct (c =? 45)%N eqn:E.
  - apply N.eqb_eq in E. subst. tauto.
  - destruct (c =? 43)%N; reflexivity.
Qed.

(** Rounding keeps the sign. *)
Lemma double_of_decimal_sign (neg : bool) (m : N) (e : Z) :
  (exists M E, double_of_decimal neg m e = PFinite neg M E)
  \/ double_of_decimal neg m e = PInf neg.
Proof.
  unfold double_of_decimal. destruct (m =? 0)%N; [left; eauto|].
  cbv zeta. destruct (1024 <=? _)%Z; [right; reflexivity|].
  left. unfold finite. destruct (round_half_even _ _) as [|p]; [eauto|].
  destruct (odd_part p _). eauto.
Qed.

Lemma parse_decimal_sign (neg : bool) (r : pystr) (v : pyfloat) :
  parse_decimal neg r = Some v ->
  (exists m e, v = PFinite neg m e) \/ v = PInf neg.
Proof.
  unfold parse_decimal. destruct (span_digits r) as [ip r1].
  destruct (match r1 with [] => _ | _ :: _ => _ end) as [fp r2].
  destruct (ip ++ fp); [congruence|].
  destruct (parse_exponent r2); [|congruence].
  intros H. injection H as <-. apply double_of_decimal_sign.
Qed.

(** The transformation to ASCII makes no minus sign. *)
Lemma to_ascii_char_minus (c : N) : to_ascii_char c = 45%N -> c = 45%N.
Proof.
  unfold to_ascii_char. destruct (c <? 127)%N; [auto|].
  destruct (is_space c); [discriminate|].
  destruct (decimal_digit c); [lia | discriminate].
Qed.

Lemma to_ascii_no_minus (t : pystr) : ~ In 45%N t -> ~ In 45%N (to_ascii t).
Proof.
  intros H Hin. unfold to_ascii in Hin. apply in_map_iff in Hin as (c & E & Hc).
  apply to_ascii_char_minus in E. subst. contradiction.
Qed.

Lemma py_float_no_minus (t : pystr) (v : pyfloat) :
  ~ In 45%N t -> py_float t = Ok v -> ge0 v = true \/ v = PNaN.
Proof.
  intros Hn. apply to_ascii_no_minus in Hn. unfold py_float, float_of_ascii.
  destruct (underscores_ok _ _); [|congruence].
  assert (fst (parse_sign (remove_char 95
            (rstrip is_num_space (lstrip is_num_space (to_ascii t))))) = false) as Hs.
  { apply parse_sign_no_minus. intros H. apply Hn.
    apply remove_char_incl, rstrip_incl, lstrip_incl in H. exact H. }
  destruct (parse_sign _) as [neg r]. simpl in Hs. subst neg.
  destruct (_ || _).
  { intros H. injection H as <-. left. reflexivity. }
  destruct (PyStr.eqb _ _).
  { intros H. injection H as <-. right. reflexivity. }
  destruct (parse_decimal false r) as [w|] eqn:E; [|congruence].
  intros H. injection H as <-.
  apply parse_decimal_sign in E as [(m & e & ->) | ->]; left; reflexivity.
Qed.

Lemma clean_price_sign (o : option pystr) (v : pyfloat) :
  clean_price o = Ok (Some v) -> ge0 v = true \/ v = PNaN.
Proof.
  destruct o as [s|]; simpl; [|congruence].
  unfold clean_price_body.
  destruct (PyStr.eqb _ _).
  { intros H. injection H as <-. left. reflexivity. }
  destruct (py_float (cleaned_text s)) as [w|e] eqn:E.
  - intros H. injection H as <-.
    eapply py_float_no_minus; [apply cleaned_text_no_minus | exact E].
  - destruct e; congruence.
Qed.

End PriceFacts.

(** ** Numerals *)

Module NumeralFacts.

(** *** The table of digits *)

Definition ascii_digit (c : N) : bool := between 48 57 c.

Lemma decimal_digit_spec (c d : N) :
  decimal_digit c = Some d ->
  exists z, In z digit_zeros /\ (z <= c <= z + 9)%N /\ d = (c - z)%N.
Proof.
  unfold decimal_digit.
  destruct (find (fun z => between z (z + 9) c) digit_zeros) as [z|] eqn:E;
    [|discriminate].
  apply find_some in E as [Hin Hb]. intros H. injection H as <-.
  unfold between in Hb. apply andb_true_iff in Hb as [H1 H2].
  apply N.leb_le in H1, H2. exists z. auto.
Qed.

Lemma is_digit_decimal (c : N) :
  is_digit c = true -> decimal_digit c = Some (digit_val c).
Proof.
  unfold is_digit, digit_val. destruct (decimal_digit c); [reflexivity|discriminate].
Qed.

(** Beyond ASCII the digits start at code point 1632. *)
Lemma digit_zeros_low (z : N) : In z digit_zeros -> z = 48%N \/ (1632 <= z)%N.
Proof.
  assert (forallb (fun z => (z =? 48) || (1632 <=? z))%N digit_zeros = true) as H
    by (vm_compute; reflexivity).
  intros Hin. eapply forallb_forall in H; [|exact Hin].
  apply orb_true_iff in H as [H|H].
  - left. apply N.eqb_eq. exact H.
  - right. apply N.leb_le. exact H.
Qed.

Lemma ascii_digit_range (c : N) : ascii_digit c = true <-> (48 <= c <= 57)%N.
Proof.
  unfold ascii_digit, between. rewrite andb_true_iff, !N.leb_le. tauto.
Qed.

Lemma ascii_digit_decimal (c : N) :
  ascii_digit c = true -> decimal_digit c = Some (c - 48)%N.
Proof.
  intros H. unfold decimal_digit, digit_zeros. cbn [find].
  replace (between 48 (48 + 9) c) with true by (symmetry; exact H).
  reflexivity.
Qed.

Lemma ascii_is_digit (c : N) : ascii_digit c = true -> is_digit c = true.
Proof. intros H. unfold is_digit. rewrite (ascii_digit_decimal _ H). reflexivity. Qed.

Lemma ascii_digit_val (c : N) : ascii_digit c = true -> digit_val c = (c - 48)%N.
Proof. intros H. unfold digit_val. rewrite (ascii_digit_decimal _ H). reflexivity. Qed.

Lemma digit_cases (c : N) :
  is_digit c = true -> ascii_digit c = true \/ (1632 <= c)%N.
Proof.
  intros H. apply is_digit_decimal, decimal_digit_spec in H as (z & Hin & Hz & _).
  destruct (digit_zeros_low _ Hin) as [-> | Hlow].
  - left. apply ascii_digit_range. lia.
  - right. lia.
Qed.

Lemma digit_range (c : N) : is_digit c = true -> (48 <= c)%N.
Proof.
  intros H. destruct (digit_cases _ H) as [A|A]; [apply ascii_digit_range in A|]; lia.
Qed.

Lemma digit_val_le (c : N) : (digit_val c <= 9)%N.
Proof.
  unfold digit_val. destruct (decimal_digit c) as [d|] eqn:E; [|lia].
  apply decimal_digit_spec in E as (z & _ & Hz & ->). lia.
Qed.

(** No decimal digit beyond ASCII is a space. *)
Lemma wide_digit_not_space (c : N) :
  is_digit c = true -> (127 <= c)%N -> is_space c = false.
Proof.
  intros H Hc. apply is_digit_decimal, decimal_digit_spec in H as (z & Hin & Hz & _).
  assert (forallb (fun z => (z =? 48)%N ||
            forallb (fun i => negb (is_space (z + i)))
                    [0; 1; 2; 3; 4; 5; 6; 7; 8; 9]%N) digit_zeros = true) as T
    by (vm_compute; reflexivity).
  eapply forallb_forall in T; [|exact Hin].
  apply orb_true_iff in T as [T|T]; [apply N.eqb_eq in T; lia|].
  assert (In (c - z)%N [0; 1; 2; 3; 4; 5; 6; 7; 8; 9]%N) as Hi.
  { assert (c - z = 0 \/ c - z = 1 \/ c - z = 2 \/ c - z = 3 \/ c - z = 4 \/
            c - z = 5 \/ c - z = 6 \/ c - z = 7 \/ c - z = 8 \/ c - z = 9)%N
      as D by lia.
    simpl. intuition auto. }
  eapply forallb_forall in T; [|exact Hi].
  replace (z + (c - z))%N with c in T by lia.
  apply negb_true_iff. exact T.
Qed.

(** *** The transformation to ASCII *)

Lemma to_ascii_char_low (c : N) : (c < 127)%N -> to_ascii_char c = c.
Proof.
  intros H. unfold to_ascii_char.
  replace (c <? 127)%N with true by (symmetry; apply N.ltb_lt; exact H).
  reflexivity.
Qed.

Lemma to_ascii_char_digit (c : N) :
  is_digit c = true -> to_ascii_char c = (48 + digit_val c)%N.
Proof.
  intros H. unfold to_ascii_char. destruct (c <? 127)%N eqn:L.
  - apply N.ltb_lt in L. destruct (digit_cases _ H) as [A|A]; [|lia].
    rewrite (ascii_digit_val _ A). apply ascii_digit_range in A. lia.
  - apply N.ltb_ge in L. rewrite (wide_digit_not_space _ H L).
    rewrite (is_digit_decimal _ H). reflexivity.
Qed.

Lemma to_ascii_char_ascii_digit (c : N) :
  is_digit c = true ->
  ascii_digit (to_ascii_char c) = true /\
  digit_val (to_ascii_char c) = digit_val c.
Proof.
  intros H. rewrite (to_ascii_char_digit _ H).
  pose proof (digit_val_le c) as Hle.
  assert (ascii_digit (48 + digit_val c) = true) as A
    by (apply ascii_digit_range; lia).
  split; [exact A|]. rewrite (ascii_digit_val _ A). lia.
Qed.

Lemma to_ascii_digits (ds : pystr) :
  forallb is_digit ds = true -> forallb ascii_digit (to_ascii ds) = true.
Proof.
  induction ds as [|d ds IH]; simpl; intros H; [reflexivity|].
  apply andb_true_iff in H as [Hd Hds].
  rewrite (proj1 (to_ascii_char_ascii_digit _ Hd)). auto.
Qed.

Lemma digits_value_to_ascii (ds : pystr) :
  forallb is_digit ds = true -> digits_value (to_ascii ds) = digits_value ds.
Proof.
  unfold digits_value. generalize 0%N as acc.
  induction ds as [|d ds IH]; simpl; intros acc H; [reflexivity|].
  apply andb_true_iff in H as [Hd Hds].
  rewrite (proj2 (to_ascii_char_ascii_digit _ Hd)). auto.
Qed.

Lemma to_ascii_app (a b : pystr) : to_ascii (a ++ b) = to_ascii a ++ to_ascii b.
Proof. apply map_app. Qed.

Lemma to_ascii_length (a : pystr) : List.length (to_ascii a) = List.length a.
Proof. apply length_map. Qed.

(** *** Numerals in ASCII *)

(** The characters of a transformed numeral: digits, dots and commas. *)
Definition plain (c : N) : bool := ascii_digit c || (c =? 46)%N || (c =? 44)%N.

Lemma digit_plain (c : N) : ascii_digit c = true -> plain c = true.
Proof. unfold plain. intros ->. reflexivity. Qed.

Lemma plain_cases (c : N) :
  plain c = true -> (48 <= c <= 57)%N \/ c = 46%N \/ c = 44%N.
Proof.
  unfold plain. intros H. apply orb_true_iff in H as [H|H].
  - apply orb_true_iff in H as [H|H].
    + left. apply ascii_digit_range. exact H.
    + right. left. apply N.eqb_eq. exact H.
  - right. right. apply N.eqb_eq. exact H.
Qed.

Lemma plain_not_space (c : N) : plain c = true -> is_num_space c = false.
Proof.
  intros H. apply plain_cases in H. unfold is_num_space, between.
  destruct H as [H|[->| ->]]; [|reflexivity|reflexivity].
  apply orb_false_iff. split.
  - apply andb_false_iff. right. apply N.leb_gt. lia.
  - apply N.eqb_neq. lia.
Qed.

Lemma plain_not_underscore (c : N) : plain c = true -> (c =? 95)%N = false.
Proof.
  intros H. apply plain_cases in H. apply N.eqb_neq. lia.
Qed.

Lemma lstrip_id (sp : N -> bool) (s : pystr) :
  Forall (fun c => sp c = false) s -> lstrip sp s = s.
Proof. destruct 1 as [|c r Hc _]; simpl; [reflexivity|]. rewrite Hc. reflexivity. Qed.

Lemma strip_num_id (s : pystr) :
  forallb plain s = true ->
  rstrip is_num_space (lstrip is_num_space s) = s.
Proof.
  intros H.
  assert (Forall (fun c => is_num_space c = false) s) as F.
  { apply Forall_forall. intros c Hc. apply plain_not_space.
    eapply forallb_forall in H; eauto. }
  rewrite lstrip_id by exact F. unfold rstrip.
  rewrite lstrip_id by (apply Forall_rev; exact F).
  apply rev_involutive.
Qed.

Lemma underscores_ok_plain (s : pystr) (prev : N) :
  (prev =? 95)%N = false -> forallb plain s = true ->
  underscores_ok prev s = true.
Proof.
  revert prev. induction s as [|c r IH]; simpl; intros prev Hp H.
  - rewrite Hp. reflexivity.
  - apply andb_true_iff in H as [Hc Hr].
    rewrite (plain_not_underscore _ Hc), Hp. simpl.
    apply IH; [apply plain_not_underscore; exact Hc | exact Hr].
Qed.

Lemma remove_underscore_plain (s : pystr) :
  forallb plain s = true -> remove_char 95 s = s.
Proof.
  unfold remove_char. induction s as [|c r IH]; simpl; intros H; [reflexivity|].
  apply andb_true_iff in H as [Hc Hr].
  rewrite (plain_not_underscore _ Hc). simpl. f_equal. apply IH. exact Hr.
Qed.

Lemma parse_sign_digit (c : N) (r : pystr) :
  ascii_digit c = true -> parse_sign (c :: r) = (false, c :: r).
Proof.
  intros H. apply ascii_digit_range in H. simpl.
  replace (c =? 45)%N with false by (symmetry; apply N.eqb_neq; lia).
  replace (c =? 43)%N with false by (symmetry; apply N.eqb_neq; lia).
  reflexivity.
Qed.

(** No digit is an upper-case letter. *)
Lemma lower_digit (c : N) : is_digit c = true -> lower_cp c = c.
Proof.
  intros H. unfold lower_cp, between.
  destruct (digit_cases _ H) as [A|A]; [apply ascii_digit_range in A|].
  - replace (65 <=? c)%N with false by (symmetry; apply N.leb_gt; lia).
    reflexivity.
  - replace (c <=? 90)%N with false by (symmetry; apply N.leb_gt; lia).
    rewrite andb_false_r. reflexivity.
Qed.

(** A text that starts with a digit is none of [inf], [infinity], [nan],
    [free]: it does not start with a letter. *)
Lemma digit_head_not_word (c : N) (r w : pystr) (x : N) :
  is_digit c = true -> (57 < x < 1632)%N ->
  PyStr.eqb (lower (c :: r)) (x :: w) = false.
Proof.
  intros H Hx. simpl. rewrite (lower_digit _ H).
  replace (c =? x)%N with false; [reflexivity|].
  symmetry. apply N.eqb_neq.
  destruct (digit_cases _ H) as [A|A]; [apply ascii_digit_range in A|]; lia.
Qed.

Lemma all_ascii_digits (ds : pystr) :
  forallb ascii_digit ds = true -> forallb is_digit ds = true.
Proof.
  intros H. apply forallb_forall. intros c Hc. apply ascii_is_digit.
  eapply forallb_forall in H; eauto.
Qed.

Lemma all_digits_plain (ds : pystr) :
  forallb ascii_digit ds = true -> forallb plain ds = true.
Proof.
  intros H. apply forallb_forall. intros c Hc. apply digit_plain.
  eapply forallb_forall in H; eauto.
Qed.

Lemma span_digits_app (ds r : pystr) :
  forallb is_digit ds = true ->
  match r with c :: _ => is_digit c = false | [] => True end ->
  span_digits (ds ++ r) = (ds, r).
Proof.
  induction ds as [|d ds IH]; simpl; intros H Hr.
  - destruct r as [|c r']; [reflexivity|]. simpl. rewrite Hr. reflexivity.
  - apply andb_true_iff in H as [Hd Hds]. rewrite Hd, IH; auto.
Qed.

Lemma span_digits_spec (s : pystr) :
  forall ds r, span_digits s = (ds, r) ->
    s = ds ++ r /\ forallb is_digit ds = true /\
    match r with c :: _ => is_digit c = false | [] => True end.
Proof.
  induction s as [|c s IH]; simpl; intros ds r H.
  - injection H as <- <-. auto.
  - destruct (is_digit c) eqn:E.
    + destruct (span_digits s) as [ds' r'] eqn:E'.
      injection H as <- <-. destruct (IH _ _ eq_refl) as (-> & H1 & H2).
      simpl. rewrite E, H1. auto.
    + injection H as <- <-. simpl. rewrite E. auto.
Qed.

(** [float] on digits, and on digits, a dot and digits, in ASCII. *)
Lemma float_of_ascii_digits (d : N) (ds : pystr) :
  forallb ascii_digit (d :: ds) = true ->
  float_of_ascii (d :: ds) = Ok (double_of_decimal false (digits_value (d :: ds)) 0).
Proof.
  intros H.
  pose proof (all_digits_plain _ H) as Hp.
  pose proof (all_ascii_digits _ H) as Hu.
  pose proof H as Hd. simpl in Hd. apply andb_true_iff in Hd as [Hd _].
  unfold float_of_ascii.
  rewrite (strip_num_id _ Hp), (underscores_ok_plain _ 0 eq_refl Hp).
  rewrite (remove_underscore_plain _ Hp), (parse_sign_digit _ _ Hd).
  unfold u. simpl list_ascii_of_string. simpl List.map.
  rewrite !digit_head_not_word
    by (try (apply ascii_is_digit; exact Hd); split; reflexivity).
  simpl orb. cbv iota.
  unfold parse_decimal.
  replace (d :: ds) with ((d :: ds) ++ []) at 1 by apply app_nil_r.
  rewrite span_digits_app by (auto; exact I).
  rewrite app_nil_r. reflexivity.
Qed.

Lemma float_of_ascii_digits_dot_digits (d f : N) (ds fs : pystr) :
  forallb ascii_digit (d :: ds) = true -> forallb ascii_digit (f :: fs) = true ->
  float_of_ascii ((d :: ds) ++ 46%N :: f :: fs) =
  Ok (double_of_decimal false (digits_value ((d :: ds) ++ f :: fs))
                        (- Z.of_nat (List.length (f :: fs)))).
Proof.
  intros H F.
  assert (forallb plain ((d :: ds) ++ 46%N :: f :: fs) = true) as Hp.
  { rewrite forallb_app. apply andb_true_iff. split.
    - apply all_digits_plain. exact H.
    - change (46%N :: f :: fs) with ([46%N] ++ f :: fs).
      rewrite forallb_app. apply andb_true_iff. split; [reflexivity|].
      apply all_digits_plain. exact F. }
  pose proof (all_ascii_digits _ H) as Hu.
  pose proof (all_ascii_digits _ F) as Fu.
  pose proof H as Hd. simpl in Hd. apply andb_true_iff in Hd as [Hd _].
  unfold float_of_ascii.
  rewrite (strip_num_id _ Hp), (underscores_ok_plain _ 0 eq_refl Hp).
  rewrite (remove_underscore_plain _ Hp).
  change ((d :: ds) ++ 46%N :: f :: fs) with (d :: (ds ++ 46%N :: f :: fs)).
  rewrite (parse_sign_digit _ _ Hd).
  unfold u. simpl list_ascii_of_string. simpl List.map.
  rewrite !digit_head_not_word
    by (try (apply ascii_is_digit; exact Hd); split; reflexivity).
  simpl orb. cbv iota.
  unfold parse_decimal.
  change (d :: (ds ++ 46%N :: f :: fs)) with ((d :: ds) ++ 46%N :: f :: fs).
  rewrite span_digits_app by (auto; reflexivity).
  rewrite N.eqb_refl.
  replace (f :: fs) with ((f :: fs) ++ []) at 1 by apply app_nil_r.
  rewrite span_digits_app by (auto; exact I).
  reflexivity.
Qed.

(** [float] on a numeral in the digits of any script. *)
Lemma py_float_digits (d : N) (ds : pystr) :
  forallb is_digit (d :: ds) = true ->
  py_float (d :: ds) = Ok (double_of_decimal false (digits_value (d :: ds)) 0).
Proof.
  intros H. unfold py_float.
  rewrite <- (digits_value_to_ascii _ H).
  apply (float_of_ascii_digits (to_ascii_char d) (to_ascii ds)).
  apply (to_ascii_digits (d :: ds)). exact H.
Qed.

Lemma py_float_digits_dot_digits (d f : N) (ds fs : pystr) :
  forallb is_digit (d :: ds) = true -> forallb is_digit (f :: fs) = true ->
  py_float ((d :: ds) ++ 46%N :: f :: fs) =
  Ok (double_of_decimal false (digits_value ((d :: ds) ++ f :: fs))
                        (- Z.of_nat (List.length (f :: fs)))).
Proof.
  intros H F. unfold py_float.
  assert (forallb is_digit ((d :: ds) ++ f :: fs) = true) as HF
    by (rewrite forallb_app, H, F; reflexivity).
  rewrite <- (digits_value_to_ascii _ HF), <- (to_ascii_length (f :: fs)).
  rewrite !to_ascii_app.
  apply (float_of_ascii_digits_dot_digits
           (to_ascii_char d) (to_ascii_char f) (to_ascii ds) (to_ascii fs)).
  - apply (to_ascii_digits (d :: ds)). exact H.
  - apply (to_ascii_digits (f :: fs)). exact F.
Qed.

(** [int] on a numeral in the digits of any script: its value up to the
    limit on the number of digits, [ValueError] beyond. *)
Lemma int_of_ascii_digits (d : N) (ds : pystr) :
  forallb ascii_digit (d :: ds) = true ->
  int_of_ascii (d :: ds) =
  if (int_max_str_digits <? List.length (d :: ds))%nat then Raise ValueError
  else Ok (Z.of_N (digits_value (d :: ds))).
Proof.
  intros H.
  pose proof (all_digits_plain _ H) as Hp.
  pose proof (all_ascii_digits _ H) as Hu.
  pose proof H as Hd. simpl in Hd. apply andb_true_iff in Hd as [Hd _].
  unfold int_of_ascii.
  rewrite (strip_num_id _ Hp), (underscores_ok_plain _ 0 eq_refl Hp).
  rewrite (remove_underscore_plain _ Hp), (parse_sign_digit _ _ Hd).
  replace (d :: ds) with ((d :: ds) ++ []) at 1 by apply app_nil_r.
  rewrite span_digits_app by (auto; exact I). reflexivity.
Qed.

Lemma py_int_cases (d : N) (ds : pystr) :
  forallb is_digit (d :: ds) = true ->
  py_int (d :: ds) =
  if (int_max_str_digits <? List.length (d :: ds))%nat then Raise ValueError
  else Ok (Z.of_N (digits_value (d :: ds))).
Proof.
  intros H. unfold py_int.
  rewrite <- (digits_value_to_ascii _ H), <- (to_ascii_length (d :: ds)).
  apply (int_of_ascii_digits (to_ascii_char d) (to_ascii ds)).
  apply (to_ascii_digits (d :: ds)). exact H.
Qed.

Lemma py_int_digits (d : N) (ds : pystr) :
  forallb is_digit (d :: ds) = true ->
  (List.length (d :: ds) <= int_max_str_digits)%nat ->
  py_int (d :: ds) = Ok (Z.of_N (digits_value (d :: ds))).
Proof.
  intros H L. rewrite (py_int_cases _ _ H).
  replace (int_max_str_digits <? List.length (d :: ds))%nat with false;
    [reflexivity|].
  symmetry. apply Nat.ltb_ge. exact L.
Qed.

Lemma py_int_too_long (d : N) (ds : pystr) :
  forallb is_digit (d :: ds) = true ->
  (int_max_str_digits < List.length (d :: ds))%nat ->
  py_int (d :: ds) = Raise ValueError.
Proof.
  intros H L. rewrite (py_int_cases _ _ H).
  replace (int_max_str_digits <? List.length (d :: ds))%nat with true;
    [reflexivity|].
  symmetry. apply Nat.ltb_lt. exact L.
Qed.

End NumeralFacts.

(** ** The two numeral patterns of the parser *)

Module RegexFacts.
Import NumeralFacts.

Lemma re_search_rating_cons (c : N) (r : pystr) :
  re_search_rating (c :: r) =
  if is_digit c then
    let (ds, r1) := span_digits (c :: r) in
    match r1 with
    | d :: r2 =>
        if (d =? 46)%N then
          match span_digits r2 with
          | ([], _) => Some ds
          | (fs, _) => Some (ds ++ 46%N :: fs)
          end
        else Some ds
    | [] => Some ds
    end
  else re_search_rating r.
Proof. reflexivity. Qed.

(** What the rating pattern matches: digits, or digits, a dot and digits. *)
Definition rating_shape (g : pystr) : Prop :=
  (exists d ds, g = d :: ds /\ forallb is_digit (d :: ds) = true) \/
  (exists d ds f fs, g = (d :: ds) ++ 46%N :: f :: fs /\
                     forallb is_digit (d :: ds) = true /\
                     forallb is_digit (f :: fs) = true).

Lemma span_digits_head (c : N) (r ds r1 : pystr) :
  is_digit c = true -> span_digits (c :: r) = (ds, r1) ->
  exists ds', ds = c :: ds' /\ forallb is_digit (c :: ds') = true.
Proof.
  intros Hc H. apply span_digits_spec in H as (E & Hd & Hr).
  destruct ds as [|d ds'].
  - simpl in E. subst r1. congruence.
  - injection E as <- _. eauto.
Qed.

Lemma re_search_rating_shape (s g : pystr) :
  re_search_rating s = Some g -> rating_shape g.
Proof.
  induction s as [|c r IH]; [discriminate|].
  rewrite re_search_rating_cons.
  destruct (is_digit c) eqn:Hc; [|exact IH].
  destruct (span_digits (c :: r)) as [ds r1] eqn:E.
  destruct (span_digits_head _ _ _ _ Hc E) as (ds' & -> & Hds).
  assert (rating_shape (c :: ds')) as Plain by (left; eauto).
  destruct r1 as [|d r2]; [intros H; injection H as <-; exact Plain|].
  destruct (d =? 46)%N; [|intros H; injection H as <-; exact Plain].
  destruct (span_digits r2) as [fs r3] eqn:E2.
  destruct fs as [|f fs]; [intros H; injection H as <-; exact Plain|].
  intros H. injection H as <-.
  apply span_digits_spec in E2 as (_ & Hfs & _).
  right. exists c, ds', f, fs. auto.
Qed.

Lemma extract_rating_returns (o : option pystr) :
  exists r, extract_rating o = Ok r.
Proof.
  destruct o as [s|]; simpl; [|eauto].
  destruct (truthy s); [|eauto].
  destruct (re_search_rating s) as [g|] eqn:E; [|eauto].
  apply re_search_rating_shape in E
    as [(d & ds & -> & H) | (d & ds & f & fs & -> & H & F)].
  - rewrite (py_float_digits _ _ H). simpl. eauto.
  - rewrite (py_float_digits_dot_digits _ _ _ _ H F). simpl. eauto.
Qed.

(** The review pattern. *)

Definition digit_or_comma (c : N) : bool := is_digit c || (c =? 44)%N.

Lemma take_digits_spec (n : nat) (s ds r : pystr) :
  take_digits n s = (ds, r) ->
  s = ds ++ r /\ forallb is_digit ds = true /\ (List.length ds <= n)%nat.
Proof.
  revert s ds r. induction n as [|n IH]; intros s ds r.
  - destruct s; simpl; intros H; injection H as <- <-; auto.
  - destruct s as [|c s]; simpl.
    + intros H; injection H as <- <-; auto with arith.
    + destruct (is_digit c) eqn:E.
      * destruct (take_digits n s) as [ds' r'] eqn:E'.
        intros H; injection H as <- <-.
        destruct (IH _ _ _ E') as (-> & H1 & H2).
        simpl. rewrite E, H1. auto with arith.
      * intros H; injection H as <- <-. simpl. auto with arith.
Qed.

Lemma take_digits_head (n : nat) (c : N) (s : pystr) :
  is_digit c = true ->
  exists ds r, take_digits (S n) (c :: s) = (c :: ds, r).
Proof.
  intros H. simpl. rewrite H. destruct (take_digits n s). eauto.
Qed.

Lemma comma_groups_cons (k a b c : N) (r : pystr) :
  comma_groups (k :: a :: b :: c :: r) =
  if (k =? 44)%N && is_digit a && is_digit b && is_digit c then
    let (g, rest) := comma_groups r in (k :: a :: b :: c :: g, rest)
  else ([], k :: a :: b :: c :: r).
Proof. reflexivity. Qed.

Lemma comma_groups_chars (n : nat) (s : pystr) :
  (List.length s <= n)%nat ->
  forallb digit_or_comma (fst (comma_groups s)) = true.
Proof.
  revert s. induction n as [|n IH]; intros s Hn.
  - destruct s; [reflexivity | simpl in Hn; lia].
  - destruct s as [|k [|a [|b [|c r]]]]; try reflexivity.
    rewrite comma_groups_cons.
    destruct ((k =? 44)%N && is_digit a && is_digit b && is_digit c) eqn:E;
      [|reflexivity].
    repeat (apply andb_true_iff in E as [E ?]).
    specialize (IH r). destruct (comma_groups r) as [g rest]. simpl in *.
    unfold digit_or_comma at 1 2 3 4.
    rewrite E, H, H0, H1. simpl. rewrite orb_true_r. simpl.
    apply IH. lia.
Qed.

(** What the review pattern matches: a digit, then digits and commas. *)
Definition reviews_shape (g : pystr) : Prop :=
  exists d rest, g = d :: rest /\ is_digit d = true /\
                 forallb digit_or_comma rest = true.

Lemma digits_are_digit_or_comma (ds : pystr) :
  forallb is_digit ds = true -> forallb digit_or_comma ds = true.
Proof.
  intros H. apply forallb_forall. intros c Hc. unfold digit_or_comma.
  eapply forallb_forall in H; eauto. rewrite H. reflexivity.
Qed.

Lemma reviews_alt1_shape (s g : pystr) :
  reviews_alt1 s = Some g -> reviews_shape g.
Proof.
  unfold reviews_alt1. destruct (take_digits 3 s) as [ds r] eqn:E.
  destruct ds as [|d ds]; [discriminate|].
  apply take_digits_spec in E as (_ & Hd & _).
  pose proof (comma_groups_chars (List.length r) r (le_n _)) as Hg.
  destruct (comma_groups r) as [g' rest]. simpl in Hg.
  intros H. injection H as <-.
  simpl in Hd. apply andb_true_iff in Hd as [Hd Hds].
  exists d, (ds ++ g'). repeat split; auto.
  rewrite forallb_app, (digits_are_digit_or_comma _ Hds), Hg. reflexivity.
Qed.

Lemma reviews_alt2_shape (s g : pystr) :
  reviews_alt2 s = Some g -> reviews_shape g.
Proof.
  unfold reviews_alt2. destruct (span_digits s) as [ds r] eqn:E.
  destruct ds as [|d ds]; [discriminate|].
  apply span_digits_spec in E as (_ & Hd & _).
  intros H. injection H as <-.
  simpl in Hd. apply andb_true_iff in Hd as [Hd Hds].
  exists d, ds. repeat split; auto. apply digits_are_digit_or_comma. exact Hds.
Qed.

(** The second alternative never decides: where it matches, the first one
    has matched already. *)
Lemma reviews_alt2_dead (s : pystr) : reviews_match_at s = reviews_alt1 s.
Proof.
  unfold reviews_match_at. destruct (reviews_alt1 s) as [m|] eqn:E; [reflexivity|].
  unfold reviews_alt1 in E. unfold reviews_alt2.
  destruct s as [|c s]; [reflexivity|].
  destruct (is_digit c) eqn:Hc.
  - destruct (take_digits_head 2 c s Hc) as (ds & r & Ht). rewrite Ht in E.
    destruct (comma_groups r). discriminate.
  - simpl. rewrite Hc. reflexivity.
Qed.

Lemma re_search_reviews_shape (s g : pystr) :
  re_search_reviews s = Some g -> reviews_shape g.
Proof.
  induction s as [|c r IH]; simpl.
  - discriminate.
  - rewrite reviews_alt2_dead.
    destruct (reviews_alt1 (c :: r)) as [m|] eqn:E.
    + intros H. injection H as <-. eapply reviews_alt1_shape. exact E.
    + exact IH.
Qed.

Lemma remove_commas_digits (s : pystr) :
  forallb digit_or_comma s = true -> forallb is_digit (remove_char 44 s) = true.
Proof.
  unfold remove_char. induction s as [|c r IH]; simpl; intros H; [reflexivity|].
  apply andb_true_iff in H as [Hc Hr].
  destruct (c =? 44)%N eqn:E; simpl; [auto|].
  unfold digit_or_comma in Hc. rewrite E, orb_false_r in Hc.
  rewrite Hc. auto.
Qed.

Lemma remove_commas_numeral (d : N) (rest : pystr) :
  is_digit d = true -> forallb digit_or_comma rest = true ->
  remove_char 44 (d :: rest) = d :: remove_char 44 rest /\
  forallb is_digit (d :: remove_char 44 rest) = true.
Proof.
  intros Hd Hr. split.
  - unfold remove_char. simpl. apply digit_range in Hd.
    replace (d =? 44)%N with false by (symmetry; apply N.eqb_neq; lia).
    reflexivity.
  - simpl. rewrite Hd. apply remove_commas_digits. exact Hr.
Qed.

(** The review count of a text: absent or not negative when the numeral
    has no more digits than [int] accepts, [ValueError] when it has more. *)
Lemma extract_reviews_cases (o : option pystr) :
  ((review_digits o <= int_max_str_digits)%nat /\
   exists r, extract_reviews o = Ok r /\
             match r with Some n => (0 <= n)%Z | None => True end)
  \/ ((int_max_str_digits < review_digits o)%nat /\
      extract_reviews o = Raise ValueError).
Proof.
  destruct o as [s|]; [|left; split; [apply Nat.le_0_l | exists None; auto]].
  unfold extract_reviews, review_digits.
  destruct (re_search_reviews s) as [g|] eqn:E.
  2:{ left. split; [apply Nat.le_0_l|]. exists None. destruct (truthy s); auto. }
  assert (truthy s = true) as ->
    by (destruct s; [simpl in E; discriminate | reflexivity]).
  apply re_search_reviews_shape in E as (d & rest & -> & Hd & Hr).
  destruct (remove_commas_numeral d rest Hd Hr) as [-> Hds].
  rewrite (py_int_cases _ _ Hds).
  destruct (int_max_str_digits <? List.length (d :: remove_char 44 rest))%nat eqn:L.
  - right. apply Nat.ltb_lt in L. auto.
  - left. apply Nat.ltb_ge in L. split; [exact L|].
    eexists. split; [reflexivity|]. apply N2Z.is_nonneg.
Qed.

(** A text without a digit has no match. *)
Lemma re_search_reviews_none (s : pystr) :
  forallb (fun c => negb (is_digit c)) s = true -> re_search_reviews s = None.
Proof.
  induction s as [|c r IH]; simpl; intros H; [reflexivity|].
  apply andb_true_iff in H as [Hc Hr]. apply negb_true_iff in Hc.
  unfold reviews_match_at, reviews_alt1, reviews_alt2. simpl.
  rewrite Hc. auto.
Qed.

(** On a run of four digits or more the first alternative stops after
    three of them. *)
Lemma re_search_reviews_four_digits (a b c d : N) (rest : pystr) :
  is_digit a = true -> is_digit b = true -> is_digit c = true ->
  is_digit d = true ->
  re_search_reviews (a :: b :: c :: d :: rest) = Some [a; b; c].
Proof.
  intros Ha Hb Hc Hd.
  assert ((d =? 44)%N = false) as Hk
    by (apply digit_range in Hd; apply N.eqb_neq; lia).
  assert (comma_groups (d :: rest) = ([], d :: rest)) as Hg.
  { destruct rest as [|x [|y [|z r]]]; try reflexivity.
    rewrite comma_groups_cons, Hk. reflexivity. }
  unfold re_search_reviews, reviews_match_at, reviews_alt1.
  simpl take_digits. rewrite Ha, Hb, Hc, Hg. reflexivity.
Qed.

End RegexFacts.

(** ** The record extractor *)

Module ParserFacts.
Import PriceFacts RegexFacts.

Section WithLib.

Variable cfg : Config.
Variable lib : Lib.

(** The name and URL the extractor resolves for a container. *)
Definition resolved_name (c : container) : pystr :=
  match name_element c with Some e => get_text_strip e | None => [] end.

Definition resolved_url (c : container) : pystr :=
  match url_element c with
  | Some e =>
      match el_href e with
      | Some h => match urljoin lib (BASE_URL cfg) h with Ok a => a | Raise _ => [] end
      | None => []
      end
  | None => []
  end.

Ltac numeric_fields c :=
  destruct (clean_price_returns (option_map get_text_strip (price_element c)))
    as [pr Hpr];
  destruct (extract_rating_returns (option_map get_text_strip (rating_element c)))
    as [ra Hra];
  unfold parse_container; rewrite Hpr, Hra; simpl rbind.

(** A review numeral of too many digits makes the body of the [try] raise. *)
Lemma parse_container_too_long (ts : pystr) (c : container) :
  (int_max_str_digits
   < review_digits (option_map get_text_strip (reviews_element c)))%nat ->
  parse_container cfg lib ts c = Raise ValueError.
Proof.
  intros L. numeric_fields c.
  destruct (extract_reviews_cases (option_map get_text_strip (reviews_element c)))
    as [[L' _] | [_ ->]]; [lia | reflexivity].
Qed.

Lemma parse_container_builds (ts : pystr) (c : container) :
  builds_record cfg lib c = true ->
  exists p, parse_container cfg lib ts c = Ok (Some p) /\
            name p = resolved_name c /\ url p = resolved_url c /\
            truthy (name p) = true /\ truthy (url p) = true /\
            scraped_timestamp p = ts /\
            clean_price (option_map get_text_strip (price_element c)) = Ok (price p).
Proof.
  unfold builds_record, well_formed, resolved_name, resolved_url. intros H.
  apply andb_true_iff in H as [H L]. apply Nat.leb_le in L.
  apply andb_true_iff in H as [Hn Hu].
  numeric_fields c.
  destruct (extract_reviews_cases (option_map get_text_strip (reviews_element c)))
    as [(_ & rv & -> & _) | [L' _]]; [|lia].
  simpl rbind.
  destruct (name_element c) as [ne|]; [|discriminate].
  destruct (url_element c) as [ue|]; [|discriminate].
  destruct (el_href ue) as [h|]; [|discriminate].
  apply andb_true_iff in Hu as [Hh Ha]. simpl. rewrite Hh.
  destruct (urljoin lib (BASE_URL cfg) h) as [a|e]; [|discriminate].
  simpl. rewrite Hn, Ha. simpl. eexists. split; [reflexivity|]. simpl.
  repeat split; assumption.
Qed.

Lemma parse_container_ill_formed (ts : pystr) (c : container) :
  well_formed cfg lib c = false ->
  parse_container cfg lib ts c = Ok None \/
  exists e, parse_container cfg lib ts c = Raise e.
Proof.
  unfold well_formed. numeric_fields c.
  destruct (extract_reviews_cases (option_map get_text_strip (reviews_element c)))
    as [(_ & rv & -> & _) | [_ ->]]; [|intros _; right; exists ValueError; reflexivity].
  simpl rbind.
  destruct (name_element c) as [ne|], (url_element c) as [ue|]; simpl;
    try destruct (el_href ue) as [h|]; simpl;
    try destruct (truthy h); simpl;
    try destruct (urljoin lib (BASE_URL cfg) h) as [a|e]; simpl;
    try destruct (truthy (get_text_strip ne)); simpl;
    intros H; try rewrite H; eauto.
Qed.

Lemma parse_container_no_record (ts : pystr) (c : container) :
  builds_record cfg lib c = false ->
  parse_container cfg lib ts c = Ok None \/
  exists e, parse_container cfg lib ts c = Raise e.
Proof.
  unfold builds_record. intros H. apply andb_false_iff in H as [H|H].
  - apply parse_container_ill_formed. exact H.
  - right. exists ValueError. apply parse_container_too_long.
    apply Nat.leb_gt in H. exact H.
Qed.

Lemma parse_container_raise_no_record (ts : pystr) (c : container) (e : exn) :
  parse_container cfg lib ts c = Raise e -> builds_record cfg lib c = false.
Proof.
  intros H. destruct (builds_record cfg lib c) eqn:E; [|reflexivity].
  destruct (parse_container_builds ts c E) as (p & Hp & _). congruence.
Qed.

Lemma parse_container_record (ts : pystr) (c : container) (p : product) :
  parse_container cfg lib ts c = Ok (Some p) -> builds_record cfg lib c = true.
Proof.
  intros H. destruct (builds_record cfg lib c) eqn:E; [reflexivity|].
  destruct (parse_container_no_record ts c E) as [R|[e R]]; congruence.
Qed.

Lemma parse_container_price (ts : pystr) (c : container) (p : product) :
  parse_container cfg lib ts c = Ok (Some p) ->
  clean_price (option_map get_text_strip (price_element c)) = Ok (price p).
Proof.
  intros H. pose proof (parse_container_record ts c p H) as E.
  destruct (parse_container_builds ts c E) as (q & Hq & R).
  rewrite Hq in H. injection H as <-. tauto.
Qed.

(** The loop, one container at a time. *)
Lemma parse_containers_cons_wf (c : container) (cs : list container) (k : nat) :
  builds_record cfg lib c = true ->
  exists p, parse_container cfg lib (get_timestamp_string lib k) c = Ok (Some p) /\
            parse_containers cfg lib (c :: cs) k =
            (p :: fst (parse_containers cfg lib cs (S k)),
             snd (parse_containers cfg lib cs (S k))).
Proof.
  intros H.
  destruct (parse_container_builds (get_timestamp_string lib k) c H) as (p & Hp & _).
  exists p. split; [exact Hp|]. simpl. rewrite Hp.
  destruct (parse_containers cfg lib cs (S k)). reflexivity.
Qed.

Lemma parse_containers_cons_skip (c : container) (cs : list container) (k : nat) :
  builds_record cfg lib c = false ->
  parse_containers cfg lib (c :: cs) k = parse_containers cfg lib cs k.
Proof.
  intros H. simpl.
  destruct (parse_container_no_record (get_timestamp_string lib k) c H) as [R|[e R]];
    rewrite R; reflexivity.
Qed.

Lemma parse_containers_length (cs : list container) (k : nat) :
  List.length (fst (parse_containers cfg lib cs k)) =
  List.length (filter (builds_record cfg lib) cs).
Proof.
  revert k. induction cs as [|c cs IH]; intros k; [reflexivity|].
  simpl filter. destruct (builds_record cfg lib c) eqn:E.
  - destruct (parse_containers_cons_wf c cs k E) as (p & _ & ->).
    simpl. f_equal. apply IH.
  - rewrite (parse_containers_cons_skip c cs k E). apply IH.
Qed.

Lemma parse_containers_names (cs : list container) (k : nat) :
  List.map (fun p => (name p, url p)) (fst (parse_containers cfg lib cs k)) =
  List.map (fun c => (resolved_name c, resolved_url c))
           (filter (builds_record cfg lib) cs).
Proof.
  revert k. induction cs as [|c cs IH]; intros k; [reflexivity|].
  simpl filter. destruct (builds_record cfg lib c) eqn:E.
  - destruct (parse_containers_cons_wf c cs k E) as (p & Hp & ->).
    destruct (parse_container_builds (get_timestamp_string lib k) c E)
      as (q & Hq & Hn & Hu & _).
    rewrite Hq in Hp. injection Hp as ->.
    simpl. rewrite Hn, Hu. f_equal. apply IH.
  - rewrite (parse_containers_cons_skip c cs k E). apply IH.
Qed.

Lemma parse_containers_all (P : product -> Prop) (cs : list container) (k : nat) :
  (forall ts c p, parse_container cfg lib ts c = Ok (Some p) -> P p) ->
  Forall P (fst (parse_containers cfg lib cs k)).
Proof.
  intros HP. revert k. induction cs as [|c cs IH]; intros k; [constructor|].
  destruct (builds_record cfg lib c) eqn:E.
  - destruct (parse_containers_cons_wf c cs k E) as (p & Hp & ->).
    simpl. constructor; [eapply HP; exact Hp | apply IH].
  - rewrite (parse_containers_cons_skip c cs k E). apply IH.
Qed.

Lemma parse_containers_skip_middle (cs1 cs2 : list container) (bad : container) (k : nat) :
  builds_record cfg lib bad = false ->
  parse_containers cfg lib (cs1 ++ bad :: cs2) k =
  parse_containers cfg lib (cs1 ++ cs2) k.
Proof.
  intros Hb. revert k. induction cs1 as [|c cs1 IH]; intros k.
  - simpl app. apply parse_containers_cons_skip. exact Hb.
  - simpl app. destruct (builds_record cfg lib c) eqn:E.
    + destruct (parse_containers_cons_wf c (cs1 ++ bad :: cs2) k E) as (p & Hp & ->).
      destruct (parse_containers_cons_wf c (cs1 ++ cs2) k E) as (q & Hq & ->).
      rewrite IH. congruence.
    + rewrite !(parse_containers_cons_skip c _ k E). apply IH.
Qed.

Lemma parse_product_listings_loop (html : pystr) (k : nat) :
  parse_product_listings cfg lib html k =
  parse_containers cfg lib (select_product_containers lib html) k.
Proof.
  unfold parse_product_listings.
  destruct (select_product_containers lib html); reflexivity.
Qed.

End WithLib.

End ParserFacts.

(* ================================================================== *)
(** * The extraction contract *)
(* ================================================================== *)

Import Fixture NumeralFacts PriceFacts RegexFacts ParserFacts.

(** C2 (review count).  On "1,234 reviews" the extraction yields 1234, and
    on a text without a digit it yields nothing.  But on a text that starts
    with a plain run of four or more digits the pattern's first alternative
    matches the first three digits and the search stops there: the value is
    that of the three digits, not of the run ("12345 reviews" gives 123). *)
Theorem C2_review_count_plain_run_truncated :
  extract_reviews (Some (u "1,234 reviews")) = Ok (Some 1234%Z)
  /\ (forall s, forallb (fun c => negb (is_digit c)) s = true ->
                extract_reviews (Some s) = Ok None)
  /\ (forall a b c d rest,
        is_digit a = true -> is_digit b = true -> is_digit c = true ->
        is_digit d = true ->
        extract_reviews (Some (a :: b :: c :: d :: rest)) =
        Ok (Some (Z.of_N (digits_value [a; b; c]))))
  /\ extract_reviews (Some (u "12345 reviews")) = Ok (Some 123%Z).
Proof.
  split; [vm_compute; reflexivity|]. split; [|split].
  - intros s H. unfold extract_reviews.
    rewrite (re_search_reviews_none s H). destruct (truthy s); reflexivity.
  - intros a b c d rest Ha Hb Hc Hd. unfold extract_reviews.
    rewrite (re_search_reviews_four_digits a b c d rest Ha Hb Hc Hd).
    assert (remove_char 44 [a; b; c] = [a; b; c]) as ->.
    { apply digit_range in Ha, Hb, Hc. unfold remove_char. simpl.
      replace (a =? 44)%N with false by (symmetry; apply N.eqb_neq; lia).
      replace (b =? 44)%N with false by (symmetry; apply N.eqb_neq; lia).
      replace (c =? 44)%N with false by (symmetry; apply N.eqb_neq; lia).
      reflexivity. }
    rewrite py_int_digits;
      [reflexivity
      |cbn [forallb]; rewrite Ha, Hb, Hc; reflexivity
      |apply Nat.leb_le; vm_compute; reflexivity].
  - vm_compute. reflexivity.
Qed.

(** C3 (record extractor), corrected.  For every page, the extractor
    returns one record, in order, for each container that is well formed
    (its name and its absolute URL resolve) and whose review numeral has at
    most 4300 digits, with the name and the URL resolved for it, both
    non-empty: N records when all N containers are such.  On a container
    whose review numeral has more digits [int] raises [ValueError], the
    exception is caught and the container is dropped, well formed or not.
    A container whose processing raises yields no record, and taking a
    container that yields no record out of the page changes nothing in
    what the extractor returns. *)
Theorem C3_one_record_per_container_that_builds
  (cfg : Config) (lib : Lib) (html : pystr) (k : nat) :
  let cs := select_product_containers lib html in
  let out := fst (parse_product_listings cfg lib html k) in
  (forallb (builds_record cfg lib) cs = true -> List.length out = List.length cs)
  /\ List.length out = List.length (filter (builds_record cfg lib) cs)
  /\ List.map (fun p => (name p, url p)) out =
     List.map (fun c => (resolved_name c, resolved_url cfg lib c))
              (filter (builds_record cfg lib) cs)
  /\ Forall (fun p => truthy (name p) = true /\ truthy (url p) = true) out
  /\ (forall c,
        builds_record cfg lib c = true <->
        well_formed cfg lib c = true /\
        (review_digits (option_map get_text_strip (reviews_element c))
         <= 4300)%nat)
  /\ (forall ts c,
        (4300 < review_digits (option_map get_text_strip (reviews_element c)))%nat ->
        parse_container cfg lib ts c = Raise ValueError)
  /\ (forall ts c e, parse_container cfg lib ts c = Raise e ->
                     builds_record cfg lib c = false)
  /\ (forall cs1 bad cs2,
        cs = cs1 ++ bad :: cs2 -> builds_record cfg lib bad = false ->
        parse_product_listings cfg lib html k =
        parse_containers cfg lib (cs1 ++ cs2) k).
Proof.
  intros cs out. subst out. rewrite parse_product_listings_loop. fold cs.
  split; [|split; [|split; [|split; [|split; [|split; [|split]]]]]].
  - intros H. rewrite parse_containers_length. f_equal.
    clear -H. induction cs as [|c r IH]; [reflexivity|]. simpl in *.
    apply andb_true_iff in H as [-> Hr]. f_equal. auto.
  - apply parse_containers_length.
  - apply parse_containers_names.
  - apply parse_containers_all. intros ts c p Hp.
    pose proof (parse_container_record cfg lib ts c p Hp) as E.
    destruct (parse_container_builds cfg lib ts c E)
      as (q & Hq & _ & _ & Hn & Hu & _).
    rewrite Hq in Hp. injection Hp as <-. auto.
  - intros c. unfold builds_record.
    rewrite andb_true_iff, Nat.leb_le. reflexivity.
  - intros ts c. apply parse_container_too_long.
  - apply parse_container_raise_no_record.
  - intros cs1 bad cs2 E Hb. rewrite E.
    apply parse_containers_skip_middle. exact Hb.
Qed.

(** The page ["<mixed>"] of the fixture: four containers, two of them
    yield a record. *)
Lemma C3_mixed_listing_witness :
  List.length (fst (parse_product_listings config_py (fixture_lib dom2)
                      (u "<mixed>") 0)) = 2%nat
  /\ parse_product_listings config_py (fixture_lib dom2) (u "<mixed>") 0 =
     parse_containers config_py (fixture_lib dom2) [laptop_a; laptop_b] 0.
Proof.
  pose proof (C3_one_record_per_container_that_builds
                config_py (fixture_lib dom2) (u "<mixed>") 0) as H.
  cbv zeta in H. destruct H as (_ & Hlen & _ & _ & _ & _ & _ & Hskip).
  split.
  - rewrite Hlen. vm_compute. reflexivity.
  - rewrite (Hskip [laptop_a] (nameless_container (u "$5")) [laptop_bad_link; laptop_b]);
      [|vm_compute; reflexivity|vm_compute; reflexivity].
    apply (parse_containers_skip_middle config_py (fixture_lib dom2)
             [laptop_a] [laptop_b] laptop_bad_link 0).
    vm_compute. reflexivity.
Defined.

(** A review text whose numeral has 4303 digits: a one and 1434 groups of
    a comma and three zeros. *)
Definition long_count : pystr := u "1" ++ concat (repeat (u ",000") 1434).

Definition laptop_long_count : container :=
  full_container (u "Laptop L") (u "/p/l") (u "$1") (u "4") long_count.

Definition long_count_lib : Lib :=
  fixture_lib [(u "<long>", ([laptop_a; laptop_long_count; laptop_b], None))].

(** C3, as stated, fails on a page of three containers that all have a
    name and a URL, the second with the review text [long_count]: [int]
    raises on its 4303 digits, and the extractor returns two records. *)
Lemma C3_long_review_count_counterexample :
  select_product_containers long_count_lib (u "<long>")
  = [laptop_a; laptop_long_count; laptop_b]
  /\ forallb (well_formed config_py long_count_lib)
             [laptop_a; laptop_long_count; laptop_b] = true
  /\ review_digits (option_map get_text_strip (reviews_element laptop_long_count))
     = 4303%nat
  /\ parse_container config_py long_count_lib [] laptop_long_count
     = Raise ValueError
  /\ List.length (fst (parse_product_listings config_py long_count_lib
                         (u "<long>") 0)) = 2%nat.
Proof. vm_compute. repeat split; reflexivity. Qed.

(** C4 (price cleaner).  The four examples; the cleaner never raises;
    deleting a currency symbol of the class [$ , £ €], a comma or a
    whitespace character anywhere in the text leaves the result unchanged;
    what follows the first ['-'] is ignored; a text that cleans to ["free"]
    in any letter case gives 0.0; and a cleaned text that [float] rejects
    gives an absent price. *)
Theorem C4_clean_price_contract :
  (clean_price (Some (u "$1,234.50")) = Ok (Some (PFinite false 2469 (-1)))
   /\ denotes (PFinite false 2469 (-1)) (2469 # 2))
  /\ (clean_price (Some (u "100-200")) = Ok (Some (PFinite false 25 2))
      /\ denotes (PFinite false 25 2) (100 # 1))
  /\ (clean_price (Some (u "Free")) = Ok (Some (PFinite false 0 0))
      /\ denotes (PFinite false 0 0) (0 # 1))
  /\ clean_price (Some (u "N/A")) = Ok None
  /\ (forall o, exists r, clean_price o = Ok r)
  /\ (forall c, deleted_by_sub c = true <->
                (c = 36 \/ c = 44 \/ c = 163 \/ c = 8364)%N \/ is_space c = true)
  /\ (forall a b c, deleted_by_sub c = true ->
        clean_price (Some (a ++ c :: b)) = clean_price (Some (a ++ b)))
  /\ (forall a b, ~ In 45%N a ->
        clean_price (Some (a ++ 45%N :: b)) = clean_price (Some a))
  /\ (forall s, lower (cleaned_text s) = u "free" ->
        clean_price (Some s) = Ok (Some (PFinite false 0 0)))
  /\ (forall s e, lower (cleaned_text s) <> u "free" ->
        py_float (cleaned_text s) = Raise e ->
        clean_price (Some s) = Ok None).
Proof.
  split; [split; vm_compute; reflexivity|].
  split; [split; vm_compute; reflexivity|].
  split; [split; vm_compute; reflexivity|].
  split; [vm_compute; reflexivity|].
  repeat match goal with |- _ /\ _ => split end.
  - apply clean_price_returns.
  - intros c. unfold deleted_by_sub, in_price_class.
    rewrite !orb_true_iff, !N.eqb_eq. tauto.
  - intros a b c H. apply clean_price_of_text, cleaned_text_drop. exact H.
  - intros a b H. apply clean_price_of_text, cleaned_text_range. exact H.
  - intros s H. unfold clean_price, clean_price_body. rewrite H. reflexivity.
  - intros s e Hn He. unfold clean_price, clean_price_body.
    destruct (PyStr.eqb (lower (cleaned_text s)) (u "free")) eqn:E.
    + apply pystr_eqb_eq in E. contradiction.
    + rewrite He. apply py_float_raises in He. subst. reflexivity.
Qed.

(** C9 (price of a record).  For every text the price cleaner returns an
    absent price, a NaN, or a value that is not below zero (possibly
    positive infinity): no negative price is ever produced.  The same holds
    for the price of every record the extractor builds. *)
Theorem C9_price_absent_nan_or_not_negative :
  (forall o,
     clean_price o = Ok None \/
     exists v, clean_price o = Ok (Some v) /\ (ge0 v = true \/ v = PNaN))
  /\ (forall cfg lib html k,
        Forall (fun p => match price p with
                         | None => True
                         | Some v => ge0 v = true \/ v = PNaN
                         end)
               (fst (parse_product_listings cfg lib html k))).
Proof.
  split.
  - intros o. destruct (clean_price_returns o) as [[v|] H]; [|auto].
    right. exists v. split; [exact H|]. eapply clean_price_sign. exact H.
  - intros cfg lib html k. rewrite parse_product_listings_loop.
    apply parse_containers_all. intros ts c p Hp.
    apply parse_container_price in Hp.
    destruct (price p) as [v|]; [|exact I].
    eapply clean_price_sign. exact Hp.
Qed.

(** C9, as stated, fails on the price text ["nan"]: [float] accepts it, the
    cleaner returns a NaN, and a NaN is not greater than or equal to zero.
    A container with that price text yields a record with that price. *)
Lemma C9_nan_price_counterexample :
  clean_price (Some (u "nan")) = Ok (Some PNaN)
  /\ ge0 PNaN = false
  /\ List.map price
       (fst (parse_containers config_py (fixture_lib dom2)
               [full_container (u "Laptop N") (u "/p/n") (u "NaN") (u "") (u "")] 0))
     = [Some PNaN].
Proof. vm_compute. auto. Qed.

(* ================================================================== *)
(** * The sink *)
(* ================================================================== *)

(** Unfolds the monad's operations and follows the calls into the world. *)
Ltac unfold_m :=
  unfold bind, try_except, try_finally, attempt, env_call, emit, log, ret,
         raise, lift_result, out_of_fuel in *.

Ltac case_step :=
  match goal with
  | |- context [match ?x with _ => _ end] =>
      lazymatch x with
      | context [match _ with _ => _ end] => fail
      | _ => destruct x eqn:?
      end
  end.

Ltac run_cases := cbn; repeat (case_step; cbn).

Module SinkFacts.

Section WithEnv.

Context {W : Type} {env : Env W}.

Lemma save_to_csv_empty (filename : pystr) (s : sys W) :
  save_to_csv [] filename s =
  Some (Ok tt, push_event (ELog LNoDataCsv) (push_event (ECall SaveToCsv) s)).
Proof. reflexivity. Qed.

Lemma save_to_json_empty (filename : pystr) (s : sys W) :
  save_to_json [] filename s =
  Some (Ok tt, push_event (ELog LNoDataJson) (push_event (ECall SaveToJson) s)).
Proof. reflexivity. Qed.

(** With the directory made, whatever the write does, the call returns. *)
Lemma save_to_csv_returns (data : list product) (filename : pystr) (s : sys W) (w' : W) :
  os_makedirs (world s) = (Ok tt, w') ->
  exists s', save_to_csv data filename s = Some (Ok tt, s')
             /\ all_products_data s' = all_products_data s
             /\ (fst (dataframe_to_csv data filename w') = Ok tt \/
                 In (ELog LErrorCsv) (trace s') \/ data = []).
Proof.
  intros H. unfold save_to_csv. destruct data as [|p data].
  - eexists. split; [reflexivity|]. split; [reflexivity|]. auto.
  - unfold_m. cbn. rewrite H. cbn.
    destruct (dataframe_to_csv (p :: data) filename w') as [[[]|e] w''];
      cbn; eexists; (split; [reflexivity|]); cbn; auto.
Qed.

Lemma save_to_json_returns (data : list product) (filename : pystr) (s : sys W) (w' : W) :
  os_makedirs (world s) = (Ok tt, w') ->
  exists s', save_to_json data filename s = Some (Ok tt, s')
             /\ all_products_data s' = all_products_data s
             /\ (fst (json_dump data filename w') = Ok tt \/
                 In (ELog LErrorJson) (trace s') \/ data = []).
Proof.
  intros H. unfold save_to_json. destruct data as [|p data].
  - eexists. split; [reflexivity|]. split; [reflexivity|]. auto.
  - unfold_m. cbn. rewrite H. cbn.
    destruct (json_dump (p :: data) filename w') as [[[]|e] w''];
      cbn; eexists; (split; [reflexivity|]); cbn; auto.
Qed.

(** An error of [os.makedirs] is raised before the [try] and leaves the
    function. *)
Lemma save_to_csv_makedirs_raises
  (p : product) (data : list product) (filename : pystr) (s : sys W) (e : exn) (w' : W) :
  os_makedirs (world s) = (Raise e, w') ->
  exists s', save_to_csv (p :: data) filename s = Some (Raise e, s')
             /\ all_products_data s' = all_products_data s.
Proof.
  intros H. unfold save_to_csv. unfold_m. cbn. rewrite H. cbn.
  eexists. split; reflexivity.
Qed.

Lemma save_to_json_makedirs_raises
  (p : product) (data : list product) (filename : pystr) (s : sys W) (e : exn) (w' : W) :
  os_makedirs (world s) = (Raise e, w') ->
  exists s', save_to_json (p :: data) filename s = Some (Raise e, s')
             /\ all_products_data s' = all_products_data s.
Proof.
  intros H. unfold save_to_json. unfold_m. cbn. rewrite H. cbn.
  eexists. split; reflexivity.
Qed.

End WithEnv.

End SinkFacts.
Import SinkFacts.

(** C10 (sink).  Both save functions, called with no records, return with
    a warning and leave the world as it is.  Called with records, once
    [os.makedirs] has returned they return normally whatever the write
    does: an error of the write is caught and logged.  An error of
    [os.makedirs] itself is raised before the [try] block and reaches the
    caller.  The scraper's records are the same after the call in every
    case. *)
Theorem C10_save_catches_errors_of_the_write
  (W : Type) (env : Env W) (data : list product) (filename : pystr) (s : sys W) :
  (save_to_csv [] filename s =
     Some (Ok tt, push_event (ELog LNoDataCsv) (push_event (ECall SaveToCsv) s))
   /\ save_to_json [] filename s =
     Some (Ok tt, push_event (ELog LNoDataJson) (push_event (ECall SaveToJson) s)))
  /\ (forall w', os_makedirs (world s) = (Ok tt, w') ->
        (exists s', save_to_csv data filename s = Some (Ok tt, s')
                    /\ all_products_data s' = all_products_data s
                    /\ (fst (dataframe_to_csv data filename w') = Ok tt \/
                        In (ELog LErrorCsv) (trace s') \/ data = []))
        /\ (exists s', save_to_json data filename s = Some (Ok tt, s')
                    /\ all_products_data s' = all_products_data s
                    /\ (fst (json_dump data filename w') = Ok tt \/
                        In (ELog LErrorJson) (trace s') \/ data = [])))
  /\ (forall e w' p, os_makedirs (world s) = (Raise e, w') ->
        (exists s', save_to_csv (p :: data) filename s = Some (Raise e, s')
                    /\ all_products_data s' = all_products_data s)
        /\ (exists s', save_to_json (p :: data) filename s = Some (Raise e, s')
                    /\ all_products_data s' = all_products_data s)).
Proof.
  split; [split; reflexivity|]. split.
  - intros w' H. split.
    + apply (save_to_csv_returns data filename s w' H).
    + apply (save_to_json_returns data filename s w' H).
  - intros e w' p H. split.
    + apply (save_to_csv_makedirs_raises p data filename s e w' H).
    + apply (save_to_json_makedirs_raises p data filename s e w' H).
Qed.

(** A world whose output directory cannot be made, and one record. *)
Definition no_directory : fake :=
  {| site := []; shown := None; logging_ok := true; chrome_ok := true;
     quit_ok := true; makedirs_ok := false; csv_ok := true; json_ok := true;
     files := [] |}.

Definition one_record : list product :=
  [ {| name := u "Laptop A"; price := None; rating := None; reviews := None;
       url := u "https://www.example-ecommerce.com/p/a";
       scraped_timestamp := u "2024-01-01T00:00:00" |} ].

(** C10, as stated, fails when the output directory cannot be made: the
    [OSError] of [os.makedirs] leaves both save functions. *)
Lemma C10_makedirs_error_counterexample :
  option_map fst (save_to_csv one_record (u "products.csv") (boot no_directory))
    = Some (Raise OSError)
  /\ option_map fst (save_to_json one_record (u "products.json") (boot no_directory))
    = Some (Raise OSError).
Proof. split; reflexivity. Qed.

(* ================================================================== *)
(** * The crawl loop *)
(* ================================================================== *)

Module TraceFacts.

Definition is_get (e : event) : bool :=
  match e with EGet _ => true | _ => false end.

Definition is_page_limit_log (e : event) : bool :=
  match e with ELog LReachedMaxPages => true | _ => false end.

(** Number of [driver.get] calls in a trace: the pages visited. *)
Definition count_gets (tr : list event) : nat :=
  List.length (filter is_get tr).

(** Number of times the page-limit line was logged. *)
Definition count_page_limit_logs (tr : list event) : nat :=
  List.length (filter is_page_limit_log tr).

(** The line [close_driver] logs after [driver.quit()]: closed when the
    call returned, an error when it raised. *)
Definition closing_log (r : result unit) : log_msg :=
  match r with
  | Ok _ => LDriverClosed
  | Raise _ => LDriverCloseError
  end.

(** Events of the inside of an iteration: no fetch, no page-limit line, no
    call of the sink, no start or end of the session. *)
Definition quiet (e : event) : bool :=
  match e with
  | EGet _ | EChromeStart | EQuit | ECall _ | EMakedirs
  | EToCsv _ _ | EJsonDump _ _ | ELog LReachedMaxPages => false
  | _ => true
  end.

Lemma quiet_filter_get (l : list event) :
  forallb quiet l = true -> filter is_get l = [].
Proof.
  induction l as [|e l IH]; simpl; intros H; [reflexivity|].
  apply andb_true_iff in H as [He Hl].
  destruct e; simpl in *; try discriminate; auto.
Qed.

Lemma quiet_filter_limit (l : list event) :
  forallb quiet l = true -> filter is_page_limit_log l = [].
Proof.
  induction l as [|e l IH]; simpl; intros H; [reflexivity|].
  apply andb_true_iff in H as [He Hl].
  destruct e as [| | | | | | | | | |m]; simpl in *; try discriminate; auto.
  destruct m; simpl in *; try discriminate; auto.
Qed.

Lemma count_gets_app (a b : list event) :
  count_gets (a ++ b) = (count_gets a + count_gets b)%nat.
Proof. unfold count_gets. rewrite filter_app, length_app. reflexivity. Qed.

Lemma count_page_limit_logs_app (a b : list event) :
  count_page_limit_logs (a ++ b) =
  (count_page_limit_logs a + count_page_limit_logs b)%nat.
Proof. unfold count_page_limit_logs. rewrite filter_app, length_app. reflexivity. Qed.

Lemma count_gets_quiet (l : list event) :
  forallb quiet l = true -> count_gets l = 0%nat.
Proof. intros H. unfold count_gets. rewrite quiet_filter_get; auto. Qed.

Lemma count_page_limit_logs_quiet (l : list event) :
  forallb quiet l = true -> count_page_limit_logs l = 0%nat.
Proof. intros H. unfold count_page_limit_logs. rewrite quiet_filter_limit; auto. Qed.

End TraceFacts.
Import TraceFacts.

(** The events in front of [old] in [new], when [new] is [old] with events
    pushed on it. *)
Ltac events_before new old :=
  lazymatch new with
  | old => constr:(@nil event)
  | ?e :: ?rest => let p := events_before rest old in constr:(e :: p)
  end.

Ltac give_events :=
  lazymatch goal with
  | |- exists stuff : list event, _ =>
      lazymatch goal with
      | |- context [?new = _ ++ ?e :: ?old] =>
          let p := events_before new (e :: old) in exists p
      end
  end.

Module ScraperFacts.

Section WithEnv.

Context {W : Type} {env : Env W}.
Variable cfg : Config.
Variable lib : Lib.

(** What an iteration leaves behind.  The trace grows by the fetch of
    [cur] and then by quiet events; records are only added; and when the
    loop goes on, the next URL is nothing or what the pagination resolver
    found in a page source read during this iteration. *)
Definition iteration_post (cur : pystr) (s : sys W)
  (c : ctl) (nxt : option pystr) (s' : sys W) : Prop :=
  exists stuff : list event,
    trace s' = stuff ++ EGet cur :: trace s
    /\ forallb quiet stuff = true
    /\ (exists added, all_products_data s' = all_products_data s ++ added)
    /\ driver_set s' = driver_set s
    /\ match c with
       | Continue =>
           nxt = None \/
           exists html, In (ESource html) stuff /\
                        find_next_page_url cfg lib html = Ok nxt
       | Break => True
       end.

Ltac unfold_scraper :=
  unfold loop_iteration, page_try_block, next_url_after_failure, page_source,
         sleep, parse_listings, extend_products, get_all_products in *.

Ltac close_iteration :=
  eexists; eexists; eexists; split; [reflexivity|];
  unfold iteration_post; cbn; give_events;
  split; [reflexivity|]; split; [reflexivity|];
  split; [first [ exists (@nil product); rewrite app_nil_r; reflexivity
                | eexists; reflexivity ]|];
  split; [reflexivity|];
  try exact I;
  first [ left; reflexivity
        | right; eexists; split; [|eassumption]; cbn; tauto
        | right; eexists; split; [|reflexivity]; cbn; tauto ].

Lemma loop_iteration_post (cur : pystr) (page_count : nat) (s : sys W) :
  exists c nxt s',
    loop_iteration cfg lib cur page_count s = Some (Ok (c, nxt), s')
    /\ iteration_post cur s c nxt s'.
Proof.
  unfold_scraper. unfold_m. run_cases; close_iteration.
Qed.

End WithEnv.

End ScraperFacts.

Module LoopFacts.
Import ScraperFacts.

Section WithEnv.

Context {W : Type} {env : Env W}.
Variable cfg : Config.
Variable lib : Lib.

Lemma while_loop_exit_none (fuel page_count : nat) (s : sys W) :
  while_loop cfg lib fuel None page_count s = Some (Ok (None, page_count), s).
Proof. destruct fuel; reflexivity. Qed.

Lemma while_loop_exit_guard (fuel page_count : nat) (cur : pystr) (s : sys W) :
  truthy cur && (page_count <? MAX_PAGES cfg)%nat = false ->
  while_loop cfg lib fuel (Some cur) page_count s =
  Some (Ok (Some cur, page_count), s).
Proof. intros H. destruct fuel; simpl; rewrite H; reflexivity. Qed.

(** One turn of the loop, in terms of its iteration. *)
Lemma while_loop_turn (fuel page_count : nat) (cur : pystr) (s : sys W) :
  truthy cur && (page_count <? MAX_PAGES cfg)%nat = true ->
  while_loop cfg lib (S fuel) (Some cur) page_count s =
  match loop_iteration cfg lib cur (S page_count)
          (push_event (ELog (LScrapingPage (S page_count) cur)) s) with
  | Some (Ok (Break, nxt), s') => Some (Ok (nxt, S page_count), s')
  | Some (Ok (Continue, nxt), s') => while_loop cfg lib fuel nxt (S page_count) s'
  | Some (Raise e, s') => Some (Raise e, s')
  | None => None
  end.
Proof.
  intros H. simpl. rewrite H. unfold bind, log, emit.
  destruct (loop_iteration _ _ _ _ _) as [[[[[|] nxt]|e] s']|]; reflexivity.
Qed.

(** What the loop leaves behind: it returns, having fetched one page per
    turn and no more than the budget allows, never logging the page-limit
    line itself. *)
Definition loop_post (cur : option pystr) (pc : nat) (s : sys W)
  (pc' : nat) (s' : sys W) : Prop :=
  (pc <= pc')%nat
  /\ (pc' <= Nat.max pc (MAX_PAGES cfg))%nat
  /\ count_gets (trace s') = (count_gets (trace s) + (pc' - pc))%nat
  /\ count_page_limit_logs (trace s') = count_page_limit_logs (trace s)
  /\ (truthy_opt cur = true -> (pc < MAX_PAGES cfg)%nat -> (pc < pc')%nat)
  /\ (exists added, all_products_data s' = all_products_data s ++ added)
  /\ driver_set s' = driver_set s.

Lemma while_loop_post (fuel : nat) :
  forall (cur : option pystr) (pc : nat) (s : sys W),
    (MAX_PAGES cfg - pc <= fuel)%nat ->
    exists nxt pc' s',
      while_loop cfg lib fuel cur pc s = Some (Ok (nxt, pc'), s')
      /\ loop_post cur pc s pc' s'.
Proof.
  induction fuel as [|fuel IH]; intros cur pc s Hf.
  - destruct cur as [cur|].
    + exists (Some cur), pc, s. split.
      * apply while_loop_exit_guard. apply andb_false_iff. right.
        apply Nat.ltb_ge. lia.
      * unfold loop_post. repeat split; try lia.
        exists []. rewrite app_nil_r. reflexivity.
    + exists None, pc, s. split; [reflexivity|].
      unfold loop_post. repeat split; try lia; try discriminate.
      exists []. rewrite app_nil_r. reflexivity.
  - destruct cur as [cur|].
    2:{ exists None, pc, s. split; [reflexivity|].
        unfold loop_post. repeat split; try lia; try discriminate.
        exists []. rewrite app_nil_r. reflexivity. }
    destruct (truthy cur && (pc <? MAX_PAGES cfg)%nat) eqn:G.
    2:{ exists (Some cur), pc, s. split; [apply while_loop_exit_guard; exact G|].
        unfold loop_post. repeat split; try lia.
        - intros Ht Hlt. simpl in Ht. rewrite Ht in G. simpl in G.
          apply Nat.ltb_ge in G. lia.
        - exists []. rewrite app_nil_r. reflexivity. }
    rewrite (while_loop_turn fuel pc cur s G).
    apply andb_true_iff in G as [Gt Gl]. apply Nat.ltb_lt in Gl.
    destruct (loop_iteration_post cfg lib cur (S pc)
                (push_event (ELog (LScrapingPage (S pc) cur)) s))
      as (c & nxt & s1 & -> & stuff & Htr & Hq & (added & Hadd) & Hdrv & Hnext).
    cbn in Htr, Hadd, Hdrv.
    assert (count_gets (trace s1) = S (count_gets (trace s))) as Hg.
    { rewrite Htr, count_gets_app, (count_gets_quiet _ Hq). reflexivity. }
    assert (count_page_limit_logs (trace s1) = count_page_limit_logs (trace s)) as Hl.
    { rewrite Htr, count_page_limit_logs_app, (count_page_limit_logs_quiet _ Hq).
      reflexivity. }
    destruct c.
    + destruct (IH nxt (S pc) s1 ltac:(lia))
        as (nxt' & pc' & s' & -> & H1 & H2 & H3 & H4 & _ & (added' & H6) & H7).
      exists nxt', pc', s'. split; [reflexivity|].
      unfold loop_post. repeat split; try lia; try congruence.
      exists (added ++ added'). rewrite H6, Hadd, app_assoc. reflexivity.
    + exists nxt, (S pc), s1. split; [reflexivity|].
      unfold loop_post. repeat split; try lia; try congruence.
      exists added. exact Hadd.
Qed.

End WithEnv.

End LoopFacts.

Import ScraperFacts LoopFacts.

Module RunFacts.

Section WithEnv.

Context {W : Type} {env : Env W}.
Variable cfg : Config.
Variable lib : Lib.

Lemma count_gets_log (m : log_msg) (tr : list event) :
  count_gets (ELog m :: tr) = count_gets tr.
Proof. reflexivity. Qed.

Lemma count_limit_of_limit_log (tr : list event) :
  count_page_limit_logs (ELog LReachedMaxPages :: tr) =
  S (count_page_limit_logs tr).
Proof. reflexivity. Qed.

(** The loop and the lines after it: the page-limit line is logged exactly
    when the page count has reached the limit. *)
Lemma scrape_loop_post (start_url : pystr) (s : sys W) :
  exists pc s',
    scrape_loop cfg lib (MAX_PAGES cfg) start_url s = Some (Ok pc, s')
    /\ (pc <= MAX_PAGES cfg)%nat
    /\ count_gets (trace s') = (count_gets (trace s) + pc)%nat
    /\ count_page_limit_logs (trace s') =
       (count_page_limit_logs (trace s)
        + if (MAX_PAGES cfg <=? pc)%nat then 1 else 0)%nat
    /\ (truthy start_url = true -> (0 < MAX_PAGES cfg)%nat -> (0 < pc)%nat).
Proof.
  destruct (while_loop_post cfg lib (MAX_PAGES cfg) (Some start_url) 0 s ltac:(lia))
    as (nxt & pc & s1 & Hrun & H1 & H2 & H3 & H4 & H5 & _ & _).
  simpl in H5. unfold scrape_loop, bind. rewrite Hrun.
  unfold log, emit, ret. cbn [snd].
  destruct (MAX_PAGES cfg <=? pc)%nat eqn:E;
    eexists; eexists; (split; [reflexivity|]); cbn [trace push_event];
    rewrite ?E, ?count_gets_log, ?count_limit_of_limit_log, ?H3, ?H4;
    repeat split; try lia; exact H5.
Qed.

Lemma scrape_products_returns (s : sys W) :
  exists r s',
    scrape_products cfg lib s = Some (r, s')
    /\ (count_gets (trace s') <= count_gets (trace s) + MAX_PAGES cfg)%nat.
Proof.
  unfold scrape_products, _get_full_url, bind, lift_result, log, emit,
         get_all_products, ret.
  destruct (urljoin lib (BASE_URL cfg) (CATEGORY_PATH cfg)) as [start|e].
  - destruct (scrape_loop_post start
                (push_event (ELog (LInitialUrl start)) (push_event (ELog LStart) s)))
      as (pc & s1 & -> & Hle & Hg & _).
    eexists; eexists; split; [reflexivity|]. cbn [trace push_event] in *.
    rewrite !count_gets_log in *. lia.
  - eexists; eexists; split; [reflexivity|]. lia.
Qed.

End WithEnv.

End RunFacts.
Import RunFacts.

(** C5 (page budget).  For every start URL, every budget and every
    behaviour of the browser, the crawl loop returns: the fuel of the model
    is never used up.  The number of pages it fetches is the page count,
    which is at most the budget; with a budget of 1 and a non-empty start
    URL it is exactly 1, whatever the page links to.  [scrape_products] as
    a whole returns or raises after at most that many fetches. *)
Theorem C5_crawl_terminates_within_budget
  (W : Type) (env : Env W) (cfg : Config) (lib : Lib)
  (start_url : pystr) (s : sys W) :
  (exists pc s',
     scrape_loop cfg lib (MAX_PAGES cfg) start_url s = Some (Ok pc, s')
     /\ count_gets (trace s') = (count_gets (trace s) + pc)%nat
     /\ (pc <= MAX_PAGES cfg)%nat
     /\ (MAX_PAGES cfg = 1%nat -> truthy start_url = true -> pc = 1%nat))
  /\ (exists r s',
        scrape_products cfg lib s = Some (r, s')
        /\ (count_gets (trace s') <= count_gets (trace s) + MAX_PAGES cfg)%nat).
Proof.
  split.
  - destruct (scrape_loop_post cfg lib start_url s)
      as (pc & s' & Hrun & Hle & Hg & _ & Hpos).
    exists pc, s'. repeat split; auto.
    intros H1 Ht. specialize (Hpos Ht). lia.
  - apply scrape_products_returns.
Qed.

(** The budget of 1 on the two-page site of the fixture: one fetch, though
    page 1 links to page 2. *)
Definition budget_one : Config := {|
  BASE_URL := BASE_URL config_py;
  CATEGORY_PATH := CATEGORY_PATH config_py;
  MAX_PAGES := 1;
  OUTPUT_FILENAME_CSV := OUTPUT_FILENAME_CSV config_py;
  OUTPUT_FILENAME_JSON := OUTPUT_FILENAME_JSON config_py
|}.

Lemma C5_budget_one_witness :
  exists s',
    scrape_loop budget_one (fixture_lib dom2) 1 start_py (boot site2) = Some (Ok 1%nat, s')
    /\ count_gets (trace s') = 1%nat
    /\ find_next_page_url budget_one (fixture_lib dom2) (u "<page 1>") = Ok (Some page2_py).
Proof.
  destruct (C5_crawl_terminates_within_budget fake fake_env budget_one
              (fixture_lib dom2) start_py (boot site2))
    as ((pc & s' & Hrun & Hg & _ & Hone) & _).
  rewrite (Hone eq_refl eq_refl) in *.
  exists s'. split; [exact Hrun|]. split; [exact Hg|]. vm_compute. reflexivity.
Defined.

(** C1 (page-limit line).  After the loop the line "Reached maximum page
    limit" is logged exactly when the page count, which is the number of
    pages fetched, has reached [MAX_PAGES]; the loop itself never logs
    it.  So it is logged whenever the loop test on the budget ended the
    loop, and not logged when fewer pages than the budget were fetched. *)
Theorem C1_page_limit_logged_iff_count_reaches_budget
  (W : Type) (env : Env W) (cfg : Config) (lib : Lib)
  (start_url : pystr) (s : sys W) :
  exists pc s',
    scrape_loop cfg lib (MAX_PAGES cfg) start_url s = Some (Ok pc, s')
    /\ count_gets (trace s') = (count_gets (trace s) + pc)%nat
    /\ count_page_limit_logs (trace s') =
       (count_page_limit_logs (trace s)
        + if (MAX_PAGES cfg <=? pc)%nat then 1 else 0)%nat.
Proof.
  destruct (scrape_loop_post cfg lib start_url s)
    as (pc & s' & Hrun & _ & Hg & Hl & _).
  exists pc, s'. auto.
Qed.

(** C1, as stated, fails on the two-page site with the budget of
    [config.py]: page 2 has no next link, the loop ends by the [break] that
    follows "No further next page link found", and since page 2 is also the
    last page of the budget the page-limit line is logged after it. *)
Lemma C1_no_next_link_on_last_page_counterexample :
  exists s',
    scrape_loop config_py (fixture_lib dom2) (MAX_PAGES config_py) start_py (boot site2)
      = Some (Ok 2%nat, s')
    /\ firstn 2 (trace s') = [ELog LReachedMaxPages; ELog LNoNextLink]
    /\ find_next_page_url config_py (fixture_lib dom2) (u "<page 2>") = Ok None
    /\ count_gets (trace s') = MAX_PAGES config_py.
Proof.
  eexists. split; [vm_compute; reflexivity|]. vm_compute. auto.
Qed.

(* ================================================================== *)
(** * Where the next URL comes from *)
(* ================================================================== *)

Module LinkFacts.

Section WithEnv.

Context {W : Type} {env : Env W}.
Variable cfg : Config.
Variable lib : Lib.

(** The events of a trace (newest first) since its last fetch. *)
Fixpoint since_last_get (tr : list event) : list event :=
  match tr with
  | [] => []
  | e :: older => if is_get e then [] else e :: since_last_get older
  end.

(** [url] is what the pagination resolver finds in a page source read
    since the last fetch. *)
Definition found_since_last_get (tr : list event) (url : option pystr) : Prop :=
  exists html, In (ESource html) (since_last_get tr)
               /\ find_next_page_url cfg lib html = Ok url.

(** Every fetch of a trace but the first is of a URL the resolver found
    in a page source read since the fetch before. *)
Fixpoint fetches_follow_links (tr : list event) : Prop :=
  match tr with
  | [] => True
  | e :: older =>
      match e with
      | EGet url => count_gets older = 0%nat \/ found_since_last_get older (Some url)
      | _ => True
      end /\ fetches_follow_links older
  end.

Lemma since_last_get_quiet (stuff : list event) (e : event) (tr : list event) :
  forallb quiet stuff = true -> is_get e = true ->
  since_last_get (stuff ++ e :: tr) = stuff.
Proof.
  intros Hq He. induction stuff as [|x stuff IH]; simpl.
  - rewrite He. reflexivity.
  - simpl in Hq. apply andb_true_iff in Hq as [Hx Hq].
    destruct x; simpl in *; try discriminate; rewrite IH; auto.
Qed.

Lemma fetches_follow_links_quiet (stuff tr : list event) :
  forallb quiet stuff = true -> fetches_follow_links tr ->
  fetches_follow_links (stuff ++ tr).
Proof.
  intros Hq H. induction stuff as [|x stuff IH]; simpl; [exact H|].
  simpl in Hq. apply andb_true_iff in Hq as [Hx Hq].
  split; [|auto]. destruct x; simpl in *; try discriminate; exact I.
Qed.

Lemma found_after_log (m : log_msg) (tr : list event) (url : option pystr) :
  found_since_last_get tr url -> found_since_last_get (ELog m :: tr) url.
Proof.
  intros (html & Hin & Hf). exists html. split; [right; exact Hin | exact Hf].
Qed.

(** The URL about to be fetched is the start URL of a run that has fetched
    nothing, or comes from the resolver. *)
Definition url_justified (cur : option pystr) (tr : list event) : Prop :=
  forall url, cur = Some url ->
    count_gets tr = 0%nat \/ found_since_last_get tr (Some url).

Lemma while_loop_links (fuel : nat) :
  forall (cur : option pystr) (pc : nat) (s : sys W) r s',
    while_loop cfg lib fuel cur pc s = Some (r, s') ->
    fetches_follow_links (trace s) -> url_justified cur (trace s) ->
    fetches_follow_links (trace s').
Proof.
  induction fuel as [|fuel IH]; intros cur pc s r s' Hrun Hff Hj.
  - destruct cur as [cur|]; simpl in Hrun.
    + destruct (truthy cur && (pc <? MAX_PAGES cfg)%nat); [discriminate|].
      injection Hrun as _ <-. exact Hff.
    + injection Hrun as _ <-. exact Hff.
  - destruct cur as [cur|]; [|injection Hrun as _ <-; exact Hff].
    destruct (truthy cur && (pc <? MAX_PAGES cfg)%nat) eqn:G.
    2:{ rewrite (while_loop_exit_guard cfg lib (S fuel) pc cur s G) in Hrun.
        injection Hrun as _ <-. exact Hff. }
    rewrite (while_loop_turn cfg lib fuel pc cur s G) in Hrun.
    destruct (loop_iteration_post cfg lib cur (S pc)
                (push_event (ELog (LScrapingPage (S pc) cur)) s))
      as (c & nxt & s1 & E & stuff & Htr & Hq & _ & _ & Hnext).
    rewrite E in Hrun. cbn [trace push_event] in Htr.
    assert (fetches_follow_links (trace s1)) as Hff1.
    { rewrite Htr. apply fetches_follow_links_quiet; [exact Hq|].
      simpl. split; [|split; [exact I | exact Hff]].
      destruct (Hj cur eq_refl) as [H0|Hf].
      - left. exact H0.
      - right. apply found_after_log. exact Hf. }
    destruct c.
    + eapply IH; [exact Hrun | exact Hff1 |].
      intros url ->. right.
      destruct Hnext as [Hn|(html & Hin & Hf)]; [discriminate|].
      exists html. rewrite Htr, since_last_get_quiet by auto. auto.
    + injection Hrun as _ <-. exact Hff1.
Qed.

Lemma scrape_loop_links (start_url : pystr) (s : sys W) r s' :
  count_gets (trace s) = 0%nat -> fetches_follow_links (trace s) ->
  scrape_loop cfg lib (MAX_PAGES cfg) start_url s = Some (r, s') ->
  fetches_follow_links (trace s').
Proof.
  intros H0 Hff Hrun. unfold scrape_loop, bind in Hrun.
  destruct (while_loop cfg lib (MAX_PAGES cfg) (Some start_url) 0 s)
    as [[[[nxt pc]|e] s1]|] eqn:E; [| |discriminate].
  - assert (fetches_follow_links (trace s1)) as H1.
    { eapply while_loop_links; [exact E | exact Hff |].
      intros url _. left. exact H0. }
    cbn [snd] in Hrun. unfold log, emit, ret in Hrun.
    destruct (MAX_PAGES cfg <=? pc)%nat; injection Hrun as _ <-;
      simpl; auto.
  - injection Hrun as _ <-.
    eapply while_loop_links; [exact E | exact Hff |].
    intros url _. left. exact H0.
Qed.

End WithEnv.

End LinkFacts.
Import LinkFacts.

(** C8 (no retry).  Every iteration of the loop returns with the trace
    grown by the fetch of the current URL and by quiet events, and when the
    loop goes on (at the end of the [try] block, or after one of the three
    recoveries) the next URL is nothing or what the pagination resolver found
    in a page source read during that iteration.  Over a run that starts
    with no page fetched, every fetch but the first is of a URL the resolver
    found in a page source read since the fetch before: no fetch is made
    with a URL kept from the iteration before. *)
Theorem C8_next_fetch_comes_from_the_resolver
  (W : Type) (env : Env W) (cfg : Config) (lib : Lib) :
  (forall cur page_count (s : sys W),
     exists c nxt s',
       loop_iteration cfg lib cur page_count s = Some (Ok (c, nxt), s')
       /\ iteration_post cfg lib cur s c nxt s')
  /\ (forall start_url (s : sys W) r s',
        trace s = [] ->
        scrape_loop cfg lib (MAX_PAGES cfg) start_url s = Some (r, s') ->
        fetches_follow_links cfg lib (trace s')).
Proof.
  split.
  - apply loop_iteration_post.
  - intros start_url s r s' H0 Hrun.
    eapply scrape_loop_links; [| |exact Hrun]; rewrite H0; [reflexivity|exact I].
Qed.

(** A site whose second page does not load in time: [driver.get] raises
    [TimeoutException] and the browser keeps showing page 1. *)
Definition slow_page2 : fake :=
  world_of [ (start_py, ok_page (u "<page 1>"));
             (page2_py, {| on_get := Raise TimeoutException; on_wait := Ok tt;
                           source := u "<page 2>" |}) ].

Definition budget_three : Config := {|
  BASE_URL := BASE_URL config_py;
  CATEGORY_PATH := CATEGORY_PATH config_py;
  MAX_PAGES := 3;
  OUTPUT_FILENAME_CSV := OUTPUT_FILENAME_CSV config_py;
  OUTPUT_FILENAME_JSON := OUTPUT_FILENAME_JSON config_py
|}.

Lemma C8_slow_page_witness :
  exists s',
    scrape_loop budget_three (fixture_lib dom2) 3 start_py (boot slow_page2)
      = Some (Ok 3%nat, s')
    /\ fetches_follow_links budget_three (fixture_lib dom2) (trace s').
Proof.
  eexists. split; [vm_compute; reflexivity|].
  destruct (C8_next_fetch_comes_from_the_resolver fake fake_env budget_three
              (fixture_lib dom2)) as [_ H].
  eapply (H start_py (boot slow_page2)); [reflexivity|].
  vm_compute. reflexivity.
Defined.

(** C8, as stated, fails on that site with a budget of 3: the recovery
    after the page-load timeout reads the source the browser still shows,
    that of page 1, whose next link is the URL that has just timed out, and
    the loop fetches that same URL again. *)
Lemma C8_timeout_recovery_refetches_counterexample :
  exists s',
    scrape_loop budget_three (fixture_lib dom2) 3 start_py (boot slow_page2)
      = Some (Ok 3%nat, s')
    /\ rev (filter is_get (trace s')) = [EGet start_py; EGet page2_py; EGet page2_py]
    /\ List.length (filter (fun e => match e with
                                      | ELog (LPageLoadTimeout _) => true
                                      | _ => false
                                      end) (trace s')) = 2%nat.
Proof.
  eexists. split; [vm_compute; reflexivity|]. vm_compute. auto.
Qed.

(* ================================================================== *)
(** * Timeouts and fatal errors *)
(* ================================================================== *)

Module FailureFacts.

#[local] Arguments contains : simpl never.
#[local] Arguments u : simpl never.
#[local] Arguments lower : simpl never.

Section WithEnv.

Context {W : Type} {env : Env W}.
Variable cfg : Config.
Variable lib : Lib.

Ltac unfold_iteration :=
  unfold loop_iteration, page_try_block, next_url_after_failure, page_source,
         sleep, parse_listings, extend_products, get_all_products;
  unfold_m.

(** The state after an element-wait timeout and the reading of the page
    source that follows it. *)
Definition after_wait_timeout (cur : pystr) (page_count : nat) (src : pystr)
  (w : W) (s : sys W) : sys W :=
  {| world := w; clock_reads := clock_reads s;
     all_products_data := all_products_data s; driver_set := driver_set s;
     trace := ESource src :: ELog (LWaitTimeout page_count) :: EWait
              :: EGet cur :: trace s |}.

Lemma wait_timeout_with_marker
  (cur : pystr) (page_count : nat) (s : sys W) (w1 w2 w3 : W) (src : pystr) :
  driver_get cur (world s) = (Ok tt, w1) ->
  wait_product_container w1 = (Raise TimeoutException, w2) ->
  driver_page_source w2 = (Ok src, w3) ->
  contains (u "no results") (lower src) = true ->
  loop_iteration cfg lib cur page_count s =
  Some (Ok (Break, Some cur),
        push_event (ELog LNoResults) (after_wait_timeout cur page_count src w3 s)).
Proof.
  intros Hg Hw Hs Hm. unfold_iteration. cbn.
  rewrite Hg. cbn. rewrite Hw. cbn. rewrite Hs. cbn. rewrite Hm. reflexivity.
Qed.

Lemma wait_timeout_without_marker
  (cur : pystr) (page_count : nat) (s : sys W) (w1 w2 w3 w4 : W)
  (src html : pystr) :
  driver_get cur (world s) = (Ok tt, w1) ->
  wait_product_container w1 = (Raise TimeoutException, w2) ->
  driver_page_source w2 = (Ok src, w3) ->
  contains (u "no results") (lower src) = false ->
  driver_page_source w3 = (Ok html, w4) ->
  truthy html = true ->
  exists c nxt s' logs,
    loop_iteration cfg lib cur page_count s = Some (Ok (c, nxt), s')
    /\ all_products_data s' =
       all_products_data s
       ++ fst (parse_product_listings cfg lib html (clock_reads s))
    /\ clock_reads s' = snd (parse_product_listings cfg lib html (clock_reads s))
    /\ trace s' = logs ++ ESource html :: ESleep true
                  :: trace (after_wait_timeout cur page_count src w3 s)
    /\ forallb quiet logs = true
    /\ ~ In (ELog LNoResults) logs
    /\ (forall n, find_next_page_url cfg lib html = Ok n ->
          nxt = n /\ c = if truthy_opt n then Continue else Break).
Proof.
  intros Hg Hw Hs Hm Hs2 Ht. unfold_iteration. cbn.
  rewrite Hg. cbn. rewrite Hw. cbn. rewrite Hs. cbn. rewrite Hm. cbn.
  rewrite Hs2. cbn. rewrite Ht. cbn.
  destruct (parse_product_listings cfg lib html (clock_reads s)) as [ps k].
  run_cases;
    eexists; eexists; eexists;
    (lazymatch goal with
     | |- exists logs : list event, Some (_, ?st) = _ /\ _ =>
         let tr := eval cbn in (trace st) in
         let p := events_before tr
                    (ESource html :: ESleep true :: ESource src
                     :: ELog (LWaitTimeout page_count) :: EWait :: EGet cur
                     :: trace s) in
         exists p
     end);
    (split; [reflexivity|]); cbn;
    (split; [reflexivity|]); (split; [reflexivity|]);
    (split; [reflexivity|]); (split; [reflexivity|]);
    (split; [intros H; cbn in H; intuition discriminate|]);
    intros n Hn; try discriminate;
    injection Hn as <-; cbn; repeat split;
    repeat match goal with
           | H : truthy_opt _ = _ |- _ => cbn in H; try rewrite H; clear H
           end;
    try reflexivity; try discriminate.
Qed.

(** A [WebDriverException] that is no timeout, raised by [driver.get]. *)
Lemma fatal_get_breaks
  (cur : pystr) (page_count : nat) (s : sys W) (e : exn) (w1 : W) :
  driver_get cur (world s) = (Raise e, w1) ->
  is_WebDriverException e = true -> is_TimeoutException e = false ->
  loop_iteration cfg lib cur page_count s =
  Some (Ok (Break, Some cur),
        push_event (ELog (LWebDriverError page_count))
          (set_world w1 (push_event (EGet cur) s))).
Proof.
  intros Hg Hwd Ht. unfold_iteration. cbn. rewrite Hg. cbn.
  rewrite Ht, Hwd. reflexivity.
Qed.

(** The state in which a fatal error of [driver.get] leaves the loop. *)
Definition after_fatal_get (cur : pystr) (page_count : nat) (w : W) (s : sys W)
  : sys W :=
  push_event (ELog (LWebDriverError page_count))
    (set_world w
       (push_event (EGet cur)
          (push_event (ELog (LScrapingPage page_count cur)) s))).

Lemma fatal_get_ends_loop
  (fuel : nat) (cur : pystr) (pc : nat) (s : sys W) (e : exn) (w1 : W) :
  (0 < fuel)%nat -> truthy cur = true -> (pc < MAX_PAGES cfg)%nat ->
  driver_get cur (world s) = (Raise e, w1) ->
  is_WebDriverException e = true -> is_TimeoutException e = false ->
  while_loop cfg lib fuel (Some cur) pc s =
  Some (Ok (Some cur, S pc), after_fatal_get cur (S pc) w1 s).
Proof.
  intros Hf Hc Hlt Hg Hwd Ht. destruct fuel as [|fuel]; [lia|].
  rewrite while_loop_turn
    by (rewrite Hc; apply Nat.ltb_lt in Hlt; rewrite Hlt; reflexivity).
  rewrite (fatal_get_breaks cur (S pc) _ e w1); auto.
Qed.

(** The whole run when the fetch of page 1 raises a fatal error: what
    [main] logs and calls, in order (newest first). *)
Definition fatal_first_page_trace (start : pystr) (closing : log_msg)
  (limit : list event) : list event :=
  [ELog LMainFinished; ELog closing; EQuit; ELog LNoDataScraped;
   ELog (LFinished 0)]
  ++ limit
  ++ [ELog (LWebDriverError 1); EGet start; ELog (LScrapingPage 1 start);
      ELog (LInitialUrl start); ELog LStart; ELog LSetupOk; EChromeStart;
      ELog LSetupStart; ELog LMainInit].

(** The line about the page limit that follows the loop: logged when the
    budget is one page. *)
Definition limit_after_first_page : list event :=
  if (MAX_PAGES cfg <=? 1)%nat then [ELog LReachedMaxPages] else [].

Lemma main_fatal_on_first_page
  (s0 : sys W) (w1 w2 w3 : W) (start : pystr) (e : exn) :
  logging_setup (world s0) = (Ok tt, w1) ->
  chrome_start w1 = (Ok tt, w2) ->
  urljoin lib (BASE_URL cfg) (CATEGORY_PATH cfg) = Ok start ->
  truthy start = true -> (0 < MAX_PAGES cfg)%nat ->
  driver_get start w2 = (Raise e, w3) ->
  is_WebDriverException e = true -> is_TimeoutException e = false ->
  exists s',
    main cfg lib s0 = Some (Ok tt, s')
    /\ all_products_data s' = []
    /\ driver_set s' = false
    /\ world s' = snd (driver_quit w3)
    /\ trace s' = fatal_first_page_trace start
                    (closing_log (fst (driver_quit w3)))
                    limit_after_first_page
                  ++ trace s0.
Proof.
  intros Hl Hc Hu Ht Hm Hg Hwd Hnt.
  unfold main, ProductScraper_init, _setup_driver, scrape_and_save,
         scrape_products, _get_full_url, scrape_loop, close_driver,
         get_all_products.
  unfold log. unfold_m. cbn [world push_event set_world]. rewrite Hl.
  cbn [world push_event set_world set_all_products_data set_driver_set].
  rewrite Hc.
  cbn [world push_event set_world set_all_products_data set_driver_set].
  rewrite Hu.
  cbn [world push_event set_world set_all_products_data set_driver_set].
  erewrite fatal_get_ends_loop; [| exact Hm | exact Ht | exact Hm | exact Hg
                                 | exact Hwd | exact Hnt].
  unfold after_fatal_get, fatal_first_page_trace, limit_after_first_page. cbn.
  destruct (MAX_PAGES cfg <=? 1)%nat; cbn;
    destruct (driver_quit w3) as [[[]|e'] w4]; cbn;
    eexists; repeat split; reflexivity.
Qed.

End WithEnv.

End FailureFacts.
Import FailureFacts.

(** C7 (element-wait timeout).  When the page loads, the wait for the
    product container times out and the page source is read: if its lower
    case contains "no results" the iteration ends the loop by [break], after
    logging that, with no second reading of the source, no record added and
    no reading of the clock; if it does not, the iteration goes on as after
    a successful wait: it reads the source again and, if that is not empty,
    appends exactly the records the extractor finds in it, then takes the
    next URL from the resolver on it. *)
Theorem C7_wait_timeout_checks_no_results_marker
  (W : Type) (env : Env W) (cfg : Config) (lib : Lib)
  (cur : pystr) (page_count : nat) (s : sys W) (w1 w2 w3 : W) (src : pystr)
  (Hget : driver_get cur (world s) = (Ok tt, w1))
  (Hwait : wait_product_container w1 = (Raise TimeoutException, w2))
  (Hsrc : driver_page_source w2 = (Ok src, w3)) :
  (contains (u "no results") (lower src) = true ->
     loop_iteration cfg lib cur page_count s =
     Some (Ok (Break, Some cur),
           push_event (ELog LNoResults)
             (after_wait_timeout cur page_count src w3 s)))
  /\ (contains (u "no results") (lower src) = false ->
      forall html w4,
        driver_page_source w3 = (Ok html, w4) -> truthy html = true ->
        exists c nxt s' logs,
          loop_iteration cfg lib cur page_count s = Some (Ok (c, nxt), s')
          /\ all_products_data s' =
             all_products_data s
             ++ fst (parse_product_listings cfg lib html (clock_reads s))
          /\ clock_reads s' =
             snd (parse_product_listings cfg lib html (clock_reads s))
          /\ trace s' = logs ++ ESource html :: ESleep true
                        :: trace (after_wait_timeout cur page_count src w3 s)
          /\ forallb quiet logs = true
          /\ ~ In (ELog LNoResults) logs
          /\ (forall n, find_next_page_url cfg lib html = Ok n ->
                nxt = n /\ c = if truthy_opt n then Continue else Break)).
Proof.
  split.
  - intros Hm.
    apply (wait_timeout_with_marker cfg lib cur page_count s w1 w2 w3 src
             Hget Hwait Hsrc Hm).
  - intros Hm html w4 Hs2 Ht.
    apply (wait_timeout_without_marker cfg lib cur page_count s w1 w2 w3 w4
             src html Hget Hwait Hsrc Hm Hs2 Ht).
Qed.

(** A page on which the product container never shows up and which says
    that there are no results. *)
Definition empty_search : fake :=
  world_of [ (start_py, {| on_get := Ok tt; on_wait := Raise TimeoutException;
                           source := u "<p>No Results found</p>" |}) ].

(** A page on which the wait times out although the listing is there. *)
Definition late_listing : fake :=
  world_of [ (start_py, {| on_get := Ok tt; on_wait := Raise TimeoutException;
                           source := u "<page 1>" |}) ].

Lemma C7_no_results_witness :
  loop_iteration config_py (fixture_lib dom2) start_py 1 (boot empty_search) =
  Some (Ok (Break, Some start_py),
        push_event (ELog LNoResults)
          (after_wait_timeout start_py 1 (u "<p>No Results found</p>")
             (show (lookup start_py (site empty_search)) empty_search)
             (boot empty_search)))
  /\ exists s',
       loop_iteration config_py (fixture_lib dom2) start_py 1 (boot late_listing)
         = Some (Ok (Continue, Some page2_py), s')
       /\ List.map name (all_products_data s') = [u "Laptop A"; u "Laptop B"].
Proof.
  split.
  - refine (proj1 (C7_wait_timeout_checks_no_results_marker fake fake_env
                     config_py (fixture_lib dom2) start_py 1 (boot empty_search)
                     _ _ _ (u "<p>No Results found</p>") _ _ _) _);
      vm_compute; reflexivity.
  - pose (shown1 := show (lookup start_py (site late_listing)) late_listing).
    destruct (proj2 (C7_wait_timeout_checks_no_results_marker fake fake_env
                       config_py (fixture_lib dom2) start_py 1 (boot late_listing)
                       shown1 shown1 shown1 (u "<page 1>")
                       eq_refl eq_refl eq_refl)
                    eq_refl (u "<page 1>") shown1 eq_refl eq_refl)
      as (c & nxt & s' & logs & Hrun & Hdata & _ & _ & _ & _ & Hnext).
    destruct (Hnext (Some page2_py) eq_refl) as [-> ->].
    exists s'. split; [exact Hrun|]. rewrite Hdata. vm_compute. reflexivity.
Defined.

(** C6 (fatal transport error).  When [driver.get] raises a
    [WebDriverException] that is no timeout, the iteration logs it and ends
    the loop by [break]: nothing else is called, the page is not fetched
    again, and the records are those collected before.  When this happens
    on page 1 of a run of [main], the run returns with no record collected,
    neither save function is called, nothing is written, and the browser
    session is released: [driver.quit()] is called on the world the failed
    fetch left, the world of the end of the run is the one that call
    leaves, and the line logged after it says whether the call returned or
    raised. *)
Theorem C6_fatal_transport_error_aborts_the_crawl
  (W : Type) (env : Env W) (cfg : Config) (lib : Lib)
  (cur : pystr) (s : sys W) (e : exn) (w' : W)
  (Hget : driver_get cur (world s) = (Raise e, w'))
  (Hfatal : is_WebDriverException e = true)
  (Hnot_timeout : is_TimeoutException e = false) :
  (forall page_count,
     loop_iteration cfg lib cur page_count s =
     Some (Ok (Break, Some cur),
           push_event (ELog (LWebDriverError page_count))
             (set_world w' (push_event (EGet cur) s))))
  /\ (forall fuel pc,
        (0 < fuel)%nat -> truthy cur = true -> (pc < MAX_PAGES cfg)%nat ->
        exists s',
          while_loop cfg lib fuel (Some cur) pc s = Some (Ok (Some cur, S pc), s')
          /\ all_products_data s' = all_products_data s
          /\ world s' = w'
          /\ count_gets (trace s') = S (count_gets (trace s)))
  /\ (forall s0 w1,
        logging_setup (world s0) = (Ok tt, w1) ->
        chrome_start w1 = (Ok tt, world s) ->
        urljoin lib (BASE_URL cfg) (CATEGORY_PATH cfg) = Ok cur ->
        truthy cur = true -> (0 < MAX_PAGES cfg)%nat ->
        exists s',
          main cfg lib s0 = Some (Ok tt, s')
          /\ all_products_data s' = []
          /\ driver_set s' = false
          /\ world s' = snd (driver_quit w')
          /\ trace s' =
             [ELog LMainFinished; ELog (closing_log (fst (driver_quit w')));
              EQuit; ELog LNoDataScraped; ELog (LFinished 0)]
             ++ (if (MAX_PAGES cfg <=? 1)%nat then [ELog LReachedMaxPages] else [])
             ++ [ELog (LWebDriverError 1); EGet cur; ELog (LScrapingPage 1 cur);
                 ELog (LInitialUrl cur); ELog LStart; ELog LSetupOk;
                 EChromeStart; ELog LSetupStart; ELog LMainInit]
             ++ trace s0).
Proof.
  split; [|split].
  - intros page_count.
    apply (fatal_get_breaks cfg lib cur page_count s e w' Hget Hfatal Hnot_timeout).
  - intros fuel pc Hf Ht Hlt. eexists. split.
    + apply (fatal_get_ends_loop cfg lib fuel cur pc s e w' Hf Ht Hlt Hget
               Hfatal Hnot_timeout).
    + repeat split; reflexivity.
  - intros s0 w1 Hl Hc Hu Ht Hm.
    destruct (main_fatal_on_first_page cfg lib s0 w1 (world s) w' cur e
                Hl Hc Hu Ht Hm Hget Hfatal Hnot_timeout)
      as (s' & Hrun & Hdata & Hdrv & Hworld & Htrace).
    exists s'. repeat split; try assumption.
    rewrite Htrace. unfold fatal_first_page_trace, limit_after_first_page.
    rewrite <- !app_assoc. reflexivity.
Qed.

(** A site whose first page cannot be fetched at all. *)
Definition unreachable : fake :=
  world_of [ (start_py, {| on_get := Raise WebDriverException; on_wait := Ok tt;
                           source := u "<page 1>" |}) ].

(** The same site, with a browser that also fails to quit. *)
Definition unreachable_stuck : fake :=
  {| site := site unreachable; shown := None; logging_ok := true;
     chrome_ok := true; quit_ok := false; makedirs_ok := true; csv_ok := true;
     json_ok := true; files := [] |}.

(** On the unreachable site the run of [main] ends with an empty result and
    no file; when [driver.quit()] raises as well, the run still returns and
    the line logged after the call is the one of the error. *)
Lemma C6_unreachable_site_witness :
  (exists s',
     main config_py (fixture_lib dom2) (boot unreachable) = Some (Ok tt, s')
     /\ all_products_data s' = []
     /\ files (world s') = []
     /\ shown (world s') = None
     /\ trace s' = fatal_first_page_trace start_py LDriverClosed [])
  /\ (exists s',
        main config_py (fixture_lib dom2) (boot unreachable_stuck)
        = Some (Ok tt, s')
        /\ all_products_data s' = []
        /\ files (world s') = []
        /\ trace s' = fatal_first_page_trace start_py LDriverCloseError []).
Proof.
  split.
  - destruct (C6_fatal_transport_error_aborts_the_crawl fake fake_env config_py
                (fixture_lib dom2) start_py (boot unreachable)
                WebDriverException unreachable eq_refl eq_refl eq_refl)
      as (_ & _ & H).
    destruct (H (boot unreachable) unreachable eq_refl eq_refl eq_refl eq_refl
                (Nat.lt_0_succ 1))
      as (s' & Hrun & Hdata & _ & Hworld & Htrace).
    exists s'. split; [exact Hrun|]. split; [exact Hdata|].
    rewrite Hworld, Htrace. repeat split.
  - destruct (C6_fatal_transport_error_aborts_the_crawl fake fake_env config_py
                (fixture_lib dom2) start_py (boot unreachable_stuck)
                WebDriverException unreachable_stuck eq_refl eq_refl eq_refl)
      as (_ & _ & H).
    destruct (H (boot unreachable_stuck) unreachable_stuck
                eq_refl eq_refl eq_refl eq_refl (Nat.lt_0_succ 1))
      as (s' & Hrun & Hdata & _ & Hworld & Htrace).
    exists s'. split; [exact Hrun|]. split; [exact Hdata|].
    rewrite Hworld, Htrace. repeat split.
Defined.

(* ================================================================== *)
(** * Further properties of the field extraction *)
(* ================================================================== *)

Module FieldFacts.

Definition no_digit (s : pystr) : bool := forallb (fun c => negb (is_digit c)) s.

Lemma re_search_rating_none (s : pystr) :
  re_search_rating s = None <-> no_digit s = true.
Proof.
  unfold no_digit. induction s as [|c r IH]; [simpl; tauto|].
  rewrite re_search_rating_cons.
  change (forallb (fun c => negb (is_digit c)) (c :: r))
    with (negb (is_digit c) && forallb (fun c => negb (is_digit c)) r).
  destruct (is_digit c) eqn:Hc; cbn [negb andb].
  - split; [|discriminate].
    destruct (span_digits (c :: r)) as [ds r1].
    destruct r1 as [|d r2]; [discriminate|].
    destruct (d =? 46)%N; [|discriminate].
    destruct (span_digits r2) as [[|f fs] r3]; discriminate.
  - exact IH.
Qed.

Lemma re_search_reviews_none_iff (s : pystr) :
  re_search_reviews s = None <-> no_digit s = true.
Proof.
  split; [|apply re_search_reviews_none].
  unfold no_digit. induction s as [|c r IH]; [reflexivity|].
  simpl re_search_reviews. rewrite reviews_alt2_dead.
  destruct (reviews_alt1 (c :: r)) as [m|] eqn:E; [discriminate|].
  intros H. simpl. rewrite (IH H), andb_true_r.
  destruct (is_digit c) eqn:Hc; [|reflexivity].
  unfold reviews_alt1 in E.
  destruct (take_digits_head 2 c r Hc) as (ds & r' & Ht). rewrite Ht in E.
  destruct (comma_groups r'). discriminate.
Qed.

Lemma no_digit_empty_or_falsy (s : pystr) : truthy s = false -> no_digit s = true.
Proof. destruct s; [reflexivity | discriminate]. Qed.

End FieldFacts.
Import FieldFacts.

(** X1 (rating).  For every rating text the extraction returns without
    raising; the rating is absent exactly when the text has no decimal
    digit, of any script, and otherwise it is a float that is not negative
    and not a NaN (an infinity when the numeral is beyond the range of the
    doubles): a sign in front of the numeral is not read. *)
Theorem X1_rating_absent_or_not_negative (s : pystr) :
  (extract_rating (Some s) = Ok None <-> no_digit s = true)
  /\ (extract_rating (Some s) = Ok None \/
      exists v, extract_rating (Some s) = Ok (Some v) /\ ge0 v = true).
Proof.
  unfold extract_rating.
  destruct (truthy s) eqn:Ht.
  - destruct (re_search_rating s) as [g|] eqn:E.
    + pose proof E as Hshape. apply re_search_rating_shape in Hshape.
      assert (exists m e, py_float g = Ok (double_of_decimal false m e))
        as (m & e & Hf).
      { destruct Hshape as [(d & ds & -> & H) | (d & ds & f & fs & -> & H & F)].
        - rewrite (py_float_digits _ _ H). eauto.
        - rewrite (py_float_digits_dot_digits _ _ _ _ H F). eauto. }
      rewrite Hf. simpl. split.
      * split; [discriminate|]. intros Hn.
        apply re_search_rating_none in Hn. congruence.
      * right. eexists. split; [reflexivity|].
        destruct (double_of_decimal_sign false m e) as [(M & E' & ->) | ->];
          reflexivity.
    + split; [|auto]. split; [|reflexivity].
      intros _. apply re_search_rating_none. exact E.
  - split; [|auto]. split; [|reflexivity].
    intros _. apply no_digit_empty_or_falsy. exact Ht.
Qed.

(** X2 (review count).  The count is absent exactly when the review text
    has no decimal digit, of any script.  When the numeral the pattern
    matches has at most 4300 digits the extraction returns, and the count
    is absent or an integer that is not negative; when it has more, [int]
    refuses it and the extraction raises [ValueError]. *)
Theorem X2_review_count_absent_not_negative_or_refused (s : pystr) :
  (extract_reviews (Some s) = Ok None <-> no_digit s = true)
  /\ ((review_digits (Some s) <= 4300)%nat ->
      extract_reviews (Some s) = Ok None \/
      exists n, extract_reviews (Some s) = Ok (Some n) /\ (0 <= n)%Z)
  /\ ((4300 < review_digits (Some s))%nat ->
      extract_reviews (Some s) = Raise ValueError).
Proof.
  destruct (extract_reviews_cases (Some s)) as [(L & r & Hr & Hn) | [L Hr]];
    unfold int_max_str_digits in L.
  - split; [|split].
    + split.
      * intros H. unfold extract_reviews in H.
        destruct (truthy s) eqn:Ht; [|apply no_digit_empty_or_falsy; exact Ht].
        destruct (re_search_reviews s) as [g|] eqn:E;
          [|apply re_search_reviews_none_iff; exact E].
        destruct (py_int (remove_char 44 g)); discriminate.
      * intros H. unfold extract_reviews.
        rewrite (re_search_reviews_none s H). destruct (truthy s); reflexivity.
    + intros _. rewrite Hr. destruct r as [n|]; [right; eauto | left; reflexivity].
    + intros L'. lia.
  - split; [|split].
    + rewrite Hr. split; [discriminate|]. intros H.
      unfold review_digits in L. rewrite (re_search_reviews_none s H) in L.
      inversion L.
    + intros L'. lia.
    + intros _. exact Hr.
Qed.

Module GroupFacts.

(** Groups of a comma and three digits, as text and as digits. *)
Definition group_text (g : N * N * N) : pystr :=
  let '(a, b, c) := g in [44%N; a; b; c].
Definition group_digits (g : N * N * N) : pystr :=
  let '(a, b, c) := g in [a; b; c].
Definition group_ok (g : N * N * N) : bool :=
  let '(a, b, c) := g in is_digit a && is_digit b && is_digit c.

Definition groups_text (gs : list (N * N * N)) : pystr :=
  concat (List.map group_text gs).
Definition groups_digits (gs : list (N * N * N)) : pystr :=
  concat (List.map group_digits gs).

(** What may follow the numeral: nothing, or a character that is neither a
    digit nor a comma. *)
Definition ends_numeral (rest : pystr) : bool :=
  match rest with
  | [] => true
  | x :: _ => negb (is_digit x) && negb (x =? 44)%N
  end.

Lemma re_search_reviews_skip (pre t : pystr) :
  no_digit pre = true -> re_search_reviews (pre ++ t) = re_search_reviews t.
Proof.
  unfold no_digit. induction pre as [|c pre IH]; intros H; [reflexivity|].
  simpl in H. apply andb_true_iff in H as [Hc Hp]. apply negb_true_iff in Hc.
  simpl app. simpl re_search_reviews.
  unfold reviews_match_at, reviews_alt1, reviews_alt2. simpl.
  rewrite Hc. auto.
Qed.

Lemma take_digits_app (n : nat) (ds r : pystr) :
  forallb is_digit ds = true -> (List.length ds <= n)%nat ->
  match r with x :: _ => is_digit x = false | [] => True end ->
  take_digits n (ds ++ r) = (ds, r).
Proof.
  revert n. induction ds as [|d ds IH]; intros n Hd Hn Hr.
  - simpl. destruct n; destruct r as [|x r]; try reflexivity.
    simpl. rewrite Hr. reflexivity.
  - destruct n; [simpl in Hn; lia|]. simpl in *.
    apply andb_true_iff in Hd as [H1 H2]. rewrite H1.
    rewrite IH; auto. lia.
Qed.

Lemma comma_groups_end (rest : pystr) :
  ends_numeral rest = true -> comma_groups rest = ([], rest).
Proof.
  destruct rest as [|x [|a [|b [|c r]]]]; try reflexivity.
  intros H. simpl in H. apply andb_true_iff in H as [_ H].
  apply negb_true_iff in H. rewrite comma_groups_cons, H. reflexivity.
Qed.

Lemma comma_groups_all (gs : list (N * N * N)) (rest : pystr) :
  forallb group_ok gs = true -> ends_numeral rest = true ->
  comma_groups (groups_text gs ++ rest) = (groups_text gs, rest).
Proof.
  intros Hg Hr. induction gs as [|[[a b] c] gs IH].
  - apply comma_groups_end. exact Hr.
  - simpl in Hg. apply andb_true_iff in Hg as [Hg Hgs].
    unfold groups_text. simpl List.map. simpl concat.
    change (concat (List.map group_text gs)) with (groups_text gs).
    apply andb_true_iff in Hg as [Hab Hc].
    apply andb_true_iff in Hab as [Ha Hb].
    simpl app. rewrite comma_groups_cons, Ha, Hb, Hc, N.eqb_refl. simpl.
    rewrite (IH Hgs). reflexivity.
Qed.

Lemma remove_commas_groups (gs : list (N * N * N)) :
  forallb group_ok gs = true ->
  remove_char 44 (groups_text gs) = groups_digits gs.
Proof.
  induction gs as [|[[a b] c] gs IH]; intros Hg; [reflexivity|].
  simpl in Hg. apply andb_true_iff in Hg as [Hg Hgs].
  apply andb_true_iff in Hg as [Hab Hc]. apply andb_true_iff in Hab as [Ha Hb].
  unfold groups_text, groups_digits, remove_char in *.
  simpl. rewrite IH by exact Hgs.
  apply digit_range in Ha, Hb, Hc.
  replace (a =? 44)%N with false by (symmetry; apply N.eqb_neq; lia).
  replace (b =? 44)%N with false by (symmetry; apply N.eqb_neq; lia).
  replace (c =? 44)%N with false by (symmetry; apply N.eqb_neq; lia).
  reflexivity.
Qed.

Lemma remove_commas_id (ds : pystr) :
  forallb is_digit ds = true -> remove_char 44 ds = ds.
Proof.
  unfold remove_char. induction ds as [|d ds IH]; simpl; intros H; [reflexivity|].
  apply andb_true_iff in H as [Hd Hds]. apply digit_range in Hd.
  replace (d =? 44)%N with false by (symmetry; apply N.eqb_neq; lia).
  simpl. f_equal. auto.
Qed.

Lemma groups_digits_are_digits (gs : list (N * N * N)) :
  forallb group_ok gs = true -> forallb is_digit (groups_digits gs) = true.
Proof.
  induction gs as [|[[a b] c] gs IH]; intros Hg; [reflexivity|].
  simpl in Hg. apply andb_true_iff in Hg as [Hg Hgs].
  apply andb_true_iff in Hg as [Hab Hc]. apply andb_true_iff in Hab as [Ha Hb].
  unfold groups_digits in *. simpl. rewrite Ha, Hb, Hc. simpl. auto.
Qed.

Lemma groups_text_head (gs : list (N * N * N)) (rest : pystr) :
  ends_numeral rest = true ->
  match groups_text gs ++ rest with x :: _ => is_digit x = false | [] => True end.
Proof.
  intros Hr. destruct gs as [|[[a b] c] gs].
  - simpl. destruct rest as [|x r]; [exact I|]. simpl in Hr.
    apply andb_true_iff in Hr as [Hr _]. apply negb_true_iff. exact Hr.
  - reflexivity.
Qed.

End GroupFacts.
Import GroupFacts.

(** X3 (review count, grouped numeral).  When the first numeral of the
    review text is written with thousands separators, one to three digits
    followed by groups of a comma and three digits, has at most 4300
    digits, and is followed by nothing or by a character that is neither a
    digit nor a comma, the count is the value of all its digits. *)
Theorem X3_review_count_reads_grouped_numeral
  (pre ds rest : pystr) (gs : list (N * N * N))
  (Hpre : no_digit pre = true)
  (Hds : forallb is_digit ds = true)
  (Hlen : (1 <= List.length ds <= 3)%nat)
  (Hgs : forallb group_ok gs = true)
  (Hlimit : (List.length (ds ++ groups_digits gs) <= 4300)%nat)
  (Hrest : ends_numeral rest = true) :
  extract_reviews (Some (pre ++ ds ++ groups_text gs ++ rest)) =
  Ok (Some (Z.of_N (digits_value (ds ++ groups_digits gs)))).
Proof.
  destruct ds as [|d ds]; [simpl in Hlen; lia|].
  unfold extract_reviews.
  assert (truthy (pre ++ (d :: ds) ++ groups_text gs ++ rest) = true) as ->
    by (destruct pre; reflexivity).
  rewrite (re_search_reviews_skip pre _ Hpre).
  assert (re_search_reviews ((d :: ds) ++ groups_text gs ++ rest)
          = Some ((d :: ds) ++ groups_text gs)) as ->.
  { change ((d :: ds) ++ groups_text gs ++ rest)
      with (d :: (ds ++ groups_text gs ++ rest)).
    simpl re_search_reviews. rewrite reviews_alt2_dead. unfold reviews_alt1.
    change (d :: (ds ++ groups_text gs ++ rest))
      with ((d :: ds) ++ groups_text gs ++ rest).
    rewrite (take_digits_app 3 (d :: ds) (groups_text gs ++ rest) Hds
               (proj2 Hlen) (groups_text_head gs rest Hrest)).
    rewrite (comma_groups_all gs rest Hgs Hrest). reflexivity. }
  unfold remove_char. rewrite filter_app. fold (remove_char 44 (d :: ds)).
  fold (remove_char 44 (groups_text gs)).
  rewrite (remove_commas_id _ Hds), (remove_commas_groups gs Hgs).
  change ((d :: ds) ++ groups_digits gs) with (d :: (ds ++ groups_digits gs)).
  rewrite py_int_digits; [reflexivity| |exact Hlimit].
  change (d :: (ds ++ groups_digits gs)) with ((d :: ds) ++ groups_digits gs).
  rewrite forallb_app, Hds, (groups_digits_are_digits gs Hgs). reflexivity.
Qed.

(** "1,234,567" in ASCII, and "12,345" in Arabic-Indic digits (code points
    1632 to 1641). *)
Lemma X3_grouped_numeral_witness :
  extract_reviews (Some (u "Rated by 1,234,567 buyers")) = Ok (Some 1234567%Z)
  /\ extract_reviews (Some [1633; 1634; 44; 1635; 1636; 1637]%N)
     = Ok (Some 12345%Z).
Proof.
  split.
  - exact (X3_review_count_reads_grouped_numeral
             (u "Rated by ") (u "1") (u " buyers")
             [(50, 51, 52)%N; (53, 54, 55)%N]
             eq_refl eq_refl (conj (le_n 1) (le_S _ _ (le_S _ _ (le_n 1))))
             eq_refl (proj1 (Nat.leb_le 7 4300) eq_refl) eq_refl).
  - exact (X3_review_count_reads_grouped_numeral
             [] [1633; 1634]%N [] [(1635, 1636, 1637)%N]
             eq_refl eq_refl (conj (le_S _ _ (le_n 1)) (le_S _ _ (le_n 2)))
             eq_refl (proj1 (Nat.leb_le 5 4300) eq_refl) eq_refl).
Defined.

(* ================================================================== *)
(** * Further properties of the price cleaner *)
(* ================================================================== *)

Module PriceValueFacts.

Lemma cleaned_text_without_minus (s : pystr) :
  ~ In 45%N (re_sub_price s) -> cleaned_text s = re_sub_price s.
Proof.
  intros H. unfold cleaned_text. rewrite re_sub_price_strip.
  apply has_char_false_iff in H. rewrite H. reflexivity.
Qed.

Lemma plain_no_minus (g : pystr) : forallb plain g = true -> ~ In 45%N g.
Proof.
  intros H Hin. eapply forallb_forall in H; [|exact Hin]. discriminate.
Qed.

Lemma digits_no_minus (g : pystr) : forallb is_digit g = true -> ~ In 45%N g.
Proof.
  intros H Hin. eapply forallb_forall in H; [|exact Hin]. discriminate.
Qed.

Lemma digit_head_not_free (d : N) (r : pystr) :
  is_digit d = true -> PyStr.eqb (lower (d :: r)) (u "free") = false.
Proof.
  intros H. unfold u. simpl list_ascii_of_string. simpl List.map.
  apply digit_head_not_word; [exact H | split; reflexivity].
Qed.

Lemma clean_price_of_float (s g : pystr) (v : pyfloat) :
  cleaned_text s = g -> PyStr.eqb (lower g) (u "free") = false ->
  py_float g = Ok v -> clean_price (Some s) = Ok (Some v).
Proof.
  intros Hc Hf Hv. unfold clean_price, clean_price_body.
  rewrite Hc, Hf, Hv. reflexivity.
Qed.

End PriceValueFacts.
Import PriceValueFacts.

(** X4 (price, plain numeral).  When what the substitution leaves of the
    price text is a run of digits, the price is the double nearest to the
    integer they denote; when it is digits, a dot and digits, the price is
    the double nearest to that decimal.  A numeral beyond the range of the
    doubles gives an infinity. *)
Theorem X4_price_of_plain_numeral (s : pystr) :
  (forall d ds,
     re_sub_price s = d :: ds -> forallb is_digit (d :: ds) = true ->
     clean_price (Some s) =
     Ok (Some (double_of_decimal false (digits_value (d :: ds)) 0)))
  /\ (forall d ds f fs,
        re_sub_price s = (d :: ds) ++ 46%N :: f :: fs ->
        forallb is_digit (d :: ds) = true -> forallb is_digit (f :: fs) = true ->
        clean_price (Some s) =
        Ok (Some (double_of_decimal false (digits_value ((d :: ds) ++ f :: fs))
                                    (- Z.of_nat (List.length (f :: fs)))))).
Proof.
  split.
  - intros d ds E H.
    apply (clean_price_of_float s (d :: ds)).
    + rewrite <- E. apply cleaned_text_without_minus. rewrite E.
      apply digits_no_minus, H.
    + apply digit_head_not_free. simpl in H.
      apply andb_true_iff in H as [H _]. exact H.
    + apply py_float_digits. exact H.
  - intros d ds f fs E H F.
    apply (clean_price_of_float s ((d :: ds) ++ 46%N :: f :: fs)).
    + rewrite <- E. apply cleaned_text_without_minus. rewrite E.
      intros Hin. apply in_app_or in Hin as [Hin|[Hin|Hin]].
      * exact (digits_no_minus _ H Hin).
      * discriminate.
      * exact (digits_no_minus _ F Hin).
    + apply (digit_head_not_free d (ds ++ 46%N :: f :: fs)). simpl in H.
      apply andb_true_iff in H as [H _]. exact H.
    + apply py_float_digits_dot_digits; assumption.
Qed.

(** The pound sign is code point 163 and the euro sign 8364.  12500 is
    3125 * 2^2; the double nearest to 0.99 is 4458563631096791 * 2^-52; the
    integer 9007199254740993 is no double, and the nearest one is 2^53. *)
Lemma X4_plain_numeral_witness :
  clean_price (Some (163%N :: u " 12,500 ")) = Ok (Some (PFinite false 3125 2))
  /\ clean_price (Some (8364%N :: u " 0.99"))
     = Ok (Some (PFinite false 4458563631096791 (-52)))
  /\ clean_price (Some (u "$9007199254740993")) = Ok (Some (PFinite false 1 53)).
Proof.
  split; [|split].
  - exact (proj1 (X4_price_of_plain_numeral (163%N :: u " 12,500 "))
             49%N (u "2500") eq_refl eq_refl).
  - exact (proj2 (X4_price_of_plain_numeral (8364%N :: u " 0.99"))
             48%N [] 57%N [57%N] eq_refl eq_refl eq_refl).
  - exact (proj1 (X4_price_of_plain_numeral (u "$9007199254740993"))
             57%N (u "007199254740993") eq_refl eq_refl).
Defined.

(** X5 (price, leading minus).  When what the substitution leaves of the
    price text starts with ['-'], the text before the first ['-'] is empty
    and the price is absent: a negative amount is dropped, not negated. *)
Theorem X5_price_with_leading_minus_is_absent (s r : pystr)
  (Hminus : re_sub_price s = 45%N :: r) :
  clean_price (Some s) = Ok None.
Proof.
  assert (cleaned_text s = []) as E.
  { unfold cleaned_text. rewrite re_sub_price_strip, Hminus. reflexivity. }
  unfold clean_price, clean_price_body. rewrite E. reflexivity.
Qed.

Lemma X5_leading_minus_witness :
  clean_price (Some (u "-$5.00")) = Ok None.
Proof.
  exact (X5_price_with_leading_minus_is_absent (u "-$5.00") (u "5.00") eq_refl).
Defined.

(* ================================================================== *)
(** * The clock and the records *)
(* ================================================================== *)

Module ClockFacts.

Section WithLib.

Variable cfg : Config.
Variable lib : Lib.

Lemma parse_containers_clock (cs : list container) (k : nat) :
  snd (parse_containers cfg lib cs k)
  = (k + List.length (fst (parse_containers cfg lib cs k)))%nat
  /\ List.map scraped_timestamp (fst (parse_containers cfg lib cs k))
     = List.map (get_timestamp_string lib)
         (seq k (List.length (fst (parse_containers cfg lib cs k)))).
Proof.
  revert k. induction cs as [|c cs IH]; intros k.
  - simpl. split; [lia | reflexivity].
  - destruct (builds_record cfg lib c) eqn:E.
    + destruct (parse_containers_cons_wf cfg lib c cs k E) as (p & Hp & ->).
      destruct (parse_container_builds cfg lib (get_timestamp_string lib k) c E)
        as (q & Hq & _ & _ & _ & _ & Hts & _).
      rewrite Hq in Hp. injection Hp as ->.
      destruct (IH (S k)) as [H1 H2]. simpl. split; [lia|].
      rewrite Hts, H2. reflexivity.
    + rewrite (parse_containers_cons_skip cfg lib c cs k E). apply IH.
Qed.

End WithLib.

End ClockFacts.
Import ClockFacts.

(** X6 (timestamps).  The extractor reads the clock once for every record
    it builds and never for a container it skips: after a page the number
    of readings has grown by the number of records, and the records carry,
    in order, the readings made for them. *)
Theorem X6_one_clock_reading_per_record
  (cfg : Config) (lib : Lib) (html : pystr) (k : nat) :
  let out := fst (parse_product_listings cfg lib html k) in
  snd (parse_product_listings cfg lib html k) = (k + List.length out)%nat
  /\ List.map scraped_timestamp out
     = List.map (get_timestamp_string lib) (seq k (List.length out)).
Proof.
  cbv zeta. rewrite parse_product_listings_loop. apply parse_containers_clock.
Qed.

(* ================================================================== *)
(** * What each part of a run may do *)
(* ================================================================== *)

Module FrameFacts.

Definition is_quit (e : event) : bool :=
  match e with EQuit => true | _ => false end.

(** Events of the crawl: anything but the start and the end of the browser
    session and the calls of the sink. *)
Definition crawl_event (e : event) : bool :=
  match e with
  | EChromeStart | EQuit | ECall _ | EMakedirs | EToCsv _ _ | EJsonDump _ _ => false
  | _ => true
  end.

(** Events of the sink: its calls and its log lines. *)
Definition sink_event (e : event) : bool :=
  match e with
  | ECall _ | EMakedirs | EToCsv _ _ | EJsonDump _ _
  | ELog LNoDataCsv | ELog LSavedCsv | ELog LErrorCsv
  | ELog LNoDataJson | ELog LSavedJson | ELog LErrorJson => true
  | _ => false
  end.

(** Neither a fetch nor the start or the end of the session. *)
Definition after_crawl_event (e : event) : bool :=
  match e with
  | EGet _ | EChromeStart | EQuit => false
  | _ => true
  end.

(** Not the start or the end of the session. *)
Definition inside_session (e : event) : bool :=
  match e with
  | EChromeStart | EQuit => false
  | _ => true
  end.

Section WithEnv.

Context {W : Type}.

(** From [s] to [s'] the trace has grown by events that satisfy [ok], the
    driver field is as it was, and records have only been appended. *)
Definition keeps (ok : event -> bool) (s s' : sys W) : Prop :=
  (exists delta, trace s' = delta ++ trace s /\ forallb ok delta = true)
  /\ driver_set s' = driver_set s
  /\ (exists added, all_products_data s' = all_products_data s ++ added).

Definition m_keeps {A} (ok : event -> bool) (m : M W A) : Prop :=
  forall s r s', m s = Some (r, s') -> keeps ok s s'.

Lemma keeps_refl (ok : event -> bool) (s : sys W) : keeps ok s s.
Proof.
  split; [exists []; auto|]. split; [reflexivity|].
  exists []. rewrite app_nil_r. reflexivity.
Qed.

Lemma keeps_same (ok : event -> bool) (s s' : sys W) :
  trace s' = trace s -> driver_set s' = driver_set s ->
  all_products_data s' = all_products_data s -> keeps ok s s'.
Proof.
  intros T D A. split; [exists []; auto|]. split; [exact D|].
  exists []. rewrite app_nil_r. exact A.
Qed.

Lemma keeps_trans (ok : event -> bool) (s1 s2 s3 : sys W) :
  keeps ok s1 s2 -> keeps ok s2 s3 -> keeps ok s1 s3.
Proof.
  intros ((d1 & T1 & F1) & D1 & (a1 & A1)) ((d2 & T2 & F2) & D2 & (a2 & A2)).
  split; [|split].
  - exists (d2 ++ d1). rewrite T2, T1, app_assoc, forallb_app, F1, F2. auto.
  - congruence.
  - exists (a1 ++ a2). rewrite A2, A1, app_assoc. reflexivity.
Qed.

Lemma keeps_weaken (ok ok' : event -> bool) (s s' : sys W) :
  (forall e, ok e = true -> ok' e = true) -> keeps ok s s' -> keeps ok' s s'.
Proof.
  intros Hw ((d & T & F) & D & A). split; [|auto].
  exists d. split; [exact T|]. apply forallb_forall. intros e He.
  apply Hw. eapply forallb_forall in F; eauto.
Qed.

Lemma m_keeps_weaken {A} (ok ok' : event -> bool) (m : M W A) :
  (forall e, ok e = true -> ok' e = true) -> m_keeps ok m -> m_keeps ok' m.
Proof. intros Hw H s r s' E. eapply keeps_weaken; eauto. Qed.

Lemma ret_keeps {A} (ok : event -> bool) (a : A) : m_keeps ok (ret (W := W) a).
Proof. intros s r s' E. injection E as _ <-. apply keeps_refl. Qed.

Lemma raise_keeps {A} (ok : event -> bool) (e : exn) :
  m_keeps ok (raise (W := W) (A := A) e).
Proof. intros s r s' E. injection E as _ <-. apply keeps_refl. Qed.

Lemma lift_result_keeps {A} (ok : event -> bool) (x : result A) :
  m_keeps ok (lift_result (W := W) x).
Proof. intros s r s' E. injection E as _ <-. apply keeps_refl. Qed.

Lemma emit_keeps (ok : event -> bool) (e : event) :
  ok e = true -> m_keeps ok (emit (W := W) e).
Proof.
  intros He s r s' E. injection E as _ <-. split; [|split].
  - exists [e]. simpl. rewrite He. auto.
  - reflexivity.
  - exists []. rewrite app_nil_r. reflexivity.
Qed.

Lemma log_keeps (ok : event -> bool) (m : log_msg) :
  ok (ELog m) = true -> m_keeps ok (log (W := W) m).
Proof. apply emit_keeps. Qed.

Lemma env_call_keeps {A} (ok : event -> bool) (f : W -> result A * W) :
  m_keeps ok (env_call f).
Proof.
  intros s r s' E. unfold env_call in E. destruct (f (world s)) as [x w].
  injection E as _ <-. apply keeps_same; reflexivity.
Qed.

Lemma bind_keeps {A B} (ok : event -> bool) (m : M W A) (k : A -> M W B) :
  m_keeps ok m -> (forall a, m_keeps ok (k a)) -> m_keeps ok (bind m k).
Proof.
  intros Hm Hk s r s' E. unfold bind in E.
  destruct (m s) as [[[a|e] s1]|] eqn:E1; [| |discriminate].
  - eapply keeps_trans; [eapply Hm; exact E1 | eapply Hk; exact E].
  - injection E as _ <-. eapply Hm. exact E1.
Qed.

Lemma try_except_keeps {A} (ok : event -> bool) (m : M W A) (h : exn -> M W A) :
  m_keeps ok m -> (forall e, m_keeps ok (h e)) -> m_keeps ok (try_except m h).
Proof.
  intros Hm Hh s r s' E. unfold try_except in E.
  destruct (m s) as [[[a|e] s1]|] eqn:E1; [| |discriminate].
  - injection E as _ <-. eapply Hm. exact E1.
  - eapply keeps_trans; [eapply Hm; exact E1 | eapply Hh; exact E].
Qed.

(** Counting through a growth of the trace. *)
Lemma keeps_count (ok p : event -> bool) (s s' : sys W) :
  (forall e, ok e = true -> p e = false) -> keeps ok s s' ->
  List.length (filter p (trace s')) = List.length (filter p (trace s)).
Proof.
  intros Hp ((d & T & F) & _). rewrite T, filter_app, length_app.
  assert (filter p d = []) as ->; [|reflexivity].
  clear T. induction d as [|e d IH]; [reflexivity|].
  simpl in F. apply andb_true_iff in F as [Fe Fd].
  simpl. rewrite (Hp e Fe). auto.
Qed.

End WithEnv.

End FrameFacts.
Import FrameFacts.

Ltac keeps_step :=
  first
    [ apply bind_keeps; [|intros]
    | apply try_except_keeps; [|intros]
    | apply ret_keeps
    | apply raise_keeps
    | apply lift_result_keeps
    | apply env_call_keeps
    | apply log_keeps; reflexivity
    | apply emit_keeps; reflexivity
    | match goal with
      | |- m_keeps _ (match ?x with _ => _ end) => destruct x
      | |- m_keeps _ (if ?x then _ else _) => destruct x
      end ].

Module CrawlFrame.

Section WithEnv.

Context {W : Type} {env : Env W}.
Variable cfg : Config.
Variable lib : Lib.

Lemma page_source_keeps : m_keeps crawl_event (page_source (W := W)).
Proof. unfold page_source. repeat keeps_step. Qed.

Lemma next_url_after_failure_keeps (on_error : M W unit) :
  m_keeps crawl_event on_error ->
  m_keeps crawl_event (next_url_after_failure cfg lib on_error).
Proof.
  intros H. unfold next_url_after_failure.
  apply try_except_keeps; [|intros; apply bind_keeps; [exact H|intros; apply ret_keeps]].
  apply bind_keeps; [apply page_source_keeps|intros; apply lift_result_keeps].
Qed.

Lemma parse_listings_keeps (html : pystr) :
  m_keeps crawl_event (parse_listings (W := W) cfg lib html).
Proof.
  intros s r s' E. unfold parse_listings in E.
  destruct (parse_product_listings cfg lib html (clock_reads s)) as [ps k].
  injection E as _ <-. apply keeps_same; reflexivity.
Qed.

Lemma extend_products_keeps (ps : list product) :
  m_keeps crawl_event (extend_products (W := W) ps).
Proof.
  intros s r s' E. injection E as _ <-. split; [exists []; auto|].
  split; [reflexivity|]. exists ps. reflexivity.
Qed.

Lemma get_all_products_keeps :
  m_keeps crawl_event (get_all_products (W := W)).
Proof. intros s r s' E. injection E as _ <-. apply keeps_refl. Qed.

Ltac crawl_step :=
  first
    [ apply page_source_keeps
    | apply next_url_after_failure_keeps
    | apply parse_listings_keeps
    | apply extend_products_keeps
    | apply get_all_products_keeps
    | keeps_step ].

Lemma loop_iteration_keeps (cur : pystr) (page_count : nat) :
  m_keeps crawl_event (loop_iteration cfg lib cur page_count).
Proof.
  unfold loop_iteration, page_try_block, sleep. repeat crawl_step.
Qed.

Lemma while_loop_keeps (fuel : nat) :
  forall cur pc, m_keeps crawl_event (while_loop cfg lib fuel cur pc).
Proof.
  induction fuel as [|fuel IH]; intros cur pc.
  - simpl. repeat keeps_step.
    intros s r s' E. discriminate.
  - simpl. destruct cur as [cur|]; [|apply ret_keeps].
    destruct (truthy cur && (pc <? MAX_PAGES cfg)%nat); [|apply ret_keeps].
    apply bind_keeps; [apply log_keeps; reflexivity|intros _].
    apply bind_keeps; [apply loop_iteration_keeps|intros [[|] nxt]].
    + apply IH.
    + apply ret_keeps.
Qed.

Lemma scrape_products_keeps : m_keeps crawl_event (scrape_products cfg lib).
Proof.
  unfold scrape_products, _get_full_url, scrape_loop.
  repeat first [ apply while_loop_keeps | crawl_step ].
Qed.

End WithEnv.

End CrawlFrame.
Import CrawlFrame.

Module SessionFacts.

Section WithEnv.

Context {W : Type} {env : Env W}.
Variable cfg : Config.
Variable lib : Lib.

Lemma save_to_csv_keeps (data : list product) (filename : pystr) :
  m_keeps sink_event (save_to_csv (W := W) data filename).
Proof. unfold save_to_csv. repeat keeps_step. Qed.

Lemma save_to_json_keeps (data : list product) (filename : pystr) :
  m_keeps sink_event (save_to_json (W := W) data filename).
Proof. unfold save_to_json. repeat keeps_step. Qed.

Lemma save_to_csv_total (data : list product) (filename : pystr) (s : sys W) :
  exists r s', save_to_csv data filename s = Some (r, s').
Proof.
  unfold save_to_csv. unfold log. unfold_m. destruct data as [|p data]; cbn.
  - eauto.
  - destruct (os_makedirs (world s)) as [[[]|e] w1]; cbn; [|eauto].
    destruct (dataframe_to_csv (p :: data) filename w1) as [[[]|e] w2];
      cbn; eauto.
Qed.

Lemma save_to_json_total (data : list product) (filename : pystr) (s : sys W) :
  exists r s', save_to_json data filename s = Some (r, s').
Proof.
  unfold save_to_json. unfold log. unfold_m. destruct data as [|p data]; cbn.
  - eauto.
  - destruct (os_makedirs (world s)) as [[[]|e] w1]; cbn; [|eauto].
    destruct (json_dump (p :: data) filename w1) as [[[]|e] w2];
      cbn; eauto.
Qed.

Lemma crawl_inside (e : event) : crawl_event e = true -> inside_session e = true.
Proof. destruct e; simpl; auto. Qed.

Lemma sink_inside (e : event) : sink_event e = true -> inside_session e = true.
Proof. destruct e; simpl; auto; discriminate. Qed.

Lemma scrape_and_save_keeps : m_keeps inside_session (scrape_and_save cfg lib).
Proof.
  unfold scrape_and_save.
  apply bind_keeps.
  - eapply m_keeps_weaken; [exact crawl_inside | apply scrape_products_keeps].
  - intros [|p data]; [apply log_keeps; reflexivity|].
    apply bind_keeps; [apply log_keeps; reflexivity|intros _].
    apply bind_keeps;
      [eapply m_keeps_weaken; [exact sink_inside | apply save_to_csv_keeps]|intros _].
    apply bind_keeps;
      [eapply m_keeps_weaken; [exact sink_inside | apply save_to_json_keeps]|intros _].
    apply log_keeps; reflexivity.
Qed.

Lemma scrape_and_save_total (s : sys W) :
  exists r s', scrape_and_save cfg lib s = Some (r, s').
Proof.
  unfold scrape_and_save, bind.
  destruct (scrape_products_returns cfg lib s) as (r & s1 & -> & _).
  destruct r as [[|p data]|e]; [unfold log, emit; eauto | | eauto].
  unfold log at 1. unfold emit at 1.
  destruct (save_to_csv_total (p :: data) (OUTPUT_FILENAME_CSV cfg)
              (push_event (ELog (LSaving (List.length (p :: data)))) s1))
    as ([[]|e] & s2 & ->); [|eauto].
  destruct (save_to_json_total (p :: data) (OUTPUT_FILENAME_JSON cfg) s2)
    as ([[]|e] & s3 & ->); [|eauto].
  unfold log, emit. eauto.
Qed.

(** [close_driver], case by case. *)
Lemma close_driver_unset (s : sys W) :
  driver_set s = false -> close_driver s = Some (Ok tt, s).
Proof. intros H. unfold close_driver. rewrite H. reflexivity. Qed.

(** The state in which [close_driver] leaves a run whose driver is set:
    [driver.quit()] has been called on the world, the line about its
    outcome is logged and the field is unset. *)
Definition closed (s : sys W) : sys W :=
  set_driver_set false
    (push_event (ELog (closing_log (fst (driver_quit (world s)))))
       (set_world (snd (driver_quit (world s))) (push_event EQuit s))).

Lemma close_driver_set (s : sys W) :
  driver_set s = true -> close_driver s = Some (Ok tt, closed s).
Proof.
  intros H. unfold close_driver, closed. rewrite H. unfold log. unfold_m. cbn.
  destruct (driver_quit (world s)) as [[[]|e] w1]; reflexivity.
Qed.

Lemma ProductScraper_init_cases (s : sys W) :
  match chrome_start (world s) with
  | (Ok _, w1) =>
      ProductScraper_init s =
      Some (Ok tt,
            set_all_products_data []
              (set_driver_set true
                 (push_event (ELog LSetupOk)
                    (set_world w1
                       (push_event EChromeStart
                          (push_event (ELog LSetupStart) s))))))
  | (Raise e, w1) =>
      ProductScraper_init s =
      Some (Raise e,
            push_event (ELog LSetupFailed)
              (set_world w1
                 (push_event EChromeStart
                    (push_event (ELog LSetupStart) s))))
  end.
Proof.
  unfold ProductScraper_init, _setup_driver. unfold log. unfold_m. cbn.
  destruct (chrome_start (world s)) as [[[]|e] w1]; reflexivity.
Qed.

(** [main] once the logging is set up. *)
Definition main_after_logging : M W unit :=
  log LMainInit ;;
  created <- attempt ProductScraper_init ;;
  match created with
  | Raise _ => log LCritical ;; log LMainFinished
  | Ok _ =>
      try_finally
        (try_except (scrape_and_save cfg lib) (fun _ => log LCritical))
        (close_driver ;; log LMainFinished)
  end.

Lemma main_unfold (s : sys W) :
  main cfg lib s =
  match logging_setup (world s) with
  | (Ok _, w1) => main_after_logging (set_world w1 s)
  | (Raise e, w1) => Some (Raise e, set_world w1 s)
  end.
Proof.
  unfold main, main_after_logging, bind at 1, env_call.
  destruct (logging_setup (world s)) as [[[]|e] w1]; reflexivity.
Qed.

(** The state after [ProductScraper()] has returned in [s]. *)
Definition created_in (w : W) (s : sys W) : sys W :=
  set_all_products_data []
    (set_driver_set true
       (push_event (ELog LSetupOk)
          (set_world w
             (push_event EChromeStart
                (push_event (ELog LSetupStart)
                   (push_event (ELog LMainInit) s)))))).

Lemma main_after_logging_started (s : sys W) (w1 : W) :
  chrome_start (world s) = (Ok tt, w1) ->
  exists s2 s3,
    keeps inside_session (created_in w1 s) s2
    /\ (s3 = s2 \/ s3 = push_event (ELog LCritical) s2)
    /\ try_except (scrape_and_save cfg lib) (fun _ => log LCritical)
         (created_in w1 s) = Some (Ok tt, s3)
    /\ driver_set s3 = true
    /\ main_after_logging s =
       Some (Ok tt, push_event (ELog LMainFinished) (closed s3)).
Proof.
  intros Hc.
  assert (forall s3,
            try_except (scrape_and_save cfg lib) (fun _ => log LCritical)
              (created_in w1 s) = Some (Ok tt, s3) ->
            driver_set s3 = true ->
            main_after_logging s =
            Some (Ok tt, push_event (ELog LMainFinished) (closed s3))) as Hmain.
  { intros s3 Htry Hd.
    unfold main_after_logging, bind at 1, log at 1, emit at 1.
    unfold bind at 1, attempt.
    pose proof (ProductScraper_init_cases (push_event (ELog LMainInit) s)) as Hi.
    cbn [world push_event] in Hi. rewrite Hc in Hi. rewrite Hi.
    fold (created_in w1 s).
    unfold try_finally. rewrite Htry. unfold bind.
    rewrite (close_driver_set s3 Hd). reflexivity. }
  destruct (scrape_and_save_total (created_in w1 s)) as (r & s2 & Hrun).
  pose proof (scrape_and_save_keeps _ _ _ Hrun) as Hk.
  assert (exists s3, try_except (scrape_and_save cfg lib)
                       (fun _ => log LCritical) (created_in w1 s)
                     = Some (Ok tt, s3)
                     /\ (s3 = s2 \/ s3 = push_event (ELog LCritical) s2))
    as (s3 & Htry & Hs3).
  { unfold try_except. rewrite Hrun. destruct r as [[]|e].
    - exists s2. auto.
    - exists (push_event (ELog LCritical) s2). auto. }
  assert (driver_set s3 = true) as Hd.
  { destruct Hk as (_ & Hd & _).
    destruct Hs3 as [-> | ->]; cbn [driver_set push_event]; rewrite Hd; reflexivity. }
  exists s2, s3. split; [exact Hk|]. split; [exact Hs3|].
  split; [exact Htry|]. split; [exact Hd|]. apply Hmain; assumption.
Qed.

End WithEnv.

End SessionFacts.
Import SessionFacts.

(** X7 ([close_driver]).  Closing the driver never raises, whatever
    [driver.quit] does; it leaves the driver field unset and the records as
    they were.  If the field was set it calls [driver.quit] once: the world
    becomes the one that call leaves, and the line logged after the call
    says whether it returned or raised.  If the field was not set nothing
    is called and nothing is logged, so a second call does nothing. *)
Theorem X7_close_driver_never_raises_and_quits_once
  (W : Type) (env : Env W) (s : sys W) :
  exists s1,
    close_driver s = Some (Ok tt, s1)
    /\ driver_set s1 = false
    /\ all_products_data s1 = all_products_data s
    /\ world s1 = (if driver_set s then snd (driver_quit (world s)) else world s)
    /\ trace s1
       = (if driver_set s
          then [ELog (closing_log (fst (driver_quit (world s)))); EQuit]
          else []) ++ trace s
    /\ List.length (filter is_quit (trace s1))
       = (List.length (filter is_quit (trace s))
          + if driver_set s then 1 else 0)%nat
    /\ close_driver s1 = Some (Ok tt, s1).
Proof.
  destruct (driver_set s) eqn:Hd.
  - exists (closed s). split; [apply close_driver_set; exact Hd|].
    unfold closed. cbn. repeat split; try lia.
  - exists s. rewrite (close_driver_unset s Hd). repeat split; auto; lia.
Qed.

(** A browser that cannot be started. *)
Definition no_browser : fake :=
  {| site := site site2; shown := None; logging_ok := true; chrome_ok := false;
     quit_ok := true; makedirs_ok := true; csv_ok := true; json_ok := true;
     files := [] |}.

(** X8 ([main], setup failure).  When the logging is set up and the
    browser cannot be started, [main] logs the failure as critical and
    returns normally: no page is fetched, the sink is not called, and no
    quit is attempted since no scraper object exists. *)
Theorem X8_main_when_the_browser_does_not_start
  (W : Type) (env : Env W) (cfg : Config) (lib : Lib)
  (s : sys W) (w1 w2 : W) (e : exn)
  (Hlog : logging_setup (world s) = (Ok tt, w1))
  (Hchrome : chrome_start w1 = (Raise e, w2)) :
  main cfg lib s =
  Some (Ok tt,
        {| world := w2; clock_reads := clock_reads s;
           all_products_data := all_products_data s;
           driver_set := driver_set s;
           trace := [ELog LMainFinished; ELog LCritical; ELog LSetupFailed;
                     EChromeStart; ELog LSetupStart; ELog LMainInit]
                    ++ trace s |}).
Proof.
  rewrite main_unfold, Hlog.
  unfold main_after_logging, bind at 1, log at 1, emit at 1.
  unfold bind at 1, attempt.
  pose proof (ProductScraper_init_cases
                (push_event (ELog LMainInit) (set_world w1 s))) as Hi.
  cbn [world push_event set_world] in Hi. rewrite Hchrome in Hi. rewrite Hi.
  reflexivity.
Qed.

Lemma X8_no_browser_witness :
  option_map (fun x => (fst x, trace (snd x), files (world (snd x))))
    (main config_py (fixture_lib dom2) (boot no_browser))
  = Some (Ok tt,
          [ELog LMainFinished; ELog LCritical; ELog LSetupFailed;
           EChromeStart; ELog LSetupStart; ELog LMainInit],
          []).
Proof.
  rewrite (X8_main_when_the_browser_does_not_start fake fake_env config_py
             (fixture_lib dom2) (boot no_browser) no_browser no_browser
             WebDriverException eq_refl eq_refl).
  reflexivity.
Defined.

(** X9 ([main], no exception escapes).  Once [utils.setup_logging()] has
    returned, [main] returns normally whatever the browser, the parser and
    the disk do; if [utils.setup_logging()] raises, [main] raises the same
    exception and does nothing else. *)
Theorem X9_main_returns_once_logging_is_set_up
  (W : Type) (env : Env W) (cfg : Config) (lib : Lib) (s : sys W) :
  (forall w1, logging_setup (world s) = (Ok tt, w1) ->
     exists s', main cfg lib s = Some (Ok tt, s'))
  /\ (forall e w1, logging_setup (world s) = (Raise e, w1) ->
        main cfg lib s = Some (Raise e, set_world w1 s)).
Proof.
  split.
  - intros w1 Hlog. rewrite main_unfold, Hlog.
    destruct (chrome_start w1) as [[[]|e] w2] eqn:Hc.
    + destruct (main_after_logging_started cfg lib (set_world w1 s) w2 Hc)
        as (s2 & s3 & _ & _ & _ & _ & Hrun).
      eexists. exact Hrun.
    + unfold main_after_logging, bind at 1, log at 1, emit at 1.
      unfold bind at 1, attempt.
      pose proof (ProductScraper_init_cases
                    (push_event (ELog LMainInit) (set_world w1 s))) as Hi.
      cbn [world push_event set_world] in Hi. rewrite Hc in Hi. rewrite Hi.
      eexists. reflexivity.
  - intros e w1 Hlog. rewrite main_unfold, Hlog. reflexivity.
Qed.

(** X10 ([main], session release).  When the logging is set up and the
    browser starts, [main] returns normally and releases the session
    whatever failed in between.  With [s3] the state in which the crawl
    and the sink, and the handler of their exceptions, leave the run:
    [driver.quit] is called once, on the world of [s3], after everything
    the crawl and the sink did; the world at the end is the one that call
    leaves, the line logged after it says whether it returned or raised,
    and the driver field is unset. *)
Theorem X10_session_is_quit_once_after_everything_else
  (W : Type) (env : Env W) (cfg : Config) (lib : Lib)
  (s : sys W) (w1 w2 : W)
  (Hlog : logging_setup (world s) = (Ok tt, w1))
  (Hchrome : chrome_start w1 = (Ok tt, w2)) :
  exists s' s3 mid,
    main cfg lib s = Some (Ok tt, s')
    /\ try_except (scrape_and_save cfg lib) (fun _ => log LCritical)
         (created_in w2 (set_world w1 s)) = Some (Ok tt, s3)
    /\ trace s3 = mid ++ ELog LSetupOk :: EChromeStart :: ELog LSetupStart
                  :: ELog LMainInit :: trace s
    /\ forallb inside_session mid = true
    /\ world s' = snd (driver_quit (world s3))
    /\ trace s' = ELog LMainFinished
                  :: ELog (closing_log (fst (driver_quit (world s3))))
                  :: EQuit :: trace s3
    /\ all_products_data s' = all_products_data s3
    /\ driver_set s' = false.
Proof.
  rewrite main_unfold, Hlog.
  destruct (main_after_logging_started cfg lib (set_world w1 s) w2 Hchrome)
    as (s2 & s3 & ((delta & Ht & Hf) & _) & Hs3 & Htry & _ & Hrun).
  cbn [trace created_in set_all_products_data set_driver_set push_event set_world]
    in Ht.
  eexists. exists s3.
  destruct Hs3 as [-> | ->].
  - exists delta. split; [exact Hrun|]. split; [exact Htry|].
    split; [exact Ht|]. split; [exact Hf|]. unfold closed. cbn. auto.
  - exists (ELog LCritical :: delta). split; [exact Hrun|]. split; [exact Htry|].
    split; [cbn; rewrite Ht; reflexivity|].
    split; [cbn; exact Hf|]. unfold closed. cbn. auto.
Qed.

(** The run on the two pages of the fixture: two files are written, then
    the browser is quit, after which it shows no page. *)
Lemma X10_two_page_run_witness :
  exists s',
    main config_py (fixture_lib dom2) (boot site2) = Some (Ok tt, s')
    /\ List.length (filter is_quit (trace s')) = 1%nat
    /\ firstn 3 (trace s') = [ELog LMainFinished; ELog LDriverClosed; EQuit]
    /\ shown (world s') = None
    /\ List.map fst (files (world s')) = [u "products.json"; u "products.csv"].
Proof.
  destruct (X10_session_is_quit_once_after_everything_else fake fake_env
              config_py (fixture_lib dom2) (boot site2) site2 site2
              eq_refl eq_refl)
    as (s' & s3 & mid & Hrun & _).
  exists s'. split; [exact Hrun|].
  vm_compute in Hrun. injection Hrun as <-. repeat split; reflexivity.
Defined.

Module CrawlResultFacts.

Section WithEnv.

Context {W : Type} {env : Env W}.
Variable cfg : Config.
Variable lib : Lib.

Lemma scrape_products_result (s : sys W) (data : list product) (s' : sys W) :
  scrape_products cfg lib s = Some (Ok data, s') ->
  data = all_products_data s'.
Proof.
  unfold scrape_products, _get_full_url, bind, lift_result, log, emit,
         get_all_products, ret.
  destruct (urljoin lib (BASE_URL cfg) (CATEGORY_PATH cfg)) as [start|e];
    [|discriminate].
  destruct (scrape_loop cfg lib (MAX_PAGES cfg) start _) as [[[pc|e] s1]|];
    [|discriminate|discriminate].
  intros H. injection H as <- <-. reflexivity.
Qed.

End WithEnv.

End CrawlResultFacts.
Import CrawlResultFacts.

(** X11 ([scrape_products], frame).  A call of [scrape_products] returns or
    raises; all it does is fetch, wait, read page sources, sleep and log: it
    never calls the sink and never starts or quits the browser.  It leaves
    the driver field as it was and only appends to the records, and what it
    returns is the list of all records the scraper object holds. *)
Theorem X11_scrape_products_only_crawls_and_appends
  (W : Type) (env : Env W) (cfg : Config) (lib : Lib) (s : sys W) :
  exists r s',
    scrape_products cfg lib s = Some (r, s')
    /\ keeps crawl_event s s'
    /\ (forall data, r = Ok data -> data = all_products_data s').
Proof.
  destruct (scrape_products_returns cfg lib s) as (r & s' & Hrun & _).
  exists r, s'. split; [exact Hrun|]. split.
  - apply (scrape_products_keeps cfg lib s r s' Hrun).
  - intros data ->. apply (scrape_products_result cfg lib s data s' Hrun).
Qed.

Module SinkOrderFacts.

Definition csv_log (r : result unit) : log_msg :=
  match r with Ok _ => LSavedCsv | Raise _ => LErrorCsv end.

Definition json_log (r : result unit) : log_msg :=
  match r with Ok _ => LSavedJson | Raise _ => LErrorJson end.

End SinkOrderFacts.
Import SinkOrderFacts.

(** X12 ([main], both files).  When the crawl has returned records and the
    output directory can be made, both save functions are called with the
    same records, the CSV one first; whether the CSV write succeeds or
    raises, the JSON write is attempted, and the saving ends normally. *)
Theorem X12_json_is_written_whatever_the_csv_write_does
  (W : Type) (env : Env W) (cfg : Config) (lib : Lib)
  (s s2 : sys W) (p : product) (data : list product)
  (w3 w4 w5 w6 : W) (r1 r2 : result unit)
  (Hscrape : scrape_products cfg lib s = Some (Ok (p :: data), s2))
  (Hdir1 : os_makedirs (world s2) = (Ok tt, w3))
  (Hcsv : dataframe_to_csv (p :: data) (OUTPUT_FILENAME_CSV cfg) w3 = (r1, w4))
  (Hdir2 : os_makedirs w4 = (Ok tt, w5))
  (Hjson : json_dump (p :: data) (OUTPUT_FILENAME_JSON cfg) w5 = (r2, w6)) :
  exists s',
    scrape_and_save cfg lib s = Some (Ok tt, s')
    /\ world s' = w6
    /\ all_products_data s' = all_products_data s2
    /\ trace s' =
       [ELog LSavingDone; ELog (json_log r2);
        EJsonDump (p :: data) (OUTPUT_FILENAME_JSON cfg); EMakedirs;
        ECall SaveToJson; ELog (csv_log r1);
        EToCsv (p :: data) (OUTPUT_FILENAME_CSV cfg); EMakedirs;
        ECall SaveToCsv; ELog (LSaving (S (List.length data)))]
       ++ trace s2.
Proof.
  unfold scrape_and_save, bind at 1. rewrite Hscrape.
  unfold save_to_csv, save_to_json. unfold log. unfold_m. cbn.
  rewrite Hdir1. cbn. rewrite Hcsv.
  destruct r1 as [[]|e1]; cbn; rewrite Hdir2; cbn; rewrite Hjson;
    destruct r2 as [[]|e2]; cbn; eexists; (split; [reflexivity|]);
    cbn; auto.
Qed.

(** A disk on which the CSV file cannot be written. *)
Definition csv_refused : fake :=
  {| site := site site2; shown := None; logging_ok := true; chrome_ok := true;
     quit_ok := true; makedirs_ok := true; csv_ok := false; json_ok := true;
     files := [] |}.

Lemma X12_csv_refused_witness :
  exists s',
    scrape_and_save config_py (fixture_lib dom2) (boot csv_refused)
      = Some (Ok tt, s')
    /\ List.map fst (files (world s')) = [u "products.json"]
    /\ In (ELog LErrorCsv) (trace s').
Proof.
  edestruct (X12_json_is_written_whatever_the_csv_write_does fake fake_env
               config_py (fixture_lib dom2) (boot csv_refused))
    as (s' & Hrun & Hw & _ & Htr).
  - lazy. reflexivity.
  - lazy. reflexivity.
  - lazy. reflexivity.
  - lazy. reflexivity.
  - lazy. reflexivity.
  - exists s'. split; [exact Hrun|]. rewrite Hw, Htr. split.
    + reflexivity.
    + simpl. tauto.
Defined.

(** X13 ([main], no output directory).  When the crawl has returned
    records and [os.makedirs] raises, the CSV save raises that exception
    before any write and the JSON save is never called: the exception
    leaves the saving step of [main] for its handler. *)
Theorem X13_no_output_directory_stops_the_sink
  (W : Type) (env : Env W) (cfg : Config) (lib : Lib)
  (s s2 : sys W) (p : product) (data : list product) (w3 : W) (e : exn)
  (Hscrape : scrape_products cfg lib s = Some (Ok (p :: data), s2))
  (Hdir : os_makedirs (world s2) = (Raise e, w3)) :
  scrape_and_save cfg lib s =
  Some (Raise e,
        set_world w3
          (push_event EMakedirs
             (push_event (ECall SaveToCsv)
                (push_event (ELog (LSaving (S (List.length data)))) s2)))).
Proof.
  unfold scrape_and_save, bind at 1. rewrite Hscrape.
  unfold save_to_csv. unfold log. unfold_m. cbn. rewrite Hdir. reflexivity.
Qed.

(** The two-page site with a disk on which no directory can be made. *)
Definition site2_no_directory : fake :=
  {| site := site site2; shown := None; logging_ok := true; chrome_ok := true;
     quit_ok := true; makedirs_ok := false; csv_ok := true; json_ok := true;
     files := [] |}.

Lemma X13_no_directory_witness :
  exists s',
    scrape_and_save config_py (fixture_lib dom2) (boot site2_no_directory)
      = Some (Raise OSError, s')
    /\ firstn 2 (trace s') = [EMakedirs; ECall SaveToCsv]
    /\ files (world s') = []
    /\ option_map (fun x => (fst x, firstn 4 (trace (snd x))))
         (main config_py (fixture_lib dom2) (boot site2_no_directory))
       = Some (Ok tt, [ELog LMainFinished; ELog LDriverClosed; EQuit;
                       ELog LCritical]).
Proof.
  eexists. split.
  - eapply (X13_no_output_directory_stops_the_sink fake fake_env config_py
              (fixture_lib dom2) (boot site2_no_directory)).
    + lazy. reflexivity.
    + lazy. reflexivity.
  - split; [reflexivity|]. split; [reflexivity|]. vm_compute. reflexivity.
Defined.

(* ================================================================== *)
(** * The branches of an iteration *)
(* ================================================================== *)

Module BranchFacts.

#[local] Arguments contains : simpl never.
#[local] Arguments u : simpl never.
#[local] Arguments lower : simpl never.

Section WithEnv.

Context {W : Type} {env : Env W}.
Variable cfg : Config.
Variable lib : Lib.

Ltac unfold_iteration :=
  unfold loop_iteration, page_try_block, next_url_after_failure, page_source,
         sleep, parse_listings, extend_products, get_all_products;
  unfold log; unfold_m.

(** The state after a page has loaded, its container has been found and
    its source has been read. *)
Definition after_page_loaded (cur html : pystr) (w : W) (s : sys W) : sys W :=
  {| world := w; clock_reads := clock_reads s;
     all_products_data := all_products_data s; driver_set := driver_set s;
     trace := ESource html :: ESleep true :: ELog LContainerFound :: EWait
              :: EGet cur :: trace s |}.

(** The warning for a page without products. *)
Definition empty_page_log (page_count : nat) : log_msg :=
  if (page_count =? 1)%nat then LNoProductsFirstPage
  else LNoProductsPage page_count.

Lemma loaded_page
  (cur : pystr) (page_count : nat) (s : sys W) (w1 w2 w3 : W) (html : pystr) :
  driver_get cur (world s) = (Ok tt, w1) ->
  wait_product_container w1 = (Ok tt, w2) ->
  driver_page_source w2 = (Ok html, w3) ->
  truthy html = true ->
  exists c nxt s' logs,
    loop_iteration cfg lib cur page_count s = Some (Ok (c, nxt), s')
    /\ all_products_data s' =
       all_products_data s
       ++ fst (parse_product_listings cfg lib html (clock_reads s))
    /\ clock_reads s' = snd (parse_product_listings cfg lib html (clock_reads s))
    /\ trace s' = logs ++ trace (after_page_loaded cur html w3 s)
    /\ forallb quiet logs = true
    /\ (fst (parse_product_listings cfg lib html (clock_reads s)) = [] ->
        In (ELog (empty_page_log page_count)) logs)
    /\ (forall n, find_next_page_url cfg lib html = Ok n ->
          nxt = n /\ c = (if truthy_opt n then Continue else Break)
          /\ world s' = w3).
Proof.
  intros Hg Hw Hs Ht. unfold_iteration. unfold empty_page_log. cbn.
  rewrite Hg. cbn. rewrite Hw. cbn. rewrite Hs. cbn. rewrite Ht. cbn.
  destruct (parse_product_listings cfg lib html (clock_reads s)) as [ps k].
  run_cases;
    eexists; eexists; eexists;
    (lazymatch goal with
     | |- exists logs : list event, Some (_, ?st) = _ /\ _ =>
         let tr := eval cbn in (trace st) in
         let p := events_before tr
                    (ESource html :: ESleep true :: ELog LContainerFound
                     :: EWait :: EGet cur :: trace s) in
         exists p
     end);
    (split; [reflexivity|]); cbn;
    (split; [reflexivity|]); (split; [reflexivity|]);
    (split; [reflexivity|]); (split; [reflexivity|]);
    (split; [intros H; cbn; try discriminate; tauto|]);
    intros n Hn; try discriminate;
    injection Hn as <-; cbn; repeat split;
    repeat match goal with
           | H : truthy_opt _ = _ |- _ => cbn in H; try rewrite H; clear H
           end;
    try reflexivity; try discriminate.
Qed.

(** The next URL a recovery settles on, from how the reading of the page
    source ends. *)
Definition recovered_url (r : result pystr) : option pystr :=
  match r with
  | Ok html =>
      match find_next_page_url cfg lib html with
      | Ok n => n
      | Raise _ => None
      end
  | Raise _ => None
  end.

Lemma empty_source
  (cur : pystr) (page_count : nat) (s : sys W) (w1 w2 w3 w4 : W)
  (r : result pystr) :
  driver_get cur (world s) = (Ok tt, w1) ->
  wait_product_container w1 = (Ok tt, w2) ->
  driver_page_source w2 = (Ok [], w3) ->
  driver_page_source w3 = (r, w4) ->
  exists s',
    loop_iteration cfg lib cur page_count s
      = Some (Ok (Continue, recovered_url r), s')
    /\ all_products_data s' = all_products_data s
    /\ clock_reads s' = clock_reads s
    /\ world s' = w4
    /\ In (ELog (LNoHtml page_count)) (trace s').
Proof.
  intros Hg Hw Hs Hr. unfold_iteration. unfold recovered_url. cbn.
  rewrite Hg. cbn. rewrite Hw. cbn. rewrite Hs. cbn. rewrite Hr.
  destruct r as [html|e]; cbn.
  - destruct (find_next_page_url cfg lib html) as [n|e]; cbn;
      eexists; (split; [reflexivity|]); cbn; tauto.
  - eexists. split; [reflexivity|]. cbn. tauto.
Qed.

(** The log lines of the two recoveries that follow an exception. *)
Definition recovery_logs (e : exn) (page_count : nat) : log_msg * log_msg :=
  if is_TimeoutException e
  then (LPageLoadTimeout page_count, LNextFailedAfterTimeout)
  else (LUnexpectedError page_count, LNextFailedAfterError).

Lemma failed_get_recovers
  (cur : pystr) (page_count : nat) (s : sys W) (e : exn) (w1 w2 : W)
  (r : result pystr) :
  driver_get cur (world s) = (Raise e, w1) ->
  is_TimeoutException e = true \/ is_WebDriverException e = false ->
  driver_page_source w1 = (r, w2) ->
  exists s',
    loop_iteration cfg lib cur page_count s
      = Some (Ok (Continue, recovered_url r), s')
    /\ all_products_data s' = all_products_data s
    /\ clock_reads s' = clock_reads s
    /\ world s' = w2
    /\ In (ELog (fst (recovery_logs e page_count))) (trace s')
    /\ ((exists html n, r = Ok html /\ find_next_page_url cfg lib html = Ok n)
        \/ In (ELog (snd (recovery_logs e page_count))) (trace s')).
Proof.
  intros Hg He Hr. unfold_iteration. unfold recovered_url, recovery_logs. cbn.
  rewrite Hg. cbn.
  assert ((is_TimeoutException e = true)
          \/ (is_TimeoutException e = false /\ is_WebDriverException e = false))
    as [Ht|[Ht Hwd]].
  { destruct He as [He|He]; [auto|].
    destruct (is_TimeoutException e) eqn:E; [auto|]. auto. }
  - rewrite Ht. cbn. rewrite Hr.
    destruct r as [html|e']; cbn.
    + destruct (find_next_page_url cfg lib html) as [n|e'] eqn:Ef; cbn;
        eexists; (split; [reflexivity|]); cbn; repeat split; eauto 6.
    + eexists. split; [reflexivity|]. cbn. repeat split; auto.
  - rewrite Ht, Hwd. cbn. rewrite Hr.
    destruct r as [html|e']; cbn.
    + destruct (find_next_page_url cfg lib html) as [n|e'] eqn:Ef; cbn;
        eexists; (split; [reflexivity|]); cbn; repeat split; eauto 6.
    + eexists. split; [reflexivity|]. cbn. repeat split; auto.
Qed.

End WithEnv.

End BranchFacts.
Import BranchFacts.

(** X14 (a page that loads).  When the page loads, the product container
    shows up and a non-empty source is read, the iteration appends exactly
    the records the extractor finds in that source.  Whether it found any
    does not decide how the loop goes on: a page without products is only
    logged, and the loop continues exactly when the resolver finds a
    non-empty next URL in the same source, and ends by [break] otherwise. *)
Theorem X14_loaded_page_appends_and_follows_the_link
  (W : Type) (env : Env W) (cfg : Config) (lib : Lib)
  (cur : pystr) (page_count : nat) (s : sys W) (w1 w2 w3 : W) (html : pystr)
  (Hget : driver_get cur (world s) = (Ok tt, w1))
  (Hwait : wait_product_container w1 = (Ok tt, w2))
  (Hsrc : driver_page_source w2 = (Ok html, w3))
  (Hhtml : truthy html = true) :
  exists c nxt s' logs,
    loop_iteration cfg lib cur page_count s = Some (Ok (c, nxt), s')
    /\ all_products_data s' =
       all_products_data s
       ++ fst (parse_product_listings cfg lib html (clock_reads s))
    /\ clock_reads s' = snd (parse_product_listings cfg lib html (clock_reads s))
    /\ trace s' = logs ++ trace (after_page_loaded cur html w3 s)
    /\ forallb quiet logs = true
    /\ (fst (parse_product_listings cfg lib html (clock_reads s)) = [] ->
        In (ELog (empty_page_log page_count)) logs)
    /\ (forall n, find_next_page_url cfg lib html = Ok n ->
          nxt = n /\ c = (if truthy_opt n then Continue else Break)
          /\ world s' = w3).
Proof.
  exact (loaded_page cfg lib cur page_count s w1 w2 w3 html Hget Hwait Hsrc Hhtml).
Qed.

(** A first page that lists nothing but links to page 2. *)
Definition dom_gap : list (pystr * (list container * option element)) :=
  [ (u "<gap>", ([], Some (link_element (u "Next") (u "/electronics/laptops?page=2")))) ].

Definition gap_site : fake := world_of [ (start_py, ok_page (u "<gap>")) ].

Lemma X14_empty_first_page_witness :
  exists s',
    loop_iteration config_py (fixture_lib dom_gap) start_py 1 (boot gap_site)
      = Some (Ok (Continue, Some page2_py), s')
    /\ all_products_data s' = []
    /\ In (ELog LNoProductsFirstPage) (trace s').
Proof.
  pose (shown1 := show (lookup start_py (site gap_site)) gap_site).
  destruct (X14_loaded_page_appends_and_follows_the_link fake fake_env
              config_py (fixture_lib dom_gap) start_py 1 (boot gap_site)
              shown1 shown1 shown1 (u "<gap>") eq_refl eq_refl eq_refl eq_refl)
    as (c & nxt & s' & logs & Hrun & Hdata & _ & Htr & _ & Hlog & Hnext).
  destruct (Hnext (Some page2_py) eq_refl) as (-> & -> & _).
  exists s'. split; [exact Hrun|]. split; [rewrite Hdata; reflexivity|].
  rewrite Htr. apply in_or_app. left. apply Hlog. reflexivity.
Defined.

(** X15 (no HTML).  When the page loads but its source is empty, the
    iteration adds no record and reads no clock; it reads the source once
    more and goes back to the loop test with what the resolver finds in
    it, or with no URL when that reading or the resolver raises. *)
Theorem X15_empty_source_skips_the_page
  (W : Type) (env : Env W) (cfg : Config) (lib : Lib)
  (cur : pystr) (page_count : nat) (s : sys W) (w1 w2 w3 w4 : W)
  (r : result pystr)
  (Hget : driver_get cur (world s) = (Ok tt, w1))
  (Hwait : wait_product_container w1 = (Ok tt, w2))
  (Hsrc : driver_page_source w2 = (Ok [], w3))
  (Hagain : driver_page_source w3 = (r, w4)) :
  exists s',
    loop_iteration cfg lib cur page_count s
      = Some (Ok (Continue, recovered_url cfg lib r), s')
    /\ all_products_data s' = all_products_data s
    /\ clock_reads s' = clock_reads s
    /\ world s' = w4
    /\ In (ELog (LNoHtml page_count)) (trace s').
Proof.
  exact (empty_source cfg lib cur page_count s w1 w2 w3 w4 r
           Hget Hwait Hsrc Hagain).
Qed.

(** A site whose only page has an empty source. *)
Definition blank_site : fake := world_of [ (start_py, ok_page []) ].

Lemma X15_blank_page_witness :
  exists s',
    loop_iteration config_py (fixture_lib dom2) start_py 1 (boot blank_site)
      = Some (Ok (Continue, None), s')
    /\ all_products_data s' = []
    /\ while_loop config_py (fixture_lib dom2) 1 None 1 s' = Some (Ok (None, 1%nat), s').
Proof.
  pose (shown1 := show (lookup start_py (site blank_site)) blank_site).
  destruct (X15_empty_source_skips_the_page fake fake_env config_py
              (fixture_lib dom2) start_py 1 (boot blank_site)
              shown1 shown1 shown1 shown1 (Ok []) eq_refl eq_refl eq_refl eq_refl)
    as (s' & Hrun & Hdata & _).
  exists s'. split; [exact Hrun|]. split; [exact Hdata|]. reflexivity.
Defined.

(** X16 (a fetch that fails).  When [driver.get] raises a
    [TimeoutException], or an exception that is no [WebDriverException],
    the iteration adds no record and reads no clock; it logs the failure,
    reads the page source and goes back to the loop test with what the
    resolver finds in it, or, after logging that too, with no URL when the
    reading or the resolver raises. *)
Theorem X16_failed_fetch_recovers_from_the_page_source
  (W : Type) (env : Env W) (cfg : Config) (lib : Lib)
  (cur : pystr) (page_count : nat) (s : sys W) (e : exn) (w1 w2 : W)
  (r : result pystr)
  (Hget : driver_get cur (world s) = (Raise e, w1))
  (Hclass : is_TimeoutException e = true \/ is_WebDriverException e = false)
  (Hsrc : driver_page_source w1 = (r, w2)) :
  exists s',
    loop_iteration cfg lib cur page_count s
      = Some (Ok (Continue, recovered_url cfg lib r), s')
    /\ all_products_data s' = all_products_data s
    /\ clock_reads s' = clock_reads s
    /\ world s' = w2
    /\ In (ELog (fst (recovery_logs e page_count))) (trace s')
    /\ ((exists html n, r = Ok html /\ find_next_page_url cfg lib html = Ok n)
        \/ In (ELog (snd (recovery_logs e page_count))) (trace s')).
Proof.
  exact (failed_get_recovers cfg lib cur page_count s e w1 w2 r
           Hget Hclass Hsrc).
Qed.

(** The browser on page 1 of the site whose page 2 does not load. *)
Definition on_page1 : fake :=
  show (lookup start_py (site slow_page2)) slow_page2.

Lemma X16_slow_page_witness :
  exists s',
    loop_iteration budget_three (fixture_lib dom2) page2_py 2 (boot on_page1)
      = Some (Ok (Continue, Some page2_py), s')
    /\ all_products_data s' = []
    /\ In (ELog (LPageLoadTimeout 2)) (trace s').
Proof.
  destruct (X16_failed_fetch_recovers_from_the_page_source fake fake_env
              budget_three (fixture_lib dom2) page2_py 2 (boot on_page1)
              TimeoutException on_page1 on_page1 (Ok (u "<page 1>"))
              eq_refl (or_introl eq_refl) eq_refl)
    as (s' & Hrun & Hdata & _ & _ & Hlog & _).
  exists s'. split; [exact Hrun|]. split; [exact Hdata|]. exact Hlog.
Defined.

(* ================================================================== *)
(** * Why the loop ends, and the timestamps of a run *)
(* ================================================================== *)

Module EndFacts.

#[local] Arguments contains : simpl never.
#[local] Arguments u : simpl never.
#[local] Arguments lower : simpl never.

Section WithEnv.

Context {W : Type} {env : Env W}.
Variable cfg : Config.
Variable lib : Lib.

(** The newest event of the trace is the log line [m]. *)
Definition last_logged (m : log_msg) (s : sys W) : Prop :=
  exists older, trace s = ELog m :: older.

(** How a [break] leaves the loop: with no next URL, or with the current
    URL kept after the no-results marker or a fatal error. *)
Definition break_reason (page_count : nat) (nxt : option pystr) (s : sys W)
  : Prop :=
  (truthy_opt nxt = false /\ last_logged LNoNextLink s)
  \/ last_logged LNoResults s
  \/ last_logged (LWebDriverError page_count) s.

(** The records are stamped with the readings of the clock, in order. *)
Definition stamped (s : sys W) : Prop :=
  List.map scraped_timestamp (all_products_data s)
  = List.map (get_timestamp_string lib) (seq 0 (clock_reads s)).

Lemma listing_clock (html : pystr) (k : nat) (ps : list product) (k' : nat) :
  parse_product_listings cfg lib html k = (ps, k') ->
  k' = (k + List.length ps)%nat
  /\ List.map scraped_timestamp ps
     = List.map (get_timestamp_string lib) (seq k (List.length ps)).
Proof.
  intros E. rewrite parse_product_listings_loop in E.
  pose proof (parse_containers_clock cfg lib
                (select_product_containers lib html) k) as [H1 H2].
  rewrite E in H1, H2. exact (conj H1 H2).
Qed.

Lemma stamped_same (s s' : sys W) :
  all_products_data s' = all_products_data s ->
  clock_reads s' = clock_reads s -> stamped s -> stamped s'.
Proof. unfold stamped. intros -> ->. auto. Qed.

Lemma stamped_extend (s s' : sys W) (ps : list product) :
  all_products_data s' = all_products_data s ++ ps ->
  clock_reads s' = (clock_reads s + List.length ps)%nat ->
  List.map scraped_timestamp ps
  = List.map (get_timestamp_string lib) (seq (clock_reads s) (List.length ps)) ->
  stamped s -> stamped s'.
Proof.
  unfold stamped. intros -> -> Hps Hs.
  rewrite map_app, Hs, Hps, seq_app, map_app. reflexivity.
Qed.

Ltac unfold_iteration :=
  unfold loop_iteration, page_try_block, next_url_after_failure, page_source,
         sleep, parse_listings, extend_products, get_all_products;
  unfold log; unfold_m.

Ltac use_listing_clock :=
  match goal with
  | H : parse_product_listings cfg lib _ _ = (_, _) |- _ =>
      apply listing_clock in H; destruct H as [-> ?]
  end.

Lemma loop_iteration_end (cur : pystr) (page_count : nat) (s : sys W)
  (c : ctl) (nxt : option pystr) (s' : sys W) :
  loop_iteration cfg lib cur page_count s = Some (Ok (c, nxt), s') ->
  (stamped s -> stamped s')
  /\ (c = Break -> break_reason page_count nxt s').
Proof.
  unfold_iteration. unfold break_reason, last_logged. run_cases;
    intros H; try discriminate; injection H as <- <- <-;
    (split;
     [ intros Hst;
       first [ eapply stamped_same; [reflexivity | reflexivity | exact Hst]
             | use_listing_clock;
               eapply stamped_extend;
               [reflexivity | reflexivity | eassumption | exact Hst] ]
     | intros Hb; try discriminate; cbn;
       first [ left; split; [reflexivity | eexists; reflexivity]
             | left; split; [assumption | eexists; reflexivity]
             | right; left; eexists; reflexivity
             | right; right; eexists; reflexivity ] ]).
Qed.

(** Why the loop has ended: the budget is used up, or there is no next
    URL, or a [break] kept the URL after the no-results marker or a fatal
    error. *)
Definition end_reason (nxt : option pystr) (pc : nat) (s : sys W) : Prop :=
  (MAX_PAGES cfg <= pc)%nat
  \/ truthy_opt nxt = false
  \/ last_logged LNoResults s
  \/ last_logged (LWebDriverError pc) s.

Lemma while_loop_end (fuel : nat) :
  forall (cur : option pystr) (pc : nat) (s : sys W) nxt pc' s',
    while_loop cfg lib fuel cur pc s = Some (Ok (nxt, pc'), s') ->
    (stamped s -> stamped s') /\ end_reason nxt pc' s'.
Proof.
  unfold end_reason.
  induction fuel as [|fuel IH]; intros cur pc s nxt pc' s' Hrun.
  - destruct cur as [cur|]; simpl in Hrun.
    + destruct (truthy cur && (pc <? MAX_PAGES cfg)%nat) eqn:G; [discriminate|].
      injection Hrun as <- <- <-. split; [auto|].
      apply andb_false_iff in G as [G|G]; [auto|].
      apply Nat.ltb_ge in G. auto.
    + injection Hrun as <- <- <-. auto.
  - destruct cur as [cur|]; [|injection Hrun as <- <- <-; auto].
    destruct (truthy cur && (pc <? MAX_PAGES cfg)%nat) eqn:G.
    2:{ rewrite (while_loop_exit_guard cfg lib (S fuel) pc cur s G) in Hrun.
        injection Hrun as <- <- <-. split; [auto|].
        apply andb_false_iff in G as [G|G]; [auto|].
        apply Nat.ltb_ge in G. auto. }
    rewrite (while_loop_turn cfg lib fuel pc cur s G) in Hrun.
    destruct (loop_iteration cfg lib cur (S pc)
                (push_event (ELog (LScrapingPage (S pc) cur)) s))
      as [[[[c n]|e] s1]|] eqn:E; [|discriminate|discriminate].
    destruct (loop_iteration_end cur (S pc) _ c n s1 E) as [Hst Hbr].
    assert (stamped s -> stamped s1) as Hst'.
    { intros H. apply Hst. eapply stamped_same; [| |exact H]; reflexivity. }
    destruct c.
    + destruct (IH n (S pc) s1 nxt pc' s' Hrun) as [H1 H2]. split; auto.
    + injection Hrun as <- <- <-. split; [exact Hst'|].
      destruct (Hbr eq_refl) as [[Hn _]|[H|H]]; auto.
Qed.

Lemma scrape_products_stamped (s : sys W) r (s' : sys W) :
  scrape_products cfg lib s = Some (r, s') -> stamped s -> stamped s'.
Proof.
  unfold scrape_products, _get_full_url, scrape_loop.
  unfold bind at 1, lift_result.
  destruct (urljoin lib (BASE_URL cfg) (CATEGORY_PATH cfg)) as [start|e].
  2:{ intros H. injection H as _ <-. auto. }
  unfold bind at 1, log at 1, emit at 1.
  unfold bind at 1, log at 1, emit at 1.
  unfold bind at 1, bind at 1.
  destruct (while_loop cfg lib (MAX_PAGES cfg) (Some start) 0 _)
    as [[[[nxt pc]|e] s1]|] eqn:E.
  - destruct (while_loop_end _ _ _ _ _ _ _ E) as [Hst _].
    unfold get_all_products. unfold log. unfold_m. cbn [snd].
    destruct (MAX_PAGES cfg <=? pc)%nat; cbn; intros H; injection H as _ <-;
      intros H0; (eapply stamped_same; [| |apply Hst]);
      try reflexivity;
      (eapply stamped_same; [| |exact H0]); reflexivity.
  - exfalso.
    destruct (while_loop_post cfg lib (MAX_PAGES cfg) (Some start) 0
                (push_event (ELog (LInitialUrl start))
                   (push_event (ELog LStart) s)) ltac:(lia))
      as (a & b & c & Hc & _).
    rewrite Hc in E. discriminate.
  - discriminate.
Qed.

End WithEnv.

End EndFacts.
Import EndFacts.

(** X17 (why the loop ends).  The loop of [scrape_products] returns, and
    when it does one of these holds: the page count has reached the budget;
    or there is no next URL (no next link, or a recovery that found none);
    or the last thing logged is that the page shows no results, or a
    fatal error of the driver on the last page fetched. *)
Theorem X17_the_loop_ends_for_one_of_four_reasons
  (W : Type) (env : Env W) (cfg : Config) (lib : Lib)
  (start_url : pystr) (s : sys W) :
  exists nxt pc s',
    while_loop cfg lib (MAX_PAGES cfg) (Some start_url) 0 s
      = Some (Ok (nxt, pc), s')
    /\ ((MAX_PAGES cfg <= pc)%nat
        \/ truthy_opt nxt = false
        \/ last_logged LNoResults s'
        \/ last_logged (LWebDriverError pc) s').
Proof.
  destruct (while_loop_post cfg lib (MAX_PAGES cfg) (Some start_url) 0 s
              ltac:(lia)) as (nxt & pc & s' & Hrun & _).
  exists nxt, pc, s'. split; [exact Hrun|].
  apply (while_loop_end cfg lib _ _ _ _ _ _ _ Hrun).
Qed.

(** X18 (timestamps of a run).  If the records held so far are stamped, in
    order, with the readings of the clock made so far (as in a fresh
    process, with no record and no reading), they still are after
    [scrape_products]: every record of the run carries a reading of its
    own, and the readings follow the order of discovery. *)
Theorem X18_records_are_stamped_in_order_of_discovery
  (W : Type) (env : Env W) (cfg : Config) (lib : Lib) (s : sys W)
  (Hstamped : stamped lib s) :
  exists r s',
    scrape_products cfg lib s = Some (r, s')
    /\ stamped lib s'
    /\ clock_reads s' = List.length (all_products_data s').
Proof.
  destruct (scrape_products_returns cfg lib s) as (r & s' & Hrun & _).
  exists r, s'. split; [exact Hrun|].
  pose proof (scrape_products_stamped cfg lib s r s' Hrun Hstamped) as Hs.
  split; [exact Hs|].
  unfold stamped in Hs. apply (f_equal (@List.length pystr)) in Hs.
  rewrite !length_map, length_seq in Hs. symmetry. exact Hs.
Qed.

Lemma X18_two_page_run_witness :
  exists r s',
    scrape_products config_py (fixture_lib dom2) (boot site2) = Some (r, s')
    /\ List.map scraped_timestamp (all_products_data s')
       = [u "2024-01-01T00:00:00"; u "2024-01-01T00:00:01"].
Proof.
  destruct (X18_records_are_stamped_in_order_of_discovery fake fake_env
              config_py (fixture_lib dom2) (boot site2) eq_refl)
    as (r & s' & Hrun & Hst & _).
  exists r, s'. split; [exact Hrun|].
  vm_compute in Hrun. injection Hrun as _ <-. reflexivity.
Defined.

(* ================================================================== *)
(** * The first numeral of a rating, and the exceptions of a crawl *)
(* ================================================================== *)

Module RatingValueFacts.

Lemma re_search_rating_skip (pre t : pystr) :
  no_digit pre = true -> re_search_rating (pre ++ t) = re_search_rating t.
Proof.
  unfold no_digit. induction pre as [|c pre IH]; intros H; [reflexivity|].
  simpl in H. apply andb_true_iff in H as [Hc Hp]. apply negb_true_iff in Hc.
  simpl app. rewrite re_search_rating_cons, Hc. auto.
Qed.

(** What follows a numeral does not start with a digit. *)
Definition no_digit_ahead (rest : pystr) : Prop :=
  match rest with x :: _ => is_digit x = false | [] => True end.

Lemma rating_match_decimal (d f : N) (ds fs rest : pystr) :
  forallb is_digit (d :: ds) = true -> forallb is_digit (f :: fs) = true ->
  no_digit_ahead rest ->
  re_search_rating ((d :: ds) ++ 46%N :: (f :: fs) ++ rest)
  = Some ((d :: ds) ++ 46%N :: f :: fs).
Proof.
  intros H F Hr.
  change ((d :: ds) ++ 46%N :: (f :: fs) ++ rest)
    with (d :: (ds ++ 46%N :: (f :: fs) ++ rest)).
  rewrite re_search_rating_cons.
  pose proof H as Hd. simpl in Hd. apply andb_true_iff in Hd as [Hd _].
  rewrite Hd.
  change (d :: (ds ++ 46%N :: (f :: fs) ++ rest))
    with ((d :: ds) ++ 46%N :: (f :: fs) ++ rest).
  rewrite (span_digits_app (d :: ds) (46%N :: (f :: fs) ++ rest) H eq_refl).
  rewrite N.eqb_refl.
  rewrite (span_digits_app (f :: fs) rest F Hr). reflexivity.
Qed.

Lemma rating_match_integer (d : N) (ds rest : pystr) :
  forallb is_digit (d :: ds) = true ->
  match rest with
  | x :: _ => is_digit x = false /\ x <> 46%N
  | [] => True
  end ->
  re_search_rating ((d :: ds) ++ rest) = Some (d :: ds).
Proof.
  intros H Hr.
  change ((d :: ds) ++ rest) with (d :: (ds ++ rest)).
  rewrite re_search_rating_cons.
  pose proof H as Hd. simpl in Hd. apply andb_true_iff in Hd as [Hd _].
  rewrite Hd.
  change (d :: (ds ++ rest)) with ((d :: ds) ++ rest).
  rewrite (span_digits_app (d :: ds) rest H).
  - destruct rest as [|x rest]; [reflexivity|].
    destruct Hr as [_ Hx]. apply N.eqb_neq in Hx. rewrite Hx. reflexivity.
  - destruct rest as [|x rest]; [exact I | tauto].
Qed.

End RatingValueFacts.
Import RatingValueFacts.

(** X19 (rating, first numeral).  The rating is the first numeral of the
    text, rounded to a double: when the first digits of the text are
    followed by a dot and more digits, the rating is the double nearest to
    that decimal; when they are followed by nothing, or by a character
    that is neither a digit nor a dot, it is the double nearest to that
    integer.  Whatever comes after the numeral is ignored. *)
Theorem X19_rating_is_the_first_numeral (pre : pystr) (d : N) (ds : pystr)
  (Hpre : no_digit pre = true)
  (Hds : forallb is_digit (d :: ds) = true) :
  (forall f fs rest,
     forallb is_digit (f :: fs) = true -> no_digit_ahead rest ->
     extract_rating (Some (pre ++ (d :: ds) ++ 46%N :: (f :: fs) ++ rest))
     = Ok (Some (double_of_decimal false (digits_value ((d :: ds) ++ f :: fs))
                                   (- Z.of_nat (List.length (f :: fs))))))
  /\ (forall rest,
        match rest with
        | x :: _ => is_digit x = false /\ x <> 46%N
        | [] => True
        end ->
        extract_rating (Some (pre ++ (d :: ds) ++ rest))
        = Ok (Some (double_of_decimal false (digits_value (d :: ds)) 0))).
Proof.
  split.
  - intros f fs rest F Hr. unfold extract_rating.
    assert (truthy (pre ++ (d :: ds) ++ 46%N :: (f :: fs) ++ rest) = true) as ->
      by (destruct pre; reflexivity).
    rewrite (re_search_rating_skip pre _ Hpre).
    rewrite (rating_match_decimal d f ds fs rest Hds F Hr).
    rewrite (py_float_digits_dot_digits d f ds fs Hds F). reflexivity.
  - intros rest Hr. unfold extract_rating.
    assert (truthy (pre ++ (d :: ds) ++ rest) = true) as ->
      by (destruct pre; reflexivity).
    rewrite (re_search_rating_skip pre _ Hpre).
    rewrite (rating_match_integer d ds rest Hds Hr).
    rewrite (py_float_digits d ds Hds). reflexivity.
Qed.

(** 4.5 is 9 * 2^-1 and 4 is 2^2; the double nearest to 4.7 is
    5291729562160333 * 2^-50; in fullwidth digits (code points 65296 to
    65305) "4.5" reads the same. *)
Lemma X19_first_numeral_witness :
  extract_rating (Some (u "Rated 4.5 out of 5 stars"))
    = Ok (Some (PFinite false 9 (-1)))
  /\ extract_rating (Some (u "4 stars (12 votes)"))
    = Ok (Some (PFinite false 1 2))
  /\ extract_rating (Some (u "4.7/5"))
    = Ok (Some (PFinite false 5291729562160333 (-50)))
  /\ extract_rating (Some [65300; 46; 65301]%N)
    = Ok (Some (PFinite false 9 (-1))).
Proof.
  split; [|split; [|split]].
  - exact (proj1 (X19_rating_is_the_first_numeral (u "Rated ") 52%N []
                    eq_refl eq_refl)
             53%N [] (u " out of 5 stars") eq_refl eq_refl).
  - apply (proj2 (X19_rating_is_the_first_numeral [] 52%N [] eq_refl eq_refl)
             (u " stars (12 votes)")).
    split; [reflexivity | discriminate].
  - exact (proj1 (X19_rating_is_the_first_numeral [] 52%N [] eq_refl eq_refl)
             55%N [] (u "/5") eq_refl eq_refl).
  - exact (proj1 (X19_rating_is_the_first_numeral [] 65300%N [] eq_refl eq_refl)
             65301%N [] [] eq_refl I).
Defined.

(** X20 ([scrape_products], exceptions).  The only exception that leaves
    [scrape_products] is one raised while the start URL is built, before
    anything is logged or fetched; once the start URL is there, the call
    returns the records whatever the browser and the parser do on the
    pages. *)
Theorem X20_scrape_products_raises_only_for_the_start_url
  (W : Type) (env : Env W) (cfg : Config) (lib : Lib) (s : sys W) :
  (forall start,
     urljoin lib (BASE_URL cfg) (CATEGORY_PATH cfg) = Ok start ->
     exists data s',
       scrape_products cfg lib s = Some (Ok data, s')
       /\ data = all_products_data s')
  /\ (forall e,
        urljoin lib (BASE_URL cfg) (CATEGORY_PATH cfg) = Raise e ->
        scrape_products cfg lib s = Some (Raise e, s)).
Proof.
  split.
  - intros start Hu.
    unfold scrape_products, _get_full_url, bind at 1, lift_result. rewrite Hu.
    unfold bind at 1, log at 1, emit at 1.
    unfold bind at 1, log at 1, emit at 1.
    unfold bind at 1.
    destruct (scrape_loop_post cfg lib start
                (push_event (ELog (LInitialUrl start))
                   (push_event (ELog LStart) s)))
      as (pc & s1 & -> & _).
    unfold get_all_products. unfold log. unfold_m.
    eexists; eexists; split; reflexivity.
  - intros e Hu.
    unfold scrape_products, _get_full_url, bind at 1, lift_result. rewrite Hu.
    reflexivity.
Qed.
